(** * geoglows-mcp-test: the MCP data server and the plotting callback

    A shallow embedding of [src/mcp/geoglows_mcp_server.py] and of
    [plot_streamflow] from [src/agents/agent.py].

    The Python code is glue around pandas, the geoglows data client, json
    and matplotlib.  Values that flow through it are modelled as data
    ([pyvalue], [Series], [DataFrame]); a call that may raise returns a
    [result]; the callback, which draws, prints and stores an artifact,
    runs in a monad that records each such call.  What is computed
    outside the repository and is not determined by the code (the
    geoglows client, the parsing and printing of dates and floats, the
    JSON decoder, the frame constructor, the figure renderer and the
    failure of a call) is an operation of one of the classes [Runtime],
    [GeoglowsData] and [Agent.World].  Module [Example] instantiates the
    three, so that every function can be run. *)

From Stdlib Require Import ZArith List String Ascii Bool Lia DecimalString.
Import ListNotations.

Local Open Scope string_scope.
Local Open Scope list_scope.
Set Warnings "-register-all".

(* ================================================================== *)
(** ** Python values, exceptions and the error monad *)

Module Py.

(** A raised exception: its class name and its message. *)
Record exn : Type := Exn { exn_class : string; exn_msg : string }.

Inductive result (A : Type) : Type :=
| Ok (a : A)
| Raise (e : exn).
Arguments Ok {A} a.
Arguments Raise {A} e.

Definition bind {A B} (c : result A) (k : A -> result B) : result B :=
  match c with
  | Ok a => k a
  | Raise e => Raise e
  end.

(** [for x in xs: acc = f(acc, x)], stopping at the first exception. *)
Fixpoint foldM {A B} (f : A -> B -> result A) (xs : list B) (acc : A)
  : result A :=
  match xs with
  | [] => Ok acc
  | x :: xs' => bind (f acc x) (foldM f xs')
  end.

Fixpoint mapM {A B} (f : A -> result B) (xs : list A) : result (list B) :=
  match xs with
  | [] => Ok []
  | x :: xs' =>
      bind (f x) (fun y => bind (mapM f xs') (fun ys => Ok (y :: ys)))
  end.

(** Column and index labels, and dictionary keys: Python [str] or [int].
    A [str] is a sequence of code points below 256, one per [ascii]. *)
Inductive label : Type :=
| L_str (s : string)
| L_int (z : Z).

Definition label_eqb (a b : label) : bool :=
  match a, b with
  | L_str s, L_str t => String.eqb s t
  | L_int x, L_int y => Z.eqb x y
  | _, _ => false
  end.

(** A Python [float]: the special values, or [m * 2^e]. *)
Inductive pyfloat : Type :=
| F_nan
| F_inf (negative : bool)
| F_finite (m e : Z).

(** [pandas.Timestamp]: nanoseconds since the epoch (UTC for an aware
    timestamp, wall clock for a naive one) and the time zone, if any. *)
Record Timestamp : Type := mkTimestamp { ts_value : Z; ts_tz : option string }.

(** The Python objects the two modules handle.  A [dict] keeps insertion
    order, so it is an association list. *)
Inductive pyvalue : Type :=
| PNone
| PBool (b : bool)
| PInt (z : Z)
| PFloat (f : pyfloat)
| PStr (s : string)
| PTimestamp (t : Timestamp)
| PNaT
| PList (l : list pyvalue)
| PDict (d : list (label * pyvalue)).

Definition pydict : Type := list (label * pyvalue).

(** [d.get(k)] *)
Fixpoint dict_get (d : pydict) (k : label) : option pyvalue :=
  match d with
  | [] => None
  | (k', v) :: d' => if label_eqb k' k then Some v else dict_get d' k
  end.

(** [d[k] = v]: overwrite in place, or append. *)
Fixpoint dict_set (d : pydict) (k : label) (v : pyvalue) : pydict :=
  match d with
  | [] => [(k, v)]
  | (k', v') :: d' =>
      if label_eqb k' k then (k', v) :: d' else (k', v') :: dict_set d' k v
  end.

(** [dict(pairs)] *)
Definition dict_of_pairs (pairs : list (label * pyvalue)) : pydict :=
  fold_left (fun d kv => dict_set d (fst kv) (snd kv)) pairs [].

(** Truth value of an optional string argument: [None] and [''] are false. *)
Definition truthy (s : option string) : bool :=
  match s with
  | None => false
  | Some "" => false
  | Some _ => true
  end.

Definition KeyError (k : string) : exn := Exn "KeyError" k.
Definition TypeError (m : string) : exn := Exn "TypeError" m.
Definition ValueError (m : string) : exn := Exn "ValueError" m.
Definition AttributeError (m : string) : exn := Exn "AttributeError" m.

End Py.
Export Py.

Declare Scope py_scope.
Delimit Scope py_scope with py.
Notation "x <- c ;; k" := (bind c (fun x => k))
  (at level 61, c at next level, right associativity) : py_scope.
Local Open Scope py_scope.

(* ================================================================== *)
(** ** The part of pandas the code relies on *)

Module Pandas.

(** A column (or an index) with its dtype.  [S_datetime tz v] is
    [datetime64[ns]] ([tz = None]) or [datetime64[ns, tz]]; a missing
    entry ([NaT]) is [None]. *)
Inductive Series : Type :=
| S_datetime (tz : option string) (v : list (option Z))
| S_float (v : list pyfloat)
| S_int (v : list Z)
| S_bool (v : list bool)
| S_object (v : list pyvalue).

Definition box_datetime (tz : option string) (x : option Z) : pyvalue :=
  match x with
  | Some ns => PTimestamp (mkTimestamp ns tz)
  | None => PNaT
  end.

(** The elements as Python objects, as [apply] and [to_dict] see them. *)
Definition series_values (s : Series) : list pyvalue :=
  match s with
  | S_datetime tz v => map (box_datetime tz) v
  | S_float v => map PFloat v
  | S_int v => map PInt v
  | S_bool v => map PBool v
  | S_object v => v
  end.

Definition series_len (s : Series) : nat := List.length (series_values s).

(** [pd.api.types.is_datetime64_any_dtype] *)
Definition is_datetime64_any_dtype (s : Series) : bool :=
  match s with
  | S_datetime _ _ => true
  | _ => false
  end.

(** [pd.notna] on a scalar *)
Definition notna (x : pyvalue) : bool :=
  match x with
  | PNone | PNaT | PFloat F_nan => false
  | _ => true
  end.

Record Index : Type := mkIndex { index_name : option label; index_data : Series }.

(** A frame: its index and its columns in order.  Frames with a single
    index level are modelled; a label may be carried by several
    columns. *)
Record DataFrame : Type :=
  mkDataFrame { df_index : Index; df_columns : list (label * Series) }.

Definition columns (df : DataFrame) : list label := map fst (df_columns df).

Definition nrows (df : DataFrame) : nat := series_len (index_data (df_index df)).

(** A frame whose columns are as long as its index, as in every frame
    pandas builds, and whose column labels are pairwise distinct. *)
Definition wf_frame (df : DataFrame) : Prop :=
  Forall (fun c => series_len (snd c) = nrows df) (df_columns df) /\
  NoDup (columns df).

(** [label in df.columns] *)
Definition contains (df : DataFrame) (l : label) : bool :=
  existsb (label_eqb l) (columns df).

Definition label_str (l : label) : string :=
  match l with
  | L_str s => s
  | L_int z => DecimalString.NilZero.string_of_int (Z.to_int z)
  end.

Fixpoint find_column (cols : list (label * Series)) (l : label)
  : option Series :=
  match cols with
  | [] => None
  | (l', s) :: cols' => if label_eqb l' l then Some s else find_column cols' l
  end.

(** The columns labelled [l], in order: what [df[l]] selects. *)
Definition labelled (cols : list (label * Series)) (l : label) : list Series :=
  map snd (filter (fun c => label_eqb (fst c) l) cols).

(** [df[l]] on a frame in which at most one column is labelled [l] (with
    several, pandas returns a frame: see [convert_column]). *)
Definition getitem (df : DataFrame) (l : label) : result Series :=
  match find_column (df_columns df) l with
  | Some s => Ok s
  | None => Raise (KeyError (label_str l))
  end.

Fixpoint replace_column (cols : list (label * Series)) (l : label) (s : Series)
  : list (label * Series) :=
  match cols with
  | [] => [(l, s)]
  | (l', s') :: cols' =>
      if label_eqb l' l then (l', s) :: cols'
      else (l', s') :: replace_column cols' l s
  end.

(** [df[l] = s] for a series [s] built from a column of [df] (same index). *)
Definition setitem (df : DataFrame) (l : label) (s : Series) : DataFrame :=
  mkDataFrame (df_index df) (replace_column (df_columns df) l s).

(** [Series.apply(f)]: the function applied to each element; the outcome is
    an object column, in which a [None] the function returned stays
    [None] (pandas 2).  An exception raised by [f] propagates. *)
Definition Series_apply (f : pyvalue -> result pyvalue) (s : Series)
  : result Series :=
  vs <- mapM f (series_values s) ;; Ok (S_object vs).

(** [pd.RangeIndex(n)] *)
Definition RangeIndex (n : nat) : Index :=
  mkIndex None (S_int (map Z.of_nat (seq 0 n))).

(** The label [reset_index] gives the column made from the index: the
    name of the index, and for an unnamed index ['index'], or ['level_0']
    when ['index'] is taken. *)
Definition index_label (df : DataFrame) : label :=
  match index_name (df_index df) with
  | Some n => n
  | None => if contains df (L_str "index") then L_str "level_0"
            else L_str "index"
  end.

(** [df.reset_index()]: the index becomes the first column and a fresh
    [RangeIndex] replaces it.  pandas refuses to insert a column whose
    label is already in use. *)
Definition reset_index (df : DataFrame) : result DataFrame :=
  let name := index_label df in
  if contains df name then
    Raise (ValueError ("cannot insert " ++ label_str name ++ ", already exists"))
  else
    Ok (mkDataFrame (RangeIndex (nrows df))
                    ((name, index_data (df_index df)) :: df_columns df)).

(** [df.to_dict(orient='records')]: one dict per row, keyed by column label. *)
Definition record_at (df : DataFrame) (i : nat) : pydict :=
  dict_of_pairs
    (map (fun c => (fst c, nth i (series_values (snd c)) PNone)) (df_columns df)).

Definition to_dict_records (df : DataFrame) : list pydict :=
  map (record_at df) (seq 0 (nrows df)).

(** Selection by a boolean mask. *)
Fixpoint select {A} (mask : list bool) (xs : list A) : list A :=
  match mask, xs with
  | b :: mask', x :: xs' => if b then x :: select mask' xs' else select mask' xs'
  | _, _ => []
  end.

Definition series_select (mask : list bool) (s : Series) : Series :=
  match s with
  | S_datetime tz v => S_datetime tz (select mask v)
  | S_float v => S_float (select mask v)
  | S_int v => S_int (select mask v)
  | S_bool v => S_bool (select mask v)
  | S_object v => S_object (select mask v)
  end.

(** The positions a mask selects, counted from [start]. *)
Definition positions (mask : list bool) (start : nat) : list nat :=
  select mask (seq start (List.length mask)).

(** A column with the rows a mask selects. *)
Definition select_rows (mask : list bool) (c : label * Series)
  : label * Series :=
  (fst c, series_select mask (snd c)).

(** [df[mask]] for a mask computed from [df.index]. *)
Definition getitem_mask (df : DataFrame) (mask : list bool) : DataFrame :=
  mkDataFrame
    (mkIndex (index_name (df_index df))
             (series_select mask (index_data (df_index df))))
    (map (fun c => (fst c, series_select mask (snd c))) (df_columns df)).

End Pandas.
Export Pandas.

(* ================================================================== *)
(** ** Services outside the repository *)

(** What the Python runtime and pandas compute from values and text. *)
Class Runtime : Type := {
  (** [Timestamp.isoformat()] *)
  isoformat : Timestamp -> string;
  (** [float.__repr__] of the finite float [m * 2^e] *)
  float_repr : Z -> Z -> string;
  (** the same float as pandas' JSON writer prints it (ten digits) *)
  float_repr_ujson : Z -> Z -> string;
  (** [pd.to_datetime(values)] on values that are not datetimes yet: the
      time zone and the parsed instants, one per value, or an exception *)
  to_datetime : list pyvalue -> result (option string * list (option Z));
  to_datetime_length : forall vs r,
    to_datetime vs = Ok r -> List.length (snd r) = List.length vs;
  (** [pd.to_datetime(text, utc=True)]: an aware UTC instant, [NaT]
      ([None]), or an exception *)
  to_datetime_utc : string -> result (option Z);
  (** [json.loads] *)
  json_loads : string -> result pyvalue;
  (** [str(x)] for a float, a list or a dict *)
  str_other : pyvalue -> string;
}.

(** [pd.to_datetime(series)]: datetimes are returned as they are. *)
Definition pd_to_datetime {RT : Runtime} (s : Series) : result Series :=
  match s with
  | S_datetime tz v => Ok s
  | _ => r <- to_datetime (series_values s) ;; Ok (S_datetime (fst r) (snd r))
  end.

(** [geoglows.data], called with [format='df']. *)
Class GeoglowsData : Type := {
  data_forecast : Z -> option string -> result DataFrame;
  data_retrospective : Z -> result DataFrame;
  data_forecast_stats : Z -> option string -> result DataFrame;
  data_return_periods : Z -> result DataFrame;
}.

(* ================================================================== *)
(** ** Text *)

Module Text.
Local Open Scope string_scope.

Definition nl : string := String "010"%char "".
Definition dquote : string := String "034"%char "".
Definition backslash : string := String "092"%char "".

Definition Z_str (z : Z) : string :=
  DecimalString.NilZero.string_of_int (Z.to_int z).

Definition hex_digit (n : nat) : string :=
  String (nth n (list_ascii_of_string "0123456789abcdef") "0"%char) "".

(** [\u00XX] for a code point below 256 *)
Definition u_escape (c : ascii) : string :=
  let n := nat_of_ascii c in
  backslash ++ "u00" ++ hex_digit (n / 16) ++ hex_digit (n mod 16).

Fixpoint spaces (n : nat) : string :=
  match n with
  | O => ""
  | S n' => String " "%char (spaces n')
  end.

Fixpoint flat_map_string (f : ascii -> string) (s : string) : string :=
  match s with
  | EmptyString => ""
  | String c s' => f c ++ flat_map_string f s'
  end.

End Text.
Import Text.

(* ================================================================== *)
(** ** [json.dumps(obj, indent=2)] *)

Module Json.
Local Open Scope string_scope.
Section Dumps.
Context {RT : Runtime}.

(** One character inside a JSON string, with [ensure_ascii=True]:
    the backslash, the double quote and everything outside the printable
    range 32..126 are escaped. *)
Definition escape_char (c : ascii) : string :=
  let n := nat_of_ascii c in
  if Nat.eqb n 34 then backslash ++ dquote
  else if Nat.eqb n 92 then backslash ++ backslash
  else if Nat.eqb n 10 then backslash ++ "n"
  else if Nat.eqb n 13 then backslash ++ "r"
  else if Nat.eqb n 9 then backslash ++ "t"
  else if Nat.eqb n 8 then backslash ++ "b"
  else if Nat.eqb n 12 then backslash ++ "f"
  else if (Nat.ltb n 32 || Nat.ltb 126 n)%bool then u_escape c
  else String c "".

Definition encode_str (s : string) : string :=
  dquote ++ flat_map_string escape_char s ++ dquote.

Definition encode_float (f : pyfloat) : string :=
  match f with
  | F_nan => "NaN"
  | F_inf false => "Infinity"
  | F_inf true => "-Infinity"
  | F_finite m e => float_repr m e
  end.

Definition encode_key (k : label) : string :=
  match k with
  | L_str s => encode_str s
  | L_int z => dquote ++ Z_str z ++ dquote
  end.

Definition newline_indent (level : nat) : string := nl ++ spaces (2 * level).

Definition not_serializable (cls : string) : exn :=
  TypeError ("Object of type " ++ cls ++ " is not JSON serializable").

(** The encoder, at nesting depth [level], on values it encodes within
    the interpreter's limits: the nesting below the recursion limit, and
    every [int] short enough for its decimal text (at most 4300 digits
    by default).  The unserializable objects among the values of
    [pyvalue] are the pandas timestamps. *)
Fixpoint encode (level : nat) (v : pyvalue) {struct v} : result string :=
  match v with
  | PNone => Ok "null"
  | PBool true => Ok "true"
  | PBool false => Ok "false"
  | PInt z => Ok (Z_str z)
  | PFloat f => Ok (encode_float f)
  | PStr s => Ok (encode_str s)
  | PTimestamp _ => Raise (not_serializable "Timestamp")
  | PNaT => Raise (not_serializable "NaTType")
  | PList [] => Ok "[]"
  | PList l =>
      items <- (fix items (l : list pyvalue) : result (list string) :=
                  match l with
                  | [] => Ok []
                  | x :: l' =>
                      s <- encode (S level) x ;;
                      r <- items l' ;; Ok (s :: r)
                  end) l ;;
      Ok ("[" ++ newline_indent (S level)
              ++ String.concat ("," ++ newline_indent (S level)) items
              ++ newline_indent level ++ "]")
  | PDict [] => Ok "{}"
  | PDict d =>
      items <- (fix items (d : list (label * pyvalue)) : result (list string) :=
                  match d with
                  | [] => Ok []
                  | (k, x) :: d' =>
                      s <- encode (S level) x ;;
                      r <- items d' ;; Ok ((encode_key k ++ ": " ++ s) :: r)
                  end) d ;;
      Ok ("{" ++ newline_indent (S level)
              ++ String.concat ("," ++ newline_indent (S level)) items
              ++ newline_indent level ++ "}")
  end.

Definition dumps_indent2 (v : pyvalue) : result string := encode 0 v.

End Dumps.
End Json.

(* ================================================================== *)
(** ** [DataFrame.to_json()] *)

Module PandasJson.
Local Open Scope string_scope.
Section ToJson.
Context {RT : Runtime}.

(** pandas' writer escapes the slash as well and leaves code point 127
    alone. *)
Definition escape_char (c : ascii) : string :=
  let n := nat_of_ascii c in
  if Nat.eqb n 34 then backslash ++ dquote
  else if Nat.eqb n 92 then backslash ++ backslash
  else if Nat.eqb n 47 then backslash ++ "/"
  else if Nat.eqb n 10 then backslash ++ "n"
  else if Nat.eqb n 13 then backslash ++ "r"
  else if Nat.eqb n 9 then backslash ++ "t"
  else if Nat.eqb n 8 then backslash ++ "b"
  else if Nat.eqb n 12 then backslash ++ "f"
  else if (Nat.ltb n 32 || Nat.ltb 127 n)%bool then u_escape c
  else String c "".

Definition escape (s : string) : string := flat_map_string escape_char s.

(** [date_format='epoch'], [date_unit='ms']: C division of the
    nanosecond count. *)
Definition epoch_ms (t : Timestamp) : Z := Z.quot (ts_value t) 1000000.

Definition key_str (k : label) : string :=
  match k with
  | L_str s => escape s
  | L_int z => Z_str z
  end.

(** Compact encoding of a value: datetimes as epoch milliseconds, missing
    values and non-finite floats as [null]. *)
Fixpoint encode (v : pyvalue) {struct v} : string :=
  match v with
  | PNone | PNaT => "null"
  | PBool true => "true"
  | PBool false => "false"
  | PInt z => Z_str z
  | PFloat (F_finite m e) => float_repr_ujson m e
  | PFloat _ => "null"
  | PStr s => dquote ++ escape s ++ dquote
  | PTimestamp t => Z_str (epoch_ms t)
  | PList l => "[" ++ String.concat "," (map encode l) ++ "]"
  | PDict d =>
      "{" ++ String.concat ","
               (map (fun kv => dquote ++ key_str (fst kv) ++ dquote
                                 ++ ":" ++ encode (snd kv)) d)
          ++ "}"
  end.

(** An index entry used as an object key: its encoding, without the
    quotes of a string. *)
Definition index_key (v : pyvalue) : string :=
  match v with
  | PStr s => escape s
  | _ => encode v
  end.

(** Two numbers [m1 * 2^e1] and [m2 * 2^e2] are equal. *)
Definition dyadic_eqb (m1 e1 m2 e2 : Z) : bool :=
  let e := Z.min e1 e2 in
  (m1 * 2 ^ (e1 - e) =? m2 * 2 ^ (e2 - e))%Z.

(** A number as [m * 2^e], when the value is a finite number. *)
Definition dyadic (v : pyvalue) : option (Z * Z) :=
  match v with
  | PBool b => Some (if b then 1%Z else 0%Z, 0%Z)
  | PInt z => Some (z, 0%Z)
  | PFloat (F_finite m e) => Some (m, e)
  | _ => None
  end.

(** Two index entries are the same key for [Index.is_unique]: numbers
    by value whatever their type ([1], [True] and [1.0] are one key),
    timestamps by instant when both or neither carry a time zone, each
    missing value with itself.  An index holds hashable entries: lists
    and dicts are never the same key here. *)
Definition key_eqb (a b : pyvalue) : bool :=
  match dyadic a, dyadic b with
  | Some (m1, e1), Some (m2, e2) => dyadic_eqb m1 e1 m2 e2
  | Some _, None | None, Some _ => false
  | None, None =>
      match a, b with
      | PNone, PNone => true
      | PNaT, PNaT => true
      | PFloat F_nan, PFloat F_nan => true
      | PFloat (F_inf x), PFloat (F_inf y) => Bool.eqb x y
      | PStr s, PStr t => String.eqb s t
      | PTimestamp s, PTimestamp t =>
          (ts_value s =? ts_value t)%Z &&
          match ts_tz s, ts_tz t with
          | Some _, Some _ | None, None => true
          | _, _ => false
          end
      | _, _ => false
      end
  end.

Fixpoint distinct {A} (eqb : A -> A -> bool) (xs : list A) : bool :=
  match xs with
  | [] => true
  | x :: xs' => negb (existsb (eqb x) xs') && distinct eqb xs'
  end.

Definition column_object (keys : list string) (s : Series) : string :=
  "{" ++ String.concat ","
           (map (fun kv => dquote ++ fst kv ++ dquote ++ ":" ++ encode (snd kv))
                (combine keys (series_values s)))
      ++ "}".

(** [df.to_json()] with the default [orient='columns']: an object per
    column, keyed by the index entries.  The writer first requires the
    index entries, then the column labels, to be unique as labels (not
    as printed keys: the labels [1] and ['1'] are two).  Cells are
    scalars of the kinds of [pyvalue], nested within the depth the
    writer accepts. *)
Definition to_json (df : DataFrame) : result string :=
  let entries := series_values (index_data (df_index df)) in
  let keys := map index_key entries in
  if negb (distinct key_eqb entries) then
    Raise (ValueError "DataFrame index must be unique for orient='columns'.")
  else if negb (distinct label_eqb (columns df)) then
    Raise (ValueError "DataFrame columns must be unique for orient='columns'.")
  else
    Ok ("{" ++ String.concat ","
                 (map (fun c => dquote ++ key_str (fst c) ++ dquote ++ ":"
                                  ++ column_object keys (snd c))
                      (df_columns df))
            ++ "}").

End ToJson.
End PandasJson.

(* ================================================================== *)
(** ** [src/mcp/geoglows_mcp_server.py] *)

Module GeoglowsMcpServer.

(** *** The registered tools

    Each [@mcp.tool()] decorator registers the function below it under
    its own name, with the parameters of its signature.  ([get_reach_id]
    is commented out in the source and is not registered.) *)

Inductive annotation : Type :=
| A_int            (* int *)
| A_optional_str   (* Optional[str] *)
| A_dict.          (* dict *)

Record parameter : Type := mkParameter {
  param_name : string;
  param_type : annotation;
  param_default : option pyvalue;   (* [None]: the argument is required *)
}.

Record tool : Type := mkTool {
  tool_name : string;
  tool_params : list parameter;
  tool_returns : annotation;        (* the declared return annotation *)
}.

Definition river_id_param : parameter := mkParameter "river_id" A_int None.

Definition optional_str (name : string) : parameter :=
  mkParameter name A_optional_str (Some PNone).

Definition get_forecasted_streamflow_tool : tool :=
  mkTool "get_forecasted_streamflow"
         [river_id_param; optional_str "date"] A_dict.

Definition get_historical_streamflow_tool : tool :=
  mkTool "get_historical_streamflow"
         [river_id_param; optional_str "start_date"; optional_str "end_date"]
         A_dict.

Definition get_forecast_stats_tool : tool :=
  mkTool "get_forecast_stats"
         [river_id_param; optional_str "date"] A_dict.

Definition get_return_periods_tool : tool :=
  mkTool "get_return_periods" [river_id_param] A_dict.

Definition registered_tools : list tool :=
  [ get_forecasted_streamflow_tool;
    get_historical_streamflow_tool;
    get_forecast_stats_tool;
    get_return_periods_tool ].

Definition is_river_id (p : parameter) : bool :=
  String.eqb (param_name p) "river_id" &&
  match param_type p, param_default p with
  | A_int, None => true
  | _, _ => false
  end.

(** An optional date argument: [Optional[str]] with default [None]. *)
Definition is_optional_date (p : parameter) : bool :=
  match param_type p, param_default p with
  | A_optional_str, Some PNone => true
  | _, _ => false
  end.

(** A tool takes the river identifier, and takes a date argument. *)
Definition takes_river_id (t : tool) : Prop :=
  exists p, In p (tool_params t) /\ is_river_id p = true.

Definition takes_optional_date (t : tool) : Prop :=
  exists p, In p (tool_params t) /\ is_optional_date p = true.

Section Server.
Context {RT : Runtime} {GD : GeoglowsData}.

(** [lambda x: x.isoformat() if pd.notna(x) else None] *)
Definition isoformat_or_none (x : pyvalue) : result pyvalue :=
  if notna x then
    match x with
    | PTimestamp t => Ok (PStr (isoformat t))
    | _ => Raise (AttributeError "object has no attribute 'isoformat'")
    end
  else Ok PNone.

(** The body of the loop over [df_copy.columns].  When several columns
    are labelled [col], [df_copy[col]] is a frame, which has no dtype:
    [is_datetime64_any_dtype] is false of it and the columns stay as
    they are. *)
Definition convert_column (df_copy : DataFrame) (col : label)
  : result DataFrame :=
  match labelled (df_columns df_copy) col with
  | [] => Raise (KeyError (label_str col))
  | [c] =>
      if is_datetime64_any_dtype c then
        c' <- Series_apply isoformat_or_none c ;;
        Ok (setitem df_copy col c')
      else Ok df_copy
  | _ :: _ :: _ => Ok df_copy
  end.

Definition dataframe_to_json_serializable (df : DataFrame)
  : result (list pydict) :=
  df_copy <- reset_index df ;;
  df_copy <- foldM convert_column (columns df_copy) df_copy ;;
  Ok (to_dict_records df_copy).

(** For the statements below: what the loop leaves in place of an entry of
    a datetime column, and of a whole column. *)
Definition converted_cell (tz : option string) (x : option Z) : pyvalue :=
  match x with
  | Some ns => PStr (isoformat (mkTimestamp ns tz))
  | None => PNone
  end.

Definition converted (s : Series) : Series :=
  match s with
  | S_datetime tz v => S_object (map (converted_cell tz) v)
  | _ => s
  end.

(** The columns of [df.reset_index()]: the index first. *)
Definition reset_columns (df : DataFrame) : list (label * Series) :=
  (index_label df, index_data (df_index df)) :: df_columns df.

Definition convert_entry (c : label * Series) : label * Series :=
  (fst c, converted (snd c)).

(** The frame whose rows the function returns when [reset_index] succeeds
    and the labels are pairwise distinct (see [serializable_ok]). *)
Definition converted_frame (df : DataFrame) : DataFrame :=
  mkDataFrame (RangeIndex (nrows df)) (map convert_entry (reset_columns df)).

(** The label is carried by exactly one of the columns. *)
Definition occurs_once (l : label) (cols : list (label * Series)) : bool :=
  Nat.eqb (List.length (labelled cols l)) 1.

(** What the loop leaves in place of a column of [cols]: a column whose
    label another column carries too is left as it is. *)
Definition serialized_entry (cols : list (label * Series))
  (c : label * Series) : label * Series :=
  if occurs_once (fst c) cols then convert_entry c else c.

(** The columns of [cols] in the course of the loop, once the labels
    [seen] have had their turn. *)
Definition after (cols : list (label * Series)) (seen : list label)
  (c : label * Series) : label * Series :=
  if existsb (label_eqb (fst c)) seen && occurs_once (fst c) cols
  then convert_entry c else c.

(** The frame whose rows the function returns when [reset_index]
    succeeds, whatever the labels (see [serializable_any]). *)
Definition serialized_frame (df : DataFrame) : DataFrame :=
  mkDataFrame (RangeIndex (nrows df))
              (map (serialized_entry (reset_columns df)) (reset_columns df)).

(** [json.dumps(dataframe_to_json_serializable(df), indent=2)] *)
Definition dumps_records (df : DataFrame) : result string :=
  records <- dataframe_to_json_serializable df ;;
  Json.dumps_indent2 (PList (map PDict records)).

(** The wrapper as the specification words it: fetch through the data
    library, convert the timestamps to text, serialize to text. *)
Definition forwarding_wrapper (fetch : result DataFrame) : result string :=
  df <- fetch ;;
  records <- dataframe_to_json_serializable df ;;
  Json.dumps_indent2 (PList (map PDict records)).

Definition get_forecasted_streamflow (river_id : Z) (date : option string)
  : result string :=
  df <- data_forecast river_id date ;;
  dumps_records df.

(** The frame with the entries of its index replaced. *)
Definition with_index (df : DataFrame) (s : Series) : DataFrame :=
  mkDataFrame (mkIndex (index_name (df_index df)) s) (df_columns df).

(** [df.index = new_index]: the length must match. *)
Definition set_index_data (df : DataFrame) (s : Series) : result DataFrame :=
  if Nat.eqb (series_len s) (nrows df) then Ok (with_index df s)
  else Raise (ValueError "Length mismatch").

(** One comparison of an instant of the index with an aware bound; [NaT]
    on either side compares false. *)
Definition cmp_instant (op : Z -> Z -> bool) (bound x : option Z) : bool :=
  match x, bound with
  | Some t, Some b => op t b
  | _, _ => false
  end.

(** [df.index >= bound] and [df.index <= bound] for a bound made with
    [utc=True]: a naive index cannot be compared with an aware
    timestamp. *)
Definition index_compare (op : Z -> Z -> bool) (df : DataFrame)
  (bound : option Z) : result (list bool) :=
  match index_data (df_index df) with
  | S_datetime tz v =>
      match tz, bound with
      | None, Some _ =>
          Raise (TypeError
            "Invalid comparison between dtype=datetime64[ns] and Timestamp")
      | _, _ => Ok (map (cmp_instant op bound) v)
      end
  | _ => Raise (TypeError "Invalid comparison")
  end.

(** [if date: df = df[df.index <op> pd.to_datetime(date, utc=True)]] *)
Definition keep_within (op : Z -> Z -> bool) (date : option string)
  (df : DataFrame) : result DataFrame :=
  match date with
  | Some s =>
      if truthy date then
        b <- to_datetime_utc s ;;
        mask <- index_compare op df b ;;
        Ok (getitem_mask df mask)
      else Ok df
  | None => Ok df
  end.

Definition get_historical_streamflow (river_id : Z)
  (start_date end_date : option string) : result string :=
  df <- data_retrospective river_id ;;
  idx <- pd_to_datetime (index_data (df_index df)) ;;
  df <- set_index_data df idx ;;
  df <- keep_within Z.geb start_date df ;;
  df <- keep_within Z.leb end_date df ;;
  dumps_records df.

(** For the statements below.  The bound an argument stands for: none
    when the argument is absent or empty, otherwise the instant pandas
    reads from it ([None] for [NaT]). *)
Definition bound_of (date : option string) : result (option (option Z)) :=
  match date with
  | Some s =>
      if truthy date then b <- to_datetime_utc s ;; Ok (Some b) else Ok None
  | None => Ok None
  end.

Definition satisfies (op : Z -> Z -> bool) (bound : option (option Z))
  (x : option Z) : bool :=
  match bound with
  | Some b => cmp_instant op b x
  | None => true
  end.

(** An instant of the index lies within the two bounds. *)
Definition in_bounds (lo hi : option (option Z)) (x : option Z) : bool :=
  satisfies Z.geb lo x && satisfies Z.leb hi x.

(** A naive index cannot be compared with an instant. *)
Definition comparable (tz : option string) (bound : option (option Z)) : Prop :=
  match tz, bound with
  | None, Some (Some _) => False
  | _, _ => True
  end.

(** The fetch of [get_historical_streamflow] with what the function does
    to the frame before it serializes it. *)
Definition fetch_historical (river_id : Z) (start_date end_date : option string)
  : result DataFrame :=
  df <- data_retrospective river_id ;;
  idx <- pd_to_datetime (index_data (df_index df)) ;;
  df <- set_index_data df idx ;;
  df <- keep_within Z.geb start_date df ;;
  keep_within Z.leb end_date df.

Definition get_forecast_stats (river_id : Z) (date : option string)
  : result string :=
  df <- data_forecast_stats river_id date ;;
  dumps_records df.

Definition get_return_periods (river_id : Z) : result string :=
  df <- data_return_periods river_id ;;
  PandasJson.to_json df.

End Server.
End GeoglowsMcpServer.

(* ================================================================== *)
(** ** [plot_streamflow] from [src/agents/agent.py] *)

Module Agent.

(** Calls that leave the process: matplotlib, standard output and the
    artifact service of the agent framework. *)
Inductive Effect : Type :=
| Plot (col : string) (data : Series) (legend_label : option string)
    (* df[col].plot(label=...) *)
| FillBetween (x : Index) (lower upper : Series)
    (* ax.fill_between(df.index, lower, upper, color='silver', alpha=0.3,
       label='Uncertainty Bounds') *)
| Legend
    (* ax.legend() *)
| Savefig (format bbox_inches : string)
    (* plt.savefig(buffer, format='png', bbox_inches='tight') *)
| Close
    (* plt.close() *)
| Print (data : string)
    (* print(buffer.getvalue()) *)
| SaveArtifact (filename mime_type data : string).
    (* await tool_context.save_artifact(filename, Part.from_bytes(...)) *)

(** The world of the callback. *)
Class World : Type := {
  (** [pd.DataFrame(obj)] *)
  pd_DataFrame : pyvalue -> result DataFrame;
  (** the image [savefig] writes for the figure drawn by the calls so far *)
  png_bytes : list Effect -> string;
  (** whether a call raises, and what *)
  raises : Effect -> option exn;
}.

(** [tool_context]: the session state it carries. *)
Record ToolContext : Type := mkToolContext { state : pydict }.

Section Callback.
Context {RT : Runtime} {W : World}.

(** A computation that makes calls: it extends the trace of the calls
    made so far and returns or raises. *)
Definition M (A : Type) : Type := list Effect -> list Effect * result A.

Definition ret {A} (a : A) : M A := fun tr => (tr, Ok a).

Definition bindM {A B} (m : M A) (k : A -> M B) : M B :=
  fun tr =>
    match m tr with
    | (tr', Ok a) => k a tr'
    | (tr', Raise e) => (tr', Raise e)
    end.

Definition lift {A} (r : result A) : M A := fun tr => (tr, r).

Definition call (e : Effect) : M unit :=
  fun tr =>
    (tr ++ [e], match raises e with Some x => Raise x | None => Ok tt end).

Definition get_trace : M (list Effect) := fun tr => (tr, Ok tr).

Notation "x <~ c ;; k" := (bindM c (fun x => k))
  (at level 61, c at next level, right associativity).

(** [type(obj).__name__] *)
Definition type_name (obj : pyvalue) : string :=
  match obj with
  | PNone => "NoneType"
  | PBool _ => "bool"
  | PInt _ => "int"
  | PFloat _ => "float"
  | PStr _ => "str"
  | PTimestamp _ => "Timestamp"
  | PNaT => "NaTType"
  | PList _ => "list"
  | PDict _ => "dict"
  end.

(** [obj[key]] for a string key (the messages are those of Python 3.11
    and later) *)
Definition subscript (obj : pyvalue) (key : string) : result pyvalue :=
  match obj with
  | PDict d =>
      match dict_get d (L_str key) with
      | Some v => Ok v
      | None => Raise (KeyError key)
      end
  | PStr _ => Raise (TypeError "string indices must be integers, not 'str'")
  | PList _ =>
      Raise (TypeError "list indices must be integers or slices, not str")
  | _ =>
      Raise (TypeError ("'" ++ type_name obj
                            ++ "' object is not subscriptable"))
  end.

(** [x == 'text'] *)
Definition eq_str (x : pyvalue) (text : string) : bool :=
  match x with
  | PStr s => String.eqb s text
  | _ => false
  end.

(** [str(x)] *)
Definition py_str (x : pyvalue) : string :=
  match x with
  | PStr s => s
  | PInt z => Z_str z
  | PNone => "None"
  | PBool true => "True"
  | PBool false => "False"
  | _ => str_other x
  end.

(** [json.loads(x)]: the argument must be text. *)
Definition loads (x : pyvalue) : result pyvalue :=
  match x with
  | PStr s => json_loads s
  | _ => Raise (TypeError "the JSON object must be str, bytes or bytearray")
  end.

Fixpoint drop_column (cols : list (label * Series)) (l : label)
  : list (label * Series) :=
  match cols with
  | [] => []
  | (l', s) :: cols' =>
      if label_eqb l' l then cols' else (l', s) :: drop_column cols' l
  end.

(** [df.set_index(l, inplace=True)] *)
Definition set_index (df : DataFrame) (l : label) : result DataFrame :=
  s <- getitem df l ;;
  Ok (mkDataFrame (mkIndex (Some l) s) (drop_column (df_columns df) l)).

(** Lines 295-297: the stored response, decoded when it is text. *)
Definition plot_streamflow_response (tool_context : ToolContext)
  : result pyvalue :=
  mcp_response <- subscript (PDict (state tool_context)) "streamflow_out" ;;
  match mcp_response with
  | PStr s => json_loads s
  | _ => Ok mcp_response
  end.

(** Lines 306-310: the frame, indexed by time when there is a time column. *)
Definition plot_streamflow_frame (mcp_response : pyvalue) : result DataFrame :=
  data <- subscript mcp_response "data" ;;
  parsed <- loads data ;;
  df <- pd_DataFrame parsed ;;
  if contains df (L_str "time") then
    t <- getitem df (L_str "time") ;;
    t <- pd_to_datetime t ;;
    set_index (setitem df (L_str "time") t) (L_str "time")
  else Ok df.

(** Lines 314-335: the chain of branches; the value is the final
    [col_to_plot]. *)
Definition plot_streamflow_dispatch (mcp_response data_request : pyvalue)
  (df : DataFrame) : M (option string) :=
  if eq_str data_request "get_forecasted_streamflow" then
    let col_to_plot := "flow_median" in
    s <~ lift (getitem df (L_str col_to_plot)) ;;
    _ <~ call (Plot col_to_plot s (Some "Median Flow")) ;;
    lower <~ lift (getitem df (L_str "flow_uncertainty_lower")) ;;
    upper <~ lift (getitem df (L_str "flow_uncertainty_upper")) ;;
    _ <~ call (FillBetween (df_index df) lower upper) ;;
    _ <~ call Legend ;;
    ret (Some col_to_plot)
  else if eq_str data_request "get_historical_streamflow" then
    reach_id <~ lift (subscript mcp_response "reach_id") ;;
    let col_to_plot := py_str reach_id in
    s <~ lift (getitem df (L_str col_to_plot)) ;;
    _ <~ call (Plot col_to_plot s None) ;;
    ret (Some col_to_plot)
  else if eq_str data_request "get_forecast_stats" then
    ret (Some "flow_avg")
  else ret None.

Definition artifact_name : string := "geoglows_plot.png".

(** Lines 338-349: [if col_to_plot and col_to_plot in df.columns: ...] *)
Definition plot_streamflow_save (col_to_plot : option string) (df : DataFrame)
  : M unit :=
  match col_to_plot with
  | Some col =>
      if negb (String.eqb col "") && contains df (L_str col) then
        drawn <~ get_trace ;;
        _ <~ call (Savefig "png" "tight") ;;
        _ <~ call Close ;;
        _ <~ call (Print (png_bytes drawn)) ;;
        call (SaveArtifact artifact_name "image/png" (png_bytes drawn))
      else ret tt
  | None => ret tt
  end.

Definition plot_streamflow (tool_context : ToolContext) : M unit :=
  mcp_response <~ lift (plot_streamflow_response tool_context) ;;
  data_request <~ lift (subscript mcp_response "data_request") ;;
  if eq_str data_request "get_return_periods" then ret tt
  else
    df <~ lift (plot_streamflow_frame mcp_response) ;;
    col_to_plot <~ plot_streamflow_dispatch mcp_response data_request df ;;
    plot_streamflow_save col_to_plot df.

(** For the statements below: every artifact saved in a trace has the
    fixed name. *)
Definition fixed_name_only (tr : list Effect) : Prop :=
  forall filename mime_type data,
    In (SaveArtifact filename mime_type data) tr -> filename = artifact_name.

(** A computation under which that stays true. *)
Definition keeps_name {A} (m : M A) : Prop :=
  forall tr, fixed_name_only tr -> fixed_name_only (fst (m tr)).

(** The calls made and the outcome, starting from no call. *)
Definition run {A} (m : M A) : list Effect * result A := m [].

End Callback.
End Agent.

(* ================================================================== *)
(** ** A concrete runtime, data service and world

    An executable instance of the three interfaces, on which the
    functions above can be run: UTC timestamps, floats printed as exact
    decimals, a data service that serves fixed frames, and a world in
    which no call fails. *)

Module Example.
Local Open Scope Z_scope.

(** *** The civil calendar *)

Definition days_from_civil (y m d : Z) : Z :=
  let y' := if m <=? 2 then y - 1 else y in
  let era := y' / 400 in
  let yoe := y' - era * 400 in
  let mp := (m + 9) mod 12 in
  let doy := (153 * mp + 2) / 5 + d - 1 in
  let doe := yoe * 365 + yoe / 4 - yoe / 100 + doy in
  era * 146097 + doe - 719468.

Definition civil_from_days (z : Z) : Z * Z * Z :=
  let z := z + 719468 in
  let era := z / 146097 in
  let doe := z - era * 146097 in
  let yoe := (doe - doe / 1460 + doe / 36524 - doe / 146096) / 365 in
  let doy := doe - (365 * yoe + yoe / 4 - yoe / 100) in
  let mp := (5 * doy + 2) / 153 in
  let d := doy - (153 * mp + 2) / 5 + 1 in
  let m := if mp <? 10 then mp + 3 else mp - 9 in
  let y := yoe + era * 400 in
  (if m <=? 2 then y + 1 else y, m, d).

Definition ns_per_second : Z := 1000000000.
Definition ns_per_day : Z := 86400 * ns_per_second.

Fixpoint zeros (n : nat) : string :=
  match n with
  | O => ""%string
  | S n' => String "0"%char (zeros n')
  end.

(** [z] in decimal, padded with zeros to [width] digits. *)
Definition pad (width : nat) (z : Z) : string :=
  let s := Z_str z in
  (zeros (width - String.length s) ++ s)%string.

(** The ISO-8601 text of an instant; an aware timestamp is in UTC. *)
Definition iso (t : Timestamp) : string :=
  let days := ts_value t / ns_per_day in
  let rest := ts_value t mod ns_per_day in
  let '(y, m, d) := civil_from_days days in
  let secs := rest / ns_per_second in
  let frac := rest mod ns_per_second in
  (pad 4 y ++ "-" ++ pad 2 m ++ "-" ++ pad 2 d ++ "T"
   ++ pad 2 (secs / 3600) ++ ":" ++ pad 2 (secs / 60 mod 60) ++ ":"
   ++ pad 2 (secs mod 60)
   ++ (if (frac =? 0)%Z then ""
       else if (frac mod 1000 =? 0)%Z then "." ++ pad 6 (frac / 1000)
       else "." ++ pad 9 frac)
   ++ match ts_tz t with Some _ => "+00:00" | None => "" end)%string.

(** *** Reading dates *)

Definition digit (c : ascii) : option Z :=
  let n := nat_of_ascii c in
  if (Nat.leb 48 n && Nat.leb n 57)%bool then Some (Z.of_nat (n - 48)) else None.

Fixpoint digits_acc (s : string) (acc : Z) : option Z :=
  match s with
  | EmptyString => Some acc
  | String c s' =>
      match digit c with
      | Some d => digits_acc s' (10 * acc + d)
      | None => None
      end
  end.

(** The number written by the [len] characters of [s] from [start]. *)
Definition number_at (start len : nat) (s : string) : option Z :=
  let part := String.substring start len s in
  if Nat.eqb (String.length part) len then digits_acc part 0 else None.

Definition instant (y m d hh mm ss : Z) : Z :=
  days_from_civil y m d * ns_per_day + (hh * 3600 + mm * 60 + ss) * ns_per_second.

(** [YYYYMMDD] *)
Definition parse_yyyymmdd (s : string) : option Z :=
  if Nat.eqb (String.length s) 8 then
    match number_at 0 4 s, number_at 4 2 s, number_at 6 2 s with
    | Some y, Some m, Some d => Some (instant y m d 0 0 0)
    | _, _, _ => None
    end
  else None.

(** [YYYY-MM-DDTHH:MM:SS+00:00] *)
Definition parse_iso_utc (s : string) : option Z :=
  if (Nat.eqb (String.length s) 25
      && String.eqb (String.substring 19 6 s) "+00:00")%bool then
    match number_at 0 4 s, number_at 5 2 s, number_at 8 2 s,
          number_at 11 2 s, number_at 14 2 s, number_at 17 2 s with
    | Some y, Some m, Some d, Some hh, Some mm, Some ss =>
        Some (instant y m d hh mm ss)
    | _, _, _, _, _, _ => None
    end
  else None.

Definition unknown_format (s : string) : exn :=
  ValueError ("Unknown datetime string format, unable to parse: " ++ s).

Definition parse_value (x : pyvalue) : result (option Z) :=
  match x with
  | PStr s =>
      match parse_iso_utc s with
      | Some ns => Ok (Some ns)
      | None => Raise (unknown_format s)
      end
  | PNone | PNaT => Ok None
  | _ => Raise (TypeError "not convertible to datetime")
  end.

Definition parse_values (vs : list pyvalue)
  : result (option string * list (option Z)) :=
  ts <- mapM parse_value vs ;; Ok (Some "UTC"%string, ts).

Definition parse_bound (s : string) : result (option Z) :=
  if String.eqb s "NaT" then Ok None
  else match parse_yyyymmdd s with
       | Some ns => Ok (Some ns)
       | None => Raise (unknown_format s)
       end.

(** *** Printing floats: the exact decimal expansion of [m * 2^e] *)

Fixpoint strip_zeros (fuel : nat) (frac : Z) (width : nat) : Z * nat :=
  match fuel with
  | O => (frac, width)
  | S fuel' =>
      match width with
      | S (S w) => if frac mod 10 =? 0 then strip_zeros fuel' (frac / 10) (S w)
                   else (frac, width)
      | _ => (frac, width)
      end
  end.

Definition exact_decimal (m e : Z) : string :=
  let sign := if m <? 0 then "-"%string else ""%string in
  let a := Z.abs m in
  if 0 <=? e then (sign ++ Z_str (a * 2 ^ e) ++ ".0")%string
  else
    let k := Z.to_nat (- e) in
    let scaled := a * 5 ^ (- e) in
    let unit := 10 ^ (- e) in
    let '(frac, width) := strip_zeros k (scaled mod unit) k in
    (sign ++ Z_str (scaled / unit) ++ "." ++ pad width frac)%string.

(** *** The runtime *)

Definition printer_runtime (decoder : string -> result pyvalue) : Runtime.
Proof.
  refine {| isoformat := iso;
            float_repr := exact_decimal;
            float_repr_ujson := exact_decimal;
            to_datetime := parse_values;
            to_datetime_utc := parse_bound;
            json_loads := decoder;
            str_other := fun _ => "<object>"%string |}.
  intros vs r. unfold parse_values.
  destruct (mapM parse_value vs) as [ts|e] eqn:E; simpl; [|discriminate].
  intro H. injection H as <-. simpl. revert ts E.
  induction vs as [|x vs IH]; simpl; intros ts E.
  - injection E as <-. reflexivity.
  - destruct (parse_value x); simpl in E; [|discriminate].
    destruct (mapM parse_value vs); simpl in E; [|discriminate].
    injection E as <-. simpl. f_equal. now apply IH.
Defined.

(** A decoder for a given list of documents: the text of each, as
    [json.dumps] writes it, decodes to the document. *)
Fixpoint decode_known (docs : list pyvalue) (text : string) : result pyvalue :=
  match docs with
  | [] => Raise (Exn "JSONDecodeError" "Expecting value")
  | doc :: docs' =>
      match @Json.dumps_indent2 (printer_runtime (fun _ => Ok PNone)) doc with
      | Ok t => if String.eqb t text then Ok doc else decode_known docs' text
      | Raise _ => decode_known docs' text
      end
  end.

Definition dumps (doc : pyvalue) : string :=
  match @Json.dumps_indent2 (printer_runtime (fun _ => Ok PNone)) doc with
  | Ok t => t
  | Raise _ => ""%string
  end.

(** *** Frames as the data service returns them *)

Definition utc : option string := Some "UTC"%string.

Definition t0 : Z := instant 2025 10 24 0 0 0.
Definition hour : Z := 3600 * ns_per_second.

Definition time_index (ts : list (option Z)) : Index :=
  mkIndex (Some (L_str "time")) (S_datetime utc ts).

Definition river : Z := 760701588.

Definition forecast_frame : DataFrame :=
  mkDataFrame (time_index [Some t0; Some (t0 + 3 * hour)])
    [ (L_str "flow_uncertainty_upper",
         S_float [F_finite 15370691 (-12); F_finite 15456010 (-12)]);
      (L_str "flow_median",
         S_float [F_finite 15370691 (-12); F_finite 15456010 (-12)]);
      (L_str "flow_uncertainty_lower",
         S_float [F_finite 15370691 (-12); F_finite 15456009 (-12)]) ].

Definition day1 : Z := instant 1940 1 1 0 0 0.
Definition day2 : Z := instant 1940 1 2 0 0 0.

Definition retrospective_instants : list (option Z) :=
  [ Some (day1 - hour); Some day1; Some (day1 + 7 * hour); Some day2;
    Some (day2 + hour) ].

Definition retrospective_frame : DataFrame :=
  mkDataFrame (time_index retrospective_instants)
    [ (L_int river,
         S_float [F_finite 16792330 (-12); F_finite 16830096 (-12);
                  F_finite 16868392 (-12); F_finite 16906526 (-12);
                  F_finite 16944496 (-12)]) ].

Definition forecast_stats_frame : DataFrame :=
  mkDataFrame (time_index [Some t0; Some (t0 + hour)])
    [ (L_str "flow_avg", S_float [F_finite 15370691 (-12); F_nan]);
      (L_str "high_res", S_float [F_finite 14987 (-2); F_finite 15009 (-2)]) ].

Definition return_periods_frame : DataFrame :=
  mkDataFrame (mkIndex (Some (L_str "return_period")) (S_int [2; 5; 10]))
    [ (L_int river,
         S_float [F_finite 45603 (-1); F_finite 58915 (-1);
                  F_finite 67102 (-1)]) ].

(** A frame whose index carries the label of one of its columns, as after
    [df.set_index('time', drop=False)]. *)
Definition clash_frame : DataFrame :=
  mkDataFrame (time_index [Some t0])
    [ (L_str "time", S_object [PStr "2025-10-24"]);
      (L_str "flow_avg", S_int [3752]) ].

(** A frame with a missing instant in its index. *)
Definition gap_frame : DataFrame :=
  mkDataFrame (time_index [Some t0; None])
    [ (L_str "flow_avg", S_int [3752; 3773]) ].

(** The same with a missing instant in the index. *)
Definition clash_gap_frame : DataFrame :=
  mkDataFrame (time_index [Some t0; None])
    [ (L_str "time", S_object [PStr "2025-10-24"; PStr "2025-10-25"]);
      (L_str "flow_avg", S_int [3752; 3773]) ].

(** Two datetime columns under one label, the second row missing in
    both. *)
Definition twin_frame : DataFrame :=
  mkDataFrame (mkIndex None (S_int [0; 1]))
    [ (L_str "issued", S_datetime utc [Some t0; None]);
      (L_str "issued", S_datetime utc [Some (t0 + hour); None]) ].

Definition unknown_river : exn :=
  Exn "HTTPError" "404 Client Error: river_id not found".

Definition serve (frame : DataFrame) (river_id : Z) : result DataFrame :=
  if river_id =? river then Ok frame else Raise unknown_river.

Definition service : GeoglowsData :=
  {| data_forecast := fun river_id _ => serve forecast_frame river_id;
     data_retrospective := serve retrospective_frame;
     data_forecast_stats := fun river_id _ => serve forecast_stats_frame river_id;
     data_return_periods := serve return_periods_frame |}.

(** A data library whose return-period frame carries the instant of
    its computation. *)
Definition dated_frame : DataFrame :=
  mkDataFrame (mkIndex None (S_int [0]))
    [ (L_str "issued", S_datetime utc [Some t0]) ].

Definition dated_service : GeoglowsData :=
  {| data_forecast := fun river_id _ => serve forecast_frame river_id;
     data_retrospective := serve retrospective_frame;
     data_forecast_stats := fun river_id _ => serve forecast_stats_frame river_id;
     data_return_periods := serve dated_frame |}.

(** the object with the one key issued, holding the object with the one key 0 and the value 1761264000000 *)
Definition dated_text : string :=
  ("{" ++ Text.dquote ++ "issued" ++ Text.dquote ++ ":{"
       ++ Text.dquote ++ "0" ++ Text.dquote ++ ":1761264000000}}")%string.

(** *** The world of the callback *)

Definition add_key (keys : list label) (k : label) : list label :=
  if existsb (label_eqb k) keys then keys else (keys ++ [k])%list.

Definition record_keys (records : list pydict) : list label :=
  fold_left (fun keys r => fold_left add_key (map fst r) keys) records [].

Definition as_record (x : pyvalue) : result pydict :=
  match x with
  | PDict d => Ok d
  | _ => Raise (ValueError "DataFrame constructor not properly called!")
  end.

Definition as_int (x : pyvalue) : option Z :=
  match x with PInt z => Some z | _ => None end.

Definition as_float (x : pyvalue) : option pyfloat :=
  match x with PFloat f => Some f | _ => None end.

Fixpoint all_some {A} (xs : list (option A)) : option (list A) :=
  match xs with
  | [] => Some []
  | Some x :: xs' => option_map (cons x) (all_some xs')
  | None :: _ => None
  end.

(** A column takes the dtype of its cells: all integers, all floats, or
    objects. *)
Definition infer (cells : list pyvalue) : Series :=
  match all_some (map as_int cells) with
  | Some zs => S_int zs
  | None =>
      match all_some (map as_float cells) with
      | Some fs => S_float fs
      | None => S_object cells
      end
  end.

Definition cell (k : label) (r : pydict) : pyvalue :=
  match dict_get r k with
  | Some v => v
  | None => PFloat F_nan
  end.

(** [pd.DataFrame(records)] for a list of dicts. *)
Definition frame_of_records (obj : pyvalue) : result DataFrame :=
  match obj with
  | PList rows =>
      records <- mapM as_record rows ;;
      Ok (mkDataFrame (RangeIndex (List.length records))
            (map (fun k => (k, infer (map (cell k) records)))
                 (record_keys records)))
  | _ => Raise (ValueError "DataFrame constructor not properly called!")
  end.

Definition world : Agent.World :=
  {| Agent.pd_DataFrame := frame_of_records;
     Agent.png_bytes := fun drawn =>
       ("PNG image of " ++ Z_str (Z.of_nat (List.length drawn)) ++ " calls")%string;
     Agent.raises := fun _ => None |}.

(** *** Responses of the data agent *)

Definition forecast_records : pyvalue :=
  PList [ PDict [ (L_str "time", PStr "2025-10-24T00:00:00+00:00");
                  (L_str "flow_uncertainty_upper", PFloat (F_finite 15370691 (-12)));
                  (L_str "flow_median", PFloat (F_finite 15370691 (-12)));
                  (L_str "flow_uncertainty_lower", PFloat (F_finite 15370691 (-12))) ];
          PDict [ (L_str "time", PStr "2025-10-24T03:00:00+00:00");
                  (L_str "flow_uncertainty_upper", PFloat (F_finite 15456010 (-12)));
                  (L_str "flow_median", PFloat (F_finite 15456010 (-12)));
                  (L_str "flow_uncertainty_lower", PFloat (F_finite 15456009 (-12))) ] ].

Definition historical_records : pyvalue :=
  PList [ PDict [ (L_str "time", PStr "1940-01-01T07:00:00+00:00");
                  (L_str "760701588", PFloat (F_finite 16792330 (-12))) ];
          PDict [ (L_str "time", PStr "1940-01-01T08:00:00+00:00");
                  (L_str "760701588", PFloat (F_finite 16830096 (-12))) ] ].

Definition stats_records : pyvalue :=
  PList [ PDict [ (L_str "time", PStr "2025-10-24T00:00:00+00:00");
                  (L_str "flow_avg", PFloat (F_finite 15370691 (-12)));
                  (L_str "high_res", PFloat (F_finite 14987 (-2))) ];
          PDict [ (L_str "time", PStr "2025-10-24T01:00:00+00:00");
                  (L_str "flow_avg", PFloat F_nan);
                  (L_str "high_res", PFloat (F_finite 15009 (-2))) ] ].

(** The same request without the [flow_avg] column. *)
Definition stats_records_no_avg : pyvalue :=
  PList [ PDict [ (L_str "time", PStr "2025-10-24T00:00:00+00:00");
                  (L_str "high_res", PFloat (F_finite 14987 (-2))) ] ].

Definition return_periods_object : pyvalue :=
  PDict [ (L_str "760701588",
             PDict [ (L_str "2", PFloat (F_finite 45603 (-1)));
                     (L_str "5", PFloat (F_finite 58915 (-1))) ]) ].

(** [GeoglowsAgentOutput] as the framework stores it. *)
Definition response (data_request : string) (data : pyvalue) : pydict :=
  [ (L_str "data_request", PStr data_request);
    (L_str "reach_id", PInt river);
    (L_str "data", PStr (dumps data)) ].

Definition forecast_response : pydict :=
  response "get_forecasted_streamflow" forecast_records.
Definition historical_response : pydict :=
  response "get_historical_streamflow" historical_records.
Definition stats_response : pydict :=
  response "get_forecast_stats" stats_records.
Definition stats_response_no_avg : pydict :=
  response "get_forecast_stats" stats_records_no_avg.
Definition return_periods_response : pydict :=
  response "get_return_periods" return_periods_object.

Definition documents : list pyvalue :=
  [ forecast_records; historical_records; stats_records;
    stats_records_no_avg; return_periods_object;
    PDict forecast_response; PDict historical_response;
    PDict stats_response; PDict stats_response_no_avg;
    PDict return_periods_response ].

Definition runtime : Runtime := printer_runtime (decode_known documents).

Definition context (streamflow_out : pyvalue) : Agent.ToolContext :=
  Agent.mkToolContext [ (L_str "streamflow_out", streamflow_out) ].

(** The frame the callback builds from a stored response. *)
Definition frame_of (stored : pydict) : DataFrame :=
  match @Agent.plot_streamflow_frame runtime world (PDict stored) with
  | Ok df => df
  | Raise _ => mkDataFrame (RangeIndex 0) []
  end.

(** The callback in this world. *)
Definition plot : Agent.ToolContext -> Agent.M unit :=
  @Agent.plot_streamflow runtime world.

End Example.

(* ================================================================== *)
(** ** Further definitions for the statements *)

Module Statements.

(** Induction on values, with the hypothesis for the elements of a list
    and for the values of a dict. *)
Definition pyvalue_nested_ind (P : pyvalue -> Prop)
  (Hnone : P PNone)
  (Hbool : forall b, P (PBool b))
  (Hint : forall z, P (PInt z))
  (Hfloat : forall f, P (PFloat f))
  (Hstr : forall s, P (PStr s))
  (Htimestamp : forall t, P (PTimestamp t))
  (Hnat : P PNaT)
  (Hlist : forall l, Forall P l -> P (PList l))
  (Hdict : forall d, Forall (fun kv => P (snd kv)) d -> P (PDict d))
  : forall v, P v :=
  fix F (v : pyvalue) : P v :=
    match v with
    | PNone => Hnone
    | PBool b => Hbool b
    | PInt z => Hint z
    | PFloat f => Hfloat f
    | PStr s => Hstr s
    | PTimestamp t => Htimestamp t
    | PNaT => Hnat
    | PList l =>
        Hlist l ((fix G (l : list pyvalue) : Forall P l :=
                    match l with
                    | [] => Forall_nil P
                    | x :: l' => Forall_cons x (F x) (G l')
                    end) l)
    | PDict d =>
        Hdict d ((fix G (d : list (label * pyvalue))
                    : Forall (fun kv => P (snd kv)) d :=
                    match d with
                    | [] => Forall_nil _
                    | kv :: d' => Forall_cons kv (F (snd kv)) (G d')
                    end) d)
    end.

(** What [json.dumps] can write: anything but a timestamp or [NaT],
    at any depth. *)
Fixpoint json_serializable (v : pyvalue) : bool :=
  match v with
  | PTimestamp _ | PNaT => false
  | PList l => forallb json_serializable l
  | PDict d =>
      (fix all (d : list (label * pyvalue)) : bool :=
         match d with
         | [] => true
         | (_, x) :: d' => json_serializable x && all d'
         end) d
  | _ => true
  end.

(** The entry of a dict as the encoder writes it. *)
Definition encode_entry {RT : Runtime} (level : nat) (kv : label * pyvalue)
  : result string :=
  s <- Json.encode (S level) (snd kv) ;;
  Ok (Json.encode_key (fst kv) ++ ": " ++ s)%string.

(** A cell [json.dumps] writes whatever the limits of the interpreter:
    [None], a [bool], a [float], a [str], or an [int] of at most 4300
    decimal digits. *)
Definition plain_cell (v : pyvalue) : bool :=
  match v with
  | PNone | PBool _ | PFloat _ | PStr _ => true
  | PInt z => (Z.abs z <? 10 ^ 4300)%Z
  | _ => false
  end.

Definition plain_label (l : label) : bool :=
  match l with
  | L_str _ => true
  | L_int z => (Z.abs z <? 10 ^ 4300)%Z
  end.

(** The cells of the object columns of a frame, and its labels, are all
    of that kind. *)
Definition plain_frame (df : DataFrame) : Prop :=
  (forall l v, In (l, S_object v) (GeoglowsMcpServer.reset_columns df) ->
               forallb plain_cell v = true) /\
  (forall l s, In (l, s) (GeoglowsMcpServer.reset_columns df) ->
               plain_label l = true).

(** [class GeoglowsAgentOutput(BaseModel)]: the fields and their types. *)
Inductive field_type : Type := F_str | F_int.

Definition GeoglowsAgentOutput : list (string * field_type) :=
  [ ("data_request", F_str); ("reach_id", F_int); ("data", F_str) ]%string.

Definition has_type (t : field_type) (v : pyvalue) : bool :=
  match t, v with
  | F_str, PStr _ => true
  | F_int, PInt _ => true
  | _, _ => false
  end.

(** A mapping with every field of the schema, each of its type. *)
Definition conforms (schema : list (string * field_type)) (d : pydict) : bool :=
  forallb (fun f => match dict_get d (L_str (fst f)) with
                    | Some v => has_type (snd f) v
                    | None => false
                    end) schema.

(** [output_key] of [geoglows_data_agent]. *)
Definition output_key : string := "streamflow_out".

(** The calls that draw, and the calls that save. *)
Definition is_drawing (e : Agent.Effect) : bool :=
  match e with
  | Agent.Plot _ _ _ | Agent.FillBetween _ _ _ | Agent.Legend => true
  | _ => false
  end.

Definition saving_calls {W : Agent.World} (drawn : list Agent.Effect)
  : list Agent.Effect :=
  [ Agent.Savefig "png" "tight"; Agent.Close;
    Agent.Print (Agent.png_bytes drawn);
    Agent.SaveArtifact Agent.artifact_name "image/png"
      (Agent.png_bytes drawn) ].

(** A computation that makes drawing calls only. *)
Definition only_draws {A} (m : Agent.M A) : Prop :=
  forall tr, exists drawn,
    fst (m tr) = tr ++ drawn /\ forallb is_drawing drawn = true.

(** A world in which no call fails. *)
Definition calm (W : Agent.World) : Prop :=
  forall e, @Agent.raises W e = None.

End Statements.
Import Statements.

(** More frames and services to run the functions on. *)
Module MoreExamples.
Import Example.

(** A data library that answers every request with the same frame. *)
Definition serving (df : DataFrame) : GeoglowsData :=
  {| data_forecast := fun _ _ => Ok df;
     data_retrospective := fun _ => Ok df;
     data_forecast_stats := fun _ _ => Ok df;
     data_return_periods := fun _ => Ok df |}.

(** A frame whose column of timestamps has the object dtype. *)
Definition object_frame : DataFrame :=
  mkDataFrame (mkIndex None (S_int [0%Z]))
    [ (L_str "issued", S_object [PTimestamp (mkTimestamp t0 utc)]) ].

(** The forecast frame before any forecast step is available. *)
Definition empty_forecast_frame : DataFrame :=
  mkDataFrame (time_index [])
    [ (L_str "flow_uncertainty_upper", S_float []);
      (L_str "flow_median", S_float []);
      (L_str "flow_uncertainty_lower", S_float []) ].

(** The historical series with an index that carries no time zone. *)
Definition naive_frame : DataFrame :=
  mkDataFrame (mkIndex (Some (L_str "time"))
                       (S_datetime None retrospective_instants))
    (df_columns retrospective_frame).

(** The historical series with its index still as text. *)
Definition text_index_frame : DataFrame :=
  mkDataFrame (mkIndex (Some (L_str "time"))
                       (S_object [PStr "1940-01-01T00:00:00+00:00";
                                  PStr "yesterday"]))
    [ (L_int river, S_int [4099%Z; 4108%Z]) ].

(** A forecast whose data has the median and no band. *)
Definition median_only_records : pyvalue :=
  PList [ PDict [ (L_str "time", PStr "2025-10-24T00:00:00+00:00");
                  (L_str "flow_median", PFloat (F_finite 15370691 (-12))) ] ].

(** A forecast whose data has the median and the lower bound only. *)
Definition no_upper_records : pyvalue :=
  PList [ PDict [ (L_str "time", PStr "2025-10-24T00:00:00+00:00");
                  (L_str "flow_median", PFloat (F_finite 15370691 (-12)));
                  (L_str "flow_uncertainty_lower",
                     PFloat (F_finite 15370691 (-12))) ] ].

Definition runtime_more : Runtime :=
  printer_runtime
    (decode_known (median_only_records :: no_upper_records :: documents)).

Definition plot_more : Agent.ToolContext -> Agent.M unit :=
  @Agent.plot_streamflow runtime_more world.

(** A historical response that lost its reach identifier. *)
Definition no_reach_response : pydict :=
  [ (L_str "data_request", PStr "get_historical_streamflow");
    (L_str "data", PStr (dumps historical_records)) ].

(** A historical response for a reach the data is not about. *)
Definition other_reach_response : pydict :=
  [ (L_str "data_request", PStr "get_historical_streamflow");
    (L_str "reach_id", PInt 1%Z);
    (L_str "data", PStr (dumps historical_records)) ].

End MoreExamples.

(* ================================================================== *)
(** ** Facts about labels, dictionaries and frames *)

Module Facts.

Lemma label_eqb_eq (a b : label) : label_eqb a b = true <-> a = b.
Proof.
  destruct a as [s|x], b as [t|y]; simpl; split; intro H;
    try discriminate; try congruence.
  - apply String.eqb_eq in H. now subst.
  - injection H as ->. apply String.eqb_refl.
  - apply Z.eqb_eq in H. now subst.
  - injection H as ->. apply Z.eqb_refl.
Qed.

Lemma label_eqb_refl (a : label) : label_eqb a a = true.
Proof. now apply label_eqb_eq. Qed.

Lemma contains_In (df : DataFrame) (l : label) :
  contains df l = true <-> In l (columns df).
Proof.
  unfold contains. rewrite existsb_exists. split.
  - intros [x [Hin Hx]]. apply label_eqb_eq in Hx. now subst.
  - intro Hin. exists l. split; [assumption|apply label_eqb_refl].
Qed.

Lemma contains_not_In (df : DataFrame) (l : label) :
  contains df l = false <-> ~ In l (columns df).
Proof.
  rewrite <- contains_In. destruct (contains df l); split; congruence.
Qed.

Lemma getitem_contains (df : DataFrame) (l : label) (s : Series) :
  getitem df l = Ok s -> contains df l = true.
Proof.
  unfold getitem. destruct (find_column (df_columns df) l) eqn:E;
    [|discriminate].
  intros _. apply contains_In. unfold columns.
  induction (df_columns df) as [|[l' s'] cols IH]; simpl in *; [discriminate|].
  destruct (label_eqb l' l) eqn:El; [left; now apply label_eqb_eq|].
  right. now apply IH.
Qed.

(** A dictionary built from pairs with distinct keys is the list of pairs. *)
Lemma dict_set_fresh (d : pydict) (k : label) (v : pyvalue) :
  ~ In k (map fst d) -> dict_set d k v = d ++ [(k, v)].
Proof.
  induction d as [|[k' v'] d IH]; simpl; intro H; [reflexivity|].
  destruct (label_eqb k' k) eqn:E.
  - apply label_eqb_eq in E. subst. exfalso. apply H. now left.
  - rewrite IH; [reflexivity|]. intro Hin. apply H. now right.
Qed.

Lemma dict_of_pairs_acc (pairs acc : list (label * pyvalue)) :
  NoDup (map fst (acc ++ pairs)) ->
  fold_left (fun d kv => dict_set d (fst kv) (snd kv)) pairs acc = acc ++ pairs.
Proof.
  revert acc. induction pairs as [|[k v] pairs IH]; intros acc H; simpl.
  - now rewrite app_nil_r.
  - rewrite dict_set_fresh.
    + rewrite IH; rewrite <- app_assoc; [reflexivity|exact H].
    + rewrite map_app in H. simpl in H.
      apply NoDup_remove_2 in H. intro Hin. apply H.
      apply in_or_app. now left.
Qed.

Lemma dict_of_pairs_NoDup (pairs : list (label * pyvalue)) :
  NoDup (map fst pairs) -> dict_of_pairs pairs = pairs.
Proof. intro H. unfold dict_of_pairs. now rewrite dict_of_pairs_acc. Qed.


Lemma dict_get_set (d : pydict) (k l : label) (v : pyvalue) :
  dict_get (dict_set d k v) l
  = if label_eqb k l then Some v else dict_get d l.
Proof.
  induction d as [|[k' v'] d IH]; simpl; [reflexivity|].
  destruct (label_eqb k' k) eqn:E; simpl.
  - apply label_eqb_eq in E. subst k'. now destruct (label_eqb k l).
  - rewrite IH. destruct (label_eqb k' l) eqn:E'; [|reflexivity].
    destruct (label_eqb k l) eqn:E''; [|reflexivity].
    apply label_eqb_eq in E', E''. subst. now rewrite label_eqb_refl in E.
Qed.

(** Pairs under other keys leave a key as it is. *)
Lemma dict_get_fold_other (pairs : list (label * pyvalue)) (l : label) :
  forall acc,
  filter (fun kv => label_eqb (fst kv) l) pairs = [] ->
  dict_get (fold_left (fun d kv => dict_set d (fst kv) (snd kv)) pairs acc) l
  = dict_get acc l.
Proof.
  induction pairs as [|[k v] pairs IH]; intros acc H; simpl in *;
    [reflexivity|].
  destruct (label_eqb k l) eqn:E; [discriminate|].
  rewrite IH by assumption. now rewrite dict_get_set, E.
Qed.

(** The value under a key that one pair only carries. *)
Lemma dict_get_fold_once (pairs : list (label * pyvalue)) (l : label)
  (v : pyvalue) : forall acc,
  filter (fun kv => label_eqb (fst kv) l) pairs = [(l, v)] ->
  dict_get (fold_left (fun d kv => dict_set d (fst kv) (snd kv)) pairs acc) l
  = Some v.
Proof.
  induction pairs as [|[k x] pairs IH]; intros acc H; simpl in *;
    [discriminate|].
  destruct (label_eqb k l) eqn:E.
  - injection H as -> -> Hnil.
    rewrite dict_get_fold_other by assumption.
    now rewrite dict_get_set, label_eqb_refl.
  - now apply IH.
Qed.

Lemma select_all {A} (xs : list A) (mask : list bool) :
  Forall (fun b => b = true) mask ->
  List.length xs <= List.length mask ->
  select mask xs = xs.
Proof.
  revert mask. induction xs as [|x xs IH]; intros [|b mask] Hall Hlen;
    simpl in *; try reflexivity; try lia.
  inversion Hall; subst. f_equal. apply IH; [assumption|lia].
Qed.

Lemma select_filter {A} (p : A -> bool) (v : list A) :
  select (map p v) v = filter p v.
Proof.
  induction v as [|x v IH]; simpl; [reflexivity|].
  destruct (p x); now rewrite IH.
Qed.

Lemma select_nil {A} (mask : list bool) : select mask (@nil A) = [].
Proof. destruct mask; reflexivity. Qed.

(** Two selections in a row, the second mask computed on what the first
    kept, are one selection. *)
Lemma select_twice {A B} (p q : A -> bool) (v : list A) (xs : list B) :
  select (map q (select (map p v) v)) (select (map p v) xs)
  = select (map (fun x => p x && q x) v) xs.
Proof.
  revert xs. induction v as [|x v IH]; intros [|y xs]; simpl;
    try reflexivity.
  - destruct (p x); simpl; [destruct (q x)|]; now rewrite ?select_nil.
  - destruct (p x); simpl.
    + destruct (q x); now rewrite IH.
    + apply IH.
Qed.

Lemma map_select {A B} (f : A -> B) (xs : list A) :
  forall mask, map f (select mask xs) = select mask (map f xs).
Proof.
  induction xs as [|x xs IH]; intros [|b m]; simpl; try reflexivity.
  destruct b; simpl; now rewrite IH.
Qed.

Lemma series_values_select (mask : list bool) (s : Series) :
  series_values (series_select mask s) = select mask (series_values s).
Proof. destruct s; simpl; now rewrite ?map_select. Qed.

Lemma select_In {A} (mask : list bool) (xs : list A) (x : A) :
  In x (select mask xs) -> In x xs.
Proof.
  revert xs. induction mask as [|b mask IH]; intros [|y xs]; simpl;
    try contradiction.
  destruct b; simpl; intros H.
  - destruct H as [H|H]; [now left|right; now apply IH].
  - right. now apply IH.
Qed.

Lemma select_length_same {A B} (mask : list bool) (xs : list A) (ys : list B) :
  List.length xs = List.length ys ->
  List.length (select mask xs) = List.length (select mask ys).
Proof.
  revert xs ys. induction mask as [|b mask IH]; intros [|x xs] [|y ys] H;
    simpl in *; try reflexivity; try discriminate.
  destruct b; simpl; rewrite (IH xs ys) by lia; reflexivity.
Qed.

Lemma positions_bound (mask : list bool) (start p : nat) :
  In p (positions mask start) -> start <= p.
Proof.
  unfold positions. intro H. apply select_In in H. apply in_seq in H. lia.
Qed.

(** The entry a selection holds at [j] is the entry of the list at the
    position selected [j]-th. *)
Lemma select_nth {A} (d : A) (mask : list bool) :
  forall (xs : list A) (start j : nat),
  j < List.length (positions mask start) ->
  nth j (select mask xs) d = nth (nth j (positions mask start) 0 - start) xs d.
Proof.
  unfold positions.
  induction mask as [|b mask IH]; intros xs start j Hj; simpl in *; [lia|].
  destruct xs as [|x xs].
  - now destruct j, (nth _ _ _ - start).
  - destruct b; simpl in *.
    + destruct j as [|j]; [now rewrite Nat.sub_diag|].
      rewrite (IH xs (S start) j) by lia.
      assert (Hp : S start <= nth j (select mask (seq (S start) (List.length mask))) 0).
      { apply (positions_bound mask (S start)). apply nth_In.
        unfold positions. lia. }
      replace (nth j (select mask (seq (S start) (List.length mask))) 0 - start)
        with (S (nth j (select mask (seq (S start) (List.length mask))) 0 - S start))
        by lia.
      reflexivity.
    + rewrite (IH xs (S start) j) by lia.
      assert (Hp : S start <= nth j (select mask (seq (S start) (List.length mask))) 0).
      { apply (positions_bound mask (S start)). apply nth_In.
        unfold positions. lia. }
      replace (nth j (select mask (seq (S start) (List.length mask))) 0 - start)
        with (S (nth j (select mask (seq (S start) (List.length mask))) 0 - S start))
        by lia.
      reflexivity.
Qed.

(** The positions selected by a mask computed entry by entry. *)
Lemma positions_filter {A} (d : A) (p : A -> bool) (v : list A) (start : nat) :
  positions (map p v) start
  = filter (fun i => p (nth (i - start) v d)) (seq start (List.length v)).
Proof.
  unfold positions. rewrite length_map. revert start.
  induction v as [|x v IH]; intro start; simpl; [reflexivity|].
  rewrite Nat.sub_diag. rewrite (IH (S start)).
  assert (E : filter (fun i => p (nth (i - S start) v d))
                     (seq (S start) (List.length v))
              = filter (fun i => p match i - start with
                                   | 0 => x
                                   | S m => nth m v d
                                   end)
                       (seq (S start) (List.length v))).
  { apply filter_ext_in. intros i Hi. apply in_seq in Hi.
    replace (i - start) with (S (i - S start)) by lia. reflexivity. }
  rewrite E. now destruct (p x).
Qed.

Lemma map_nth_positions {A} (g : nat -> A) (rows : list nat) :
  map (fun j => g (nth j rows 0)) (seq 0 (List.length rows)) = map g rows.
Proof.
  induction rows as [|a rows IH]; simpl; [reflexivity|].
  f_equal. rewrite <- seq_shift, map_map. exact IH.
Qed.

Lemma filter_all {A} (xs : list A) : filter (fun _ => true) xs = xs.
Proof. induction xs as [|x xs IH]; simpl; [reflexivity|now rewrite IH]. Qed.

Ltac prove_wf :=
  split;
  [ repeat constructor
  | repeat (constructor; [simpl; intuition discriminate|]); constructor ].

End Facts.
Import Facts.

(* ================================================================== *)
(** ** The data server: failures of the data library *)

Module ServerErrors.
Import GeoglowsMcpServer.
Section Propagation.
Context {RT : Runtime} {GD : GeoglowsData}.

(** C4.  Whenever the call into the data library raises, each of the four
    functions raises that very exception: none catches, wraps or
    replaces it. *)
Theorem library_error_propagates
  (river_id : Z) (date start_date end_date : option string) (e : exn) :
  (data_forecast river_id date = Raise e ->
   get_forecasted_streamflow river_id date = Raise e) /\
  (data_retrospective river_id = Raise e ->
   get_historical_streamflow river_id start_date end_date = Raise e) /\
  (data_forecast_stats river_id date = Raise e ->
   get_forecast_stats river_id date = Raise e) /\
  (data_return_periods river_id = Raise e ->
   get_return_periods river_id = Raise e).
Proof.
  unfold get_forecasted_streamflow, get_historical_streamflow,
    get_forecast_stats, get_return_periods.
  repeat split; intros ->; reflexivity.
Qed.

End Propagation.

(** An unknown river: the client's error comes back from all four. *)
Lemma library_error_propagates_witness :
  @get_forecasted_streamflow Example.runtime Example.service 1%Z None
  = Raise Example.unknown_river /\
  @get_historical_streamflow Example.runtime Example.service 1%Z
    (Some "19400101") None
  = Raise Example.unknown_river /\
  @get_forecast_stats Example.runtime Example.service 1%Z None
  = Raise Example.unknown_river /\
  @get_return_periods Example.runtime Example.service 1%Z
  = Raise Example.unknown_river.
Proof.
  destruct (@library_error_propagates Example.runtime Example.service
              1%Z None (Some "19400101") None Example.unknown_river)
    as (Hf & Hh & Hs & Hr).
  split; [apply Hf; reflexivity|].
  split; [apply Hh; reflexivity|].
  split; [apply Hs; reflexivity|apply Hr; reflexivity].
Defined.

End ServerErrors.

(* ================================================================== *)
(** ** The data server: [dataframe_to_json_serializable] *)

Module ServerRecords.
Import GeoglowsMcpServer.
Section Records.
Context {RT : Runtime}.

Lemma apply_datetime (tz : option string) (v : list (option Z)) :
  Series_apply isoformat_or_none (S_datetime tz v)
  = Ok (converted (S_datetime tz v)).
Proof.
  unfold Series_apply. simpl.
  assert (H : mapM isoformat_or_none (map (box_datetime tz) v)
              = Ok (map (converted_cell tz) v)).
  { induction v as [|[ns|] v IH]; simpl; [reflexivity| |];
      rewrite IH; reflexivity. }
  now rewrite H.
Qed.

(** *** The loop, on any labels *)

Lemma converted_not_datetime (s : Series) :
  is_datetime64_any_dtype (converted s) = false.
Proof. destruct s; reflexivity. Qed.

Lemma converted_other (s : Series) :
  is_datetime64_any_dtype s = false -> converted s = s.
Proof. destruct s; simpl; intro H; [discriminate|reflexivity..]. Qed.

Lemma labelled_map (g : label * Series -> label * Series) cs l :
  (forall c, fst (g c) = fst c) ->
  labelled (map g cs) l
  = map (fun c => snd (g c)) (filter (fun c => label_eqb (fst c) l) cs).
Proof.
  intro Hg. unfold labelled.
  induction cs as [|c cs IH]; simpl; [reflexivity|].
  rewrite Hg. destruct (label_eqb (fst c) l); simpl; now rewrite IH.
Qed.

Lemma occurs_once_map (g : label * Series -> label * Series) cs l :
  (forall c, fst (g c) = fst c) ->
  occurs_once l (map g cs) = occurs_once l cs.
Proof.
  intro Hg. unfold occurs_once. rewrite (labelled_map g cs l Hg).
  unfold labelled. now rewrite !length_map.
Qed.

Lemma filter_label_In (cs : list (label * Series)) l c :
  In c (filter (fun c => label_eqb (fst c) l) cs) <-> In c cs /\ fst c = l.
Proof. rewrite filter_In, label_eqb_eq. reflexivity. Qed.

Lemma labelled_nil (cs : list (label * Series)) l :
  In l (map fst cs) -> filter (fun c => label_eqb (fst c) l) cs <> [].
Proof.
  intros Hin Hnil. apply in_map_iff in Hin as [c [<- Hc]].
  assert (H : In c (filter (fun x => label_eqb (fst x) (fst c)) cs))
    by now apply filter_label_In.
  rewrite Hnil in H. destruct H.
Qed.

(** Replacing the only column labelled [l]. *)
Lemma replace_column_once (g g' : label * Series -> label * Series)
  (cs : list (label * Series)) l c s' :
  (forall x, fst (g x) = fst x) ->
  filter (fun x => label_eqb (fst x) l) cs = [c] ->
  g' c = (l, s') ->
  (forall x, In x cs -> fst x <> l -> g' x = g x) ->
  replace_column (map g cs) l s' = map g' cs.
Proof.
  intros Hg. induction cs as [|a cs IH]; simpl; intros Hf Hc Hother;
    [discriminate|].
  pose proof (Hg a) as Ha. destruct (g a) as [la sa] eqn:Ega. simpl in Ha.
  subst la. destruct (label_eqb (fst a) l) eqn:E.
  - injection Hf as -> Hnil. apply label_eqb_eq in E.
    rewrite Hc, E. f_equal. apply map_ext_in. intros x Hx. symmetry.
    apply Hother; [now right|]. intro Hl.
    assert (H : In x (filter (fun x => label_eqb (fst x) l) cs))
      by now apply filter_label_In.
    rewrite Hnil in H. destruct H.
  - rewrite (Hother a); [|now left|].
    + rewrite Ega. f_equal. apply IH; [assumption..|].
      intros x Hx. apply Hother. now right.
    + intro Hl. apply label_eqb_eq in Hl. congruence.
Qed.

Section Loop.
Variable cols : list (label * Series).

Lemma after_label seen c : fst (after cols seen c) = fst c.
Proof. unfold after. now destruct (_ && _). Qed.

Lemma after_other seen l c :
  fst c <> l -> after cols (l :: seen) c = after cols seen c.
Proof.
  intro H. unfold after. simpl.
  destruct (label_eqb (fst c) l) eqn:E; [|reflexivity].
  apply label_eqb_eq in E. contradiction.
Qed.

Lemma after_many seen l c :
  fst c = l -> occurs_once l cols = false -> after cols seen c = c.
Proof. intros <- H. unfold after. rewrite H. now rewrite andb_false_r. Qed.

Lemma after_once seen l c :
  fst c = l -> occurs_once l cols = true ->
  after cols (l :: seen) c = convert_entry c.
Proof.
  intros <- H. unfold after. simpl. now rewrite label_eqb_refl, H.
Qed.

Lemma after_settled seen l c :
  fst c = l -> occurs_once l cols = true ->
  is_datetime64_any_dtype (snd (after cols seen c)) = false ->
  after cols seen c = convert_entry c.
Proof.
  intros Hl H. unfold after. subst l. rewrite H, andb_true_r.
  destruct (existsb _ seen); [reflexivity|].
  intro Hd. unfold convert_entry. rewrite converted_other by assumption.
  now destruct c.
Qed.

Lemma after_datetime seen c tz v :
  snd (after cols seen c) = S_datetime tz v -> after cols seen c = c.
Proof.
  unfold after. destruct (_ && _); [|reflexivity].
  unfold convert_entry. simpl. intro H.
  pose proof (converted_not_datetime (snd c)) as N. rewrite H in N.
  discriminate.
Qed.

(** One turn of the loop. *)
Lemma convert_column_turn idx seen l :
  In l (map fst cols) ->
  convert_column (mkDataFrame idx (map (after cols seen) cols)) l
  = Ok (mkDataFrame idx (map (after cols (l :: seen)) cols)).
Proof.
  intro Hin. unfold convert_column. cbn [df_columns].
  rewrite (labelled_map (after cols seen) cols l (after_label seen)).
  pose proof (labelled_nil cols l Hin) as Hne.
  assert (Honce : occurs_once l cols
                  = Nat.eqb (List.length
                               (filter (fun c => label_eqb (fst c) l) cols)) 1).
  { unfold occurs_once, labelled. now rewrite length_map. }
  destruct (filter (fun c => label_eqb (fst c) l) cols) as [|c [|c' rest]] eqn:F;
    [contradiction| |]; cbn [map].
  - (* the label is carried by the column [c] alone *)
    simpl in Honce.
    assert (Hc : In c cols /\ fst c = l).
    { apply filter_label_In. rewrite F. now left. }
    destruct Hc as [Hc Hl].
    assert (Hrest : forall x, In x cols -> fst x = l -> x = c).
    { intros x Hx Hxl.
      assert (H : In x (filter (fun c => label_eqb (fst c) l) cols))
        by now apply filter_label_In.
      rewrite F in H. destruct H as [H|[]]. now subst. }
    destruct (is_datetime64_any_dtype (snd (after cols seen c))) eqn:D.
    + destruct (snd (after cols seen c)) as [tz v| | | |] eqn:S; try discriminate.
      rewrite apply_datetime. cbn [bind]. unfold setitem. cbn [df_index df_columns].
      f_equal. f_equal.
      pose proof (after_datetime seen c tz v S) as Hsame.
      apply (replace_column_once (after cols seen) (after cols (l :: seen)) cols l c);
        [apply after_label|exact F| |].
      * rewrite (after_once seen l c Hl Honce). unfold convert_entry.
        rewrite Hl. f_equal. rewrite Hsame in S. now rewrite S.
      * intros x _ Hx. now apply after_other.
    + f_equal. f_equal. apply map_ext_in. intros x Hx.
      destruct (label_eqb (fst x) l) eqn:E.
      * apply label_eqb_eq in E. rewrite (Hrest x Hx E).
        rewrite (after_once seen l c Hl Honce).
        now apply (after_settled seen l c).
      * symmetry. apply after_other. intro H. apply label_eqb_eq in H.
        congruence.
  - (* several columns carry the label *)
    simpl in Honce. f_equal. f_equal. apply map_ext_in. intros x Hx.
    destruct (label_eqb (fst x) l) eqn:E.
    + apply label_eqb_eq in E.
      now rewrite !(after_many _ l x E Honce).
    + symmetry. apply after_other. intro H. apply label_eqb_eq in H.
      congruence.
Qed.

Lemma loop_turns idx (labels : list label) : forall seen,
  incl labels (map fst cols) ->
  foldM convert_column labels (mkDataFrame idx (map (after cols seen) cols))
  = Ok (mkDataFrame idx (map (after cols (rev labels ++ seen)) cols)).
Proof.
  induction labels as [|l labels IH]; intros seen Hincl; simpl.
  - reflexivity.
  - rewrite convert_column_turn by (apply Hincl; now left). cbn [bind].
    rewrite IH by (intros x Hx; apply Hincl; now right).
    now rewrite <- app_assoc.
Qed.

(** The whole loop: the columns whose label is carried once are
    converted, the others are left as they are. *)
Lemma loop_serializes idx :
  foldM convert_column (map fst cols) (mkDataFrame idx cols)
  = Ok (mkDataFrame idx (map (serialized_entry cols) cols)).
Proof.
  assert (H0 : map (after cols []) cols = cols).
  { transitivity (map (fun c : label * Series => c) cols);
      [apply map_ext; intro c; reflexivity|apply map_id]. }
  replace (mkDataFrame idx cols) with (mkDataFrame idx (map (after cols []) cols))
    by (f_equal; exact H0).
  rewrite loop_turns by apply incl_refl.
  f_equal. f_equal. apply map_ext_in. intros c Hc.
  unfold after, serialized_entry.
  assert (H : existsb (label_eqb (fst c)) (rev (map fst cols) ++ []) = true).
  { apply existsb_exists. exists (fst c). split; [|apply label_eqb_refl].
    rewrite app_nil_r. apply -> in_rev. now apply in_map. }
  now rewrite H.
Qed.

End Loop.

Lemma filter_label_NoDup (cs : list (label * Series)) c :
  NoDup (map fst cs) -> In c cs ->
  filter (fun x => label_eqb (fst x) (fst c)) cs = [c].
Proof.
  induction cs as [|a cs IH]; simpl; intros Hnd Hin; [contradiction|].
  inversion Hnd as [|? ? Hnotin Hnd']; subst.
  destruct Hin as [->|Hin].
  - rewrite label_eqb_refl. f_equal.
    destruct (filter _ cs) as [|x rest] eqn:F; [reflexivity|].
    assert (H : In x (filter (fun x => label_eqb (fst x) (fst c)) cs))
      by (rewrite F; now left).
    apply filter_label_In in H as [Hx Hl]. exfalso. apply Hnotin.
    rewrite <- Hl. now apply in_map.
  - destruct (label_eqb (fst a) (fst c)) eqn:E.
    + apply label_eqb_eq in E. exfalso. apply Hnotin. rewrite E.
      now apply in_map.
    + now apply IH.
Qed.

Lemma occurs_once_NoDup (cs : list (label * Series)) c :
  NoDup (map fst cs) -> In c cs -> occurs_once (fst c) cs = true.
Proof.
  intros Hnd Hin. unfold occurs_once, labelled.
  now rewrite (filter_label_NoDup cs c Hnd Hin).
Qed.

Lemma reset_index_ok (df : DataFrame) :
  contains df (index_label df) = false ->
  reset_index df
  = Ok (mkDataFrame (RangeIndex (nrows df)) (reset_columns df)).
Proof. intro H. unfold reset_index. now rewrite H. Qed.

Lemma reset_index_clash (df : DataFrame) :
  contains df (index_label df) = true ->
  exists e, reset_index df = Raise e.
Proof. intro H. unfold reset_index. rewrite H. eauto. Qed.

Lemma reset_columns_NoDup (df : DataFrame) :
  NoDup (columns df) ->
  contains df (index_label df) = false ->
  NoDup (map fst (reset_columns df)).
Proof.
  intros Hnd Hc. simpl. constructor; [|exact Hnd].
  now apply contains_not_In.
Qed.

(** The outcome on any frame that can be reset. *)
Lemma serializable_any (df : DataFrame) :
  contains df (index_label df) = false ->
  dataframe_to_json_serializable df
  = Ok (to_dict_records (serialized_frame df)).
Proof.
  intro Hc. unfold dataframe_to_json_serializable.
  rewrite reset_index_ok by assumption. cbn [bind].
  unfold columns. cbn [df_columns].
  now rewrite loop_serializes.
Qed.

Lemma serialized_frame_NoDup (df : DataFrame) :
  NoDup (map fst (reset_columns df)) ->
  serialized_frame df = converted_frame df.
Proof.
  intro Hnd. unfold serialized_frame, converted_frame. f_equal.
  apply map_ext_in. intros c Hc. unfold serialized_entry.
  now rewrite occurs_once_NoDup.
Qed.

Lemma serializable_ok (df : DataFrame) :
  NoDup (columns df) ->
  contains df (index_label df) = false ->
  dataframe_to_json_serializable df
  = Ok (to_dict_records (converted_frame df)).
Proof.
  intros Hnd Hc. rewrite serializable_any by assumption.
  rewrite serialized_frame_NoDup; [reflexivity|].
  now apply reset_columns_NoDup.
Qed.

Lemma nrows_RangeIndex (n : nat) cols :
  nrows (mkDataFrame (RangeIndex n) cols) = n.
Proof.
  unfold nrows, series_len. simpl. now rewrite !length_map, length_seq.
Qed.

Lemma to_dict_records_length (df : DataFrame) :
  List.length (to_dict_records df) = nrows df.
Proof. unfold to_dict_records. now rewrite length_map, length_seq. Qed.

Lemma to_dict_records_nth (df : DataFrame) (i : nat) :
  i < nrows df ->
  nth_error (to_dict_records df) i = Some (record_at df i).
Proof.
  intro H. unfold to_dict_records.
  rewrite nth_error_map, nth_error_seq.
  destruct (Nat.ltb_spec i (nrows df)) as [_|Hge]; [reflexivity|lia].
Qed.


(** A row read at a label that one column only carries. *)
Lemma record_at_once idx (cs : list (label * Series)) (i : nat) (l : label)
  (s : Series) :
  filter (fun c => label_eqb (fst c) l) cs = [(l, s)] ->
  dict_get (record_at (mkDataFrame idx cs) i) l
  = Some (nth i (series_values s) PNone).
Proof.
  intro H. unfold record_at, dict_of_pairs. cbn [df_columns].
  apply dict_get_fold_once.
  assert (F : forall xs : list (label * Series),
            filter (fun kv : label * pyvalue => label_eqb (fst kv) l)
                   (map (fun c => (fst c, nth i (series_values (snd c)) PNone))
                        xs)
            = map (fun c => (fst c, nth i (series_values (snd c)) PNone))
                  (filter (fun c => label_eqb (fst c) l) xs)).
  { induction xs as [|x xs IH]; simpl; [reflexivity|].
    destruct (label_eqb (fst x) l); simpl; now rewrite IH. }
  rewrite F, H. reflexivity.
Qed.

Lemma occurs_once_filter (cs : list (label * Series)) l s :
  In (l, s) cs -> occurs_once l cs = true ->
  filter (fun c => label_eqb (fst c) l) cs = [(l, s)].
Proof.
  intros Hin H. unfold occurs_once, labelled in H. rewrite length_map in H.
  assert (Hf : In (l, s) (filter (fun c => label_eqb (fst c) l) cs))
    by now apply filter_label_In.
  destruct (filter _ cs) as [|c [|c' rest]]; simpl in H; try discriminate.
  destruct Hf as [->|[]]. reflexivity.
Qed.

(** A row of the outcome, read at the label of a column that alone
    carries it. *)
Lemma record_at_serialized (df : DataFrame) (i : nat) (l : label) (s : Series) :
  In (l, s) (reset_columns df) ->
  occurs_once l (reset_columns df) = true ->
  dict_get (record_at (serialized_frame df) i) l
  = Some (nth i (series_values (converted s)) PNone).
Proof.
  intros Hin Honce. unfold serialized_frame.
  apply record_at_once.
  pose proof (occurs_once_filter _ _ _ Hin Honce) as F.
  generalize dependent (reset_columns df). intros cols Hin Honce F.
  assert (G : forall xs : list (label * Series),
            filter (fun c => label_eqb (fst c) l)
                   (map (serialized_entry cols) xs)
            = map (serialized_entry cols)
                  (filter (fun c => label_eqb (fst c) l) xs)).
  { induction xs as [|x xs IH]; cbn [map filter]; [reflexivity|].
    replace (fst (serialized_entry cols x)) with (fst x)
      by (unfold serialized_entry; now destruct (occurs_once (fst x) cols)).
    destruct (label_eqb (fst x) l); cbn [map]; now rewrite IH. }
  rewrite G, F. cbn [map]. unfold serialized_entry. cbn [fst].
  now rewrite Honce.
Qed.

Lemma nrows_serialized (df : DataFrame) :
  nrows (serialized_frame df) = nrows df.
Proof. apply nrows_RangeIndex. Qed.

Lemma converted_nth tz v i x :
  nth_error v i = Some x ->
  nth i (series_values (converted (S_datetime tz v))) PNone
  = converted_cell tz x.
Proof.
  intro H. simpl. apply nth_error_nth.
  now rewrite nth_error_map, H.
Qed.

End Records.
End ServerRecords.
(* ================================================================== *)
(** ** The data server: the records returned *)

Module ServerSerializable.
Import GeoglowsMcpServer ServerRecords.

Section Serializable.
Context {RT : Runtime}.

(** The record of a row, read at the label of a datetime column that
    alone carries it. *)
Lemma datetime_cell (df : DataFrame) l tz v i x :
  In (l, S_datetime tz v) (reset_columns df) ->
  occurs_once l (reset_columns df) = true ->
  nth_error v i = Some x ->
  dict_get (record_at (serialized_frame df) i) l = Some (converted_cell tz x).
Proof.
  intros Hin Honce Hnth.
  rewrite (record_at_serialized df i l (S_datetime tz v)) by assumption.
  f_equal. now apply converted_nth.
Qed.

(** C1, as amended.  For every frame whose index label is not already a
    column label, [dataframe_to_json_serializable] returns a list of
    records with one record per row; and in the record of each row, under
    the label of a datetime column (or of a datetime index) that no other
    column carries, a datetime that is not missing is the text
    [isoformat] gives for it, and a missing one ([NaT]) is [None].  When
    the index label is a column label already, the function raises the
    [ValueError] of [reset_index]. *)
Theorem serializable_records (df : DataFrame) :
  (contains df (index_label df) = false ->
   exists records,
     dataframe_to_json_serializable df = Ok records /\
     List.length records = nrows df /\
     forall l tz v i,
       In (l, S_datetime tz v) (reset_columns df) ->
       occurs_once l (reset_columns df) = true ->
       i < nrows df ->
       exists r,
         nth_error records i = Some r /\
         (forall ns,
            nth_error v i = Some (Some ns) ->
            dict_get r l = Some (PStr (isoformat (mkTimestamp ns tz)))) /\
         (nth_error v i = Some None -> dict_get r l = Some PNone)) /\
  (contains df (index_label df) = true ->
   exists message,
     dataframe_to_json_serializable df = Raise (ValueError message)).
Proof.
  split; intro Hc.
  - exists (to_dict_records (serialized_frame df)).
    split; [now apply serializable_any|].
    split.
    + rewrite to_dict_records_length. apply nrows_serialized.
    + intros l tz v i Hin Honce Hi.
      exists (record_at (serialized_frame df) i). split; [|split].
      * apply to_dict_records_nth. now rewrite nrows_serialized.
      * intros ns Hnth.
        now rewrite (datetime_cell df l tz v i (Some ns)).
      * intro Hnth. now rewrite (datetime_cell df l tz v i None).
  - unfold dataframe_to_json_serializable, reset_index. rewrite Hc.
    eexists. reflexivity.
Qed.

(** C8, as amended.  For every frame whose index label is not already a
    column label, the function raises nothing and returns records in
    which every missing entry ([NaT]) of a datetime column, or of a
    datetime index, whose label no other column carries is [None] in the
    record of its row. *)
Theorem missing_datetime_is_none (df : DataFrame) :
  contains df (index_label df) = false ->
  exists records,
    dataframe_to_json_serializable df = Ok records /\
    forall l tz v i,
      In (l, S_datetime tz v) (reset_columns df) ->
      occurs_once l (reset_columns df) = true ->
      i < nrows df ->
      nth_error v i = Some None ->
      exists r, nth_error records i = Some r /\ dict_get r l = Some PNone.
Proof.
  intro Hc. exists (to_dict_records (serialized_frame df)).
  split; [now apply serializable_any|].
  intros l tz v i Hin Honce Hi Hnth.
  exists (record_at (serialized_frame df) i). split.
  - apply to_dict_records_nth. now rewrite nrows_serialized.
  - now rewrite (datetime_cell df l tz v i None).
Qed.

End Serializable.

(** The forecast frame: two rows, two records, the second instant of the
    index as ISO-8601 text; the frame with a gap in its index: [None] in
    the second record; and the frame whose index is labelled like a
    column. *)
Lemma serializable_records_witness :
  (exists records,
     @dataframe_to_json_serializable Example.runtime Example.forecast_frame
     = Ok records /\
     List.length records = 2 /\
     exists r,
       nth_error records 1 = Some r /\
       dict_get r (L_str "time")
       = Some (PStr (Example.iso
                       (mkTimestamp (Example.t0 + 3 * Example.hour)
                                    Example.utc)))) /\
  (exists records r,
     @dataframe_to_json_serializable Example.runtime Example.gap_frame
     = Ok records /\
     nth_error records 1 = Some r /\
     dict_get r (L_str "time") = Some PNone) /\
  (exists message,
     @dataframe_to_json_serializable Example.runtime Example.clash_frame
     = Raise (ValueError message)).
Proof.
  split; [|split].
  - destruct (@serializable_records Example.runtime Example.forecast_frame)
      as (H & _).
    destruct (H eq_refl) as (records & Hrec & Hlen & Hcell).
    exists records. split; [exact Hrec|]. split; [exact Hlen|].
    destruct (Hcell (L_str "time") Example.utc
                [Some Example.t0; Some (Example.t0 + 3 * Example.hour)%Z]
                1%nat)
      as (r & Hr & Hiso & _);
      [left; reflexivity | reflexivity | vm_compute; lia |].
    exists r. split; [exact Hr|]. apply Hiso. reflexivity.
  - destruct (@serializable_records Example.runtime Example.gap_frame)
      as (H & _).
    destruct (H eq_refl) as (records & Hrec & Hlen & Hcell).
    destruct (Hcell (L_str "time") Example.utc [Some Example.t0; None] 1%nat)
      as (r & Hr & _ & Hnone);
      [left; reflexivity | reflexivity | vm_compute; lia |].
    exists records, r. split; [exact Hrec|]. split; [exact Hr|].
    apply Hnone. reflexivity.
  - destruct (@serializable_records Example.runtime Example.clash_frame)
      as (_ & H).
    exact (H eq_refl).
Defined.

(** C1 as stated fails three times.  On a frame whose index is labelled
    like one of its columns the function raises instead of returning
    records; a missing datetime is in the records as [None], not as
    text; and of two datetime columns under one label neither is
    converted, so that the record holds a timestamp, not text. *)
Lemma serializable_counterexample :
  (wf_frame Example.clash_frame /\
   ~ exists records,
       @dataframe_to_json_serializable Example.runtime Example.clash_frame
       = Ok records /\
       List.length records = nrows Example.clash_frame) /\
  (wf_frame Example.gap_frame /\
   exists records r,
     @dataframe_to_json_serializable Example.runtime Example.gap_frame
     = Ok records /\
     nth_error records 1 = Some r /\
     nth_error (series_values (index_data (df_index Example.gap_frame))) 1
     = Some PNaT /\
     ~ exists text, dict_get r (L_str "time") = Some (PStr text)) /\
  (exists records r,
     @dataframe_to_json_serializable Example.runtime Example.twin_frame
     = Ok records /\
     nth_error records 0 = Some r /\
     labelled (df_columns Example.twin_frame) (L_str "issued")
     = [S_datetime Example.utc [Some Example.t0; None];
        S_datetime Example.utc
          [Some (Example.t0 + Example.hour)%Z; None]] /\
     dict_get r (L_str "issued")
     = Some (PTimestamp (mkTimestamp (Example.t0 + Example.hour)
                                     Example.utc)) /\
     ~ exists text, dict_get r (L_str "issued") = Some (PStr text)).
Proof.
  split; [|split].
  - split; [prove_wf|]. intros [records [H _]]. vm_compute in H. discriminate.
  - split; [prove_wf|].
    eexists. eexists. split; [vm_compute; reflexivity|].
    split; [reflexivity|]. split; [reflexivity|].
    intros [text H]. vm_compute in H. discriminate.
  - eexists. eexists. split; [vm_compute; reflexivity|].
    split; [reflexivity|]. split; [reflexivity|].
    split; [vm_compute; reflexivity|].
    intros [text H]. vm_compute in H. discriminate.
Qed.

(** The frame with a gap in its index: the second record has [None]
    under [time]. *)
Lemma missing_datetime_is_none_witness :
  exists records,
    @dataframe_to_json_serializable Example.runtime Example.gap_frame
    = Ok records /\
    exists r, nth_error records 1 = Some r /\
              dict_get r (L_str "time") = Some PNone.
Proof.
  destruct (@missing_datetime_is_none Example.runtime Example.gap_frame
              eq_refl) as (records & Hrec & Hcell).
  exists records. split; [exact Hrec|].
  apply (Hcell (L_str "time") Example.utc [Some Example.t0; None] 1%nat);
    [left; reflexivity | reflexivity | vm_compute; lia | reflexivity].
Defined.

(** C8 as stated fails twice.  A frame with a missing instant in its
    index, labelled like one of its columns, makes the function raise;
    and of two datetime columns under one label neither is converted, so
    that a missing entry stays [NaT] in the record. *)
Lemma missing_datetime_counterexample :
  (wf_frame Example.clash_gap_frame /\
   nth_error (series_values (index_data (df_index Example.clash_gap_frame))) 1
   = Some PNaT /\
   @dataframe_to_json_serializable Example.runtime Example.clash_gap_frame
   = Raise (ValueError "cannot insert time, already exists")) /\
  (exists records r,
     @dataframe_to_json_serializable Example.runtime Example.twin_frame
     = Ok records /\
     nth_error records 1 = Some r /\
     labelled (df_columns Example.twin_frame) (L_str "issued")
     = [S_datetime Example.utc [Some Example.t0; None];
        S_datetime Example.utc
          [Some (Example.t0 + Example.hour)%Z; None]] /\
     dict_get r (L_str "issued") = Some PNaT).
Proof.
  split.
  - split; [prove_wf|]. split; reflexivity.
  - eexists. eexists. split; [vm_compute; reflexivity|].
    split; [reflexivity|]. split; reflexivity.
Qed.

End ServerSerializable.

(* ================================================================== *)
(** ** The data server: the date bounds of [get_historical_streamflow] *)

Module ServerBounds.
Import GeoglowsMcpServer.
Section Bounds.
Context {RT : Runtime} {GD : GeoglowsData}.

Lemma pd_to_datetime_length (s s' : Series) :
  pd_to_datetime s = Ok s' -> series_len s' = series_len s.
Proof.
  unfold pd_to_datetime.
  destruct s as [tz v|v|v|v|v]; simpl;
    try (intro H; injection H as <-; reflexivity);
    match goal with
    | |- context [to_datetime ?vs] =>
        destruct (to_datetime vs) as [r|e] eqn:E; simpl; [|discriminate];
        intro H; injection H as <-;
        apply to_datetime_length in E; unfold series_len; simpl;
        rewrite length_map; rewrite E; now rewrite ?length_map
    end.
Qed.

(** One bound, on a frame with a datetime index. *)
Lemma keep_within_ok op date bound df tz v :
  bound_of date = Ok bound ->
  index_data (df_index df) = S_datetime tz v ->
  comparable tz bound ->
  keep_within op date df
  = Ok (match bound with
        | Some b => getitem_mask df (map (cmp_instant op b) v)
        | None => df
        end).
Proof.
  unfold bound_of, keep_within. intros Hb Hidx Hcmp.
  destruct date as [s|]; [|injection Hb as <-; reflexivity].
  destruct (truthy (Some s)); [|injection Hb as <-; reflexivity].
  destruct (to_datetime_utc s) as [b|e]; simpl in *; [|discriminate].
  injection Hb as <-. unfold index_compare. rewrite Hidx.
  destruct tz as [zone|]; simpl; [reflexivity|].
  destruct b as [b|]; simpl in *; [contradiction|reflexivity].
Qed.

Lemma getitem_mask_twice df (p q : option Z -> bool) tz v :
  index_data (df_index df) = S_datetime tz v ->
  getitem_mask (getitem_mask df (map p v)) (map q (select (map p v) v))
  = getitem_mask df (map (fun x => p x && q x) v).
Proof.
  intro Hidx. unfold getitem_mask. simpl. rewrite Hidx. simpl.
  rewrite select_twice. f_equal. rewrite map_map. apply map_ext.
  intros [l s]. simpl. f_equal.
  destruct s; simpl; now rewrite select_twice.
Qed.

Lemma series_select_all (s : Series) (mask : list bool) :
  Forall (fun b => b = true) mask ->
  series_len s <= List.length mask ->
  series_select mask s = s.
Proof.
  intros Hall Hlen. unfold series_len in Hlen.
  destruct s; simpl in *; rewrite ?length_map in Hlen;
    now rewrite select_all.
Qed.

Lemma getitem_mask_all df (mask : list bool) :
  Forall (fun c => series_len (snd c) = nrows df) (df_columns df) ->
  Forall (fun b => b = true) mask ->
  List.length mask = nrows df ->
  getitem_mask df mask = df.
Proof.
  intros Hrect Hall Hlen. destruct df as [[name idx] cols].
  unfold getitem_mask, nrows in *. simpl in *.
  rewrite series_select_all by (try assumption; lia). f_equal.
  induction cols as [|[l s] cols IH]; simpl; [reflexivity|].
  inversion Hrect; subst. simpl in *.
  rewrite series_select_all by (try assumption; lia).
  now rewrite IH.
Qed.

Lemma in_bounds_spec lo hi x :
  in_bounds lo hi x = true ->
  (forall b, lo = Some b ->
     exists t b', x = Some t /\ b = Some b' /\ (b' <= t)%Z) /\
  (forall b, hi = Some b ->
     exists t b', x = Some t /\ b = Some b' /\ (t <= b')%Z).
Proof.
  unfold in_bounds, satisfies, cmp_instant. intro H.
  apply andb_prop in H as [Hlo Hhi].
  split; intros b Hb; subst.
  - destruct x as [t|]; [|discriminate].
    destruct b as [b'|]; [|discriminate].
    exists t, b'. repeat split. lia.
  - destruct x as [t|]; [|discriminate].
    destruct b as [b'|]; [|discriminate].
    exists t, b'. repeat split. lia.
Qed.

(** *** The records of the rows kept *)

Lemma converted_select (mask : list bool) (s : Series) :
  converted (series_select mask s) = series_select mask (converted s).
Proof. destruct s; simpl; now rewrite ?map_select. Qed.

Lemma columns_getitem_mask (df : DataFrame) (mask : list bool) :
  columns (getitem_mask df mask) = columns df.
Proof. unfold columns, getitem_mask. cbn [df_columns]. now rewrite map_map. Qed.

Lemma index_label_getitem_mask (df : DataFrame) (mask : list bool) :
  index_label (getitem_mask df mask) = index_label df.
Proof.
  unfold index_label, contains. now rewrite columns_getitem_mask.
Qed.

Lemma contains_getitem_mask (df : DataFrame) (mask : list bool) (l : label) :
  contains (getitem_mask df mask) l = contains df l.
Proof. unfold contains. now rewrite columns_getitem_mask. Qed.

Lemma reset_columns_getitem_mask (df : DataFrame) (mask : list bool) :
  reset_columns (getitem_mask df mask)
  = map (select_rows mask) (reset_columns df).
Proof.
  unfold reset_columns. rewrite index_label_getitem_mask. reflexivity.
Qed.

Lemma serialized_getitem_mask (df : DataFrame) (mask : list bool) :
  df_columns (serialized_frame (getitem_mask df mask))
  = map (select_rows mask) (df_columns (serialized_frame df)).
Proof.
  unfold serialized_frame. cbn [df_columns].
  rewrite reset_columns_getitem_mask.
  generalize (reset_columns df). intro cols.
  rewrite !map_map. apply map_ext. intro c.
  unfold serialized_entry. cbn [select_rows fst].
  rewrite (ServerRecords.occurs_once_map (select_rows mask) cols (fst c))
    by reflexivity.
  destruct (occurs_once (fst c) cols); [|reflexivity].
  unfold convert_entry, select_rows. cbn [fst snd].
  now rewrite converted_select.
Qed.

(** The record of the [j]-th row kept is the record of the row it was. *)
Lemma record_at_getitem_mask (df : DataFrame) (mask : list bool) (j : nat) :
  j < List.length (positions mask 0) ->
  record_at (serialized_frame (getitem_mask df mask)) j
  = record_at (serialized_frame df) (nth j (positions mask 0) 0).
Proof.
  intro Hj. unfold record_at. rewrite serialized_getitem_mask.
  rewrite map_map. f_equal. apply map_ext. intro c.
  cbn [select_rows fst snd]. f_equal.
  rewrite series_values_select.
  rewrite (select_nth PNone mask _ 0 j Hj). now rewrite Nat.sub_0_r.
Qed.

(** The records of the rows a mask on the index keeps. *)
Lemma records_of_selection (df : DataFrame) tz v (p : option Z -> bool) :
  index_data (df_index df) = S_datetime tz v ->
  to_dict_records (serialized_frame (getitem_mask df (map p v)))
  = map (record_at (serialized_frame df))
        (filter (fun i => p (nth i v None)) (seq 0 (List.length v))).
Proof.
  intro Hidx.
  assert (Hrows : filter (fun i => p (nth i v None)) (seq 0 (List.length v))
                  = positions (map p v) 0).
  { rewrite (positions_filter None p v 0). apply filter_ext. intro i.
    now rewrite Nat.sub_0_r. }
  rewrite Hrows.
  rewrite <- (map_nth_positions (record_at (serialized_frame df))).
  unfold to_dict_records.
  assert (Hn : nrows (serialized_frame (getitem_mask df (map p v)))
               = List.length (positions (map p v) 0)).
  { rewrite ServerRecords.nrows_serialized.
    unfold nrows, getitem_mask, series_len. cbn [df_index index_data].
    rewrite Hidx. cbn [series_select series_values]. rewrite length_map.
    unfold positions. apply select_length_same.
    now rewrite length_seq, length_map. }
  rewrite Hn. apply map_ext_in. intros j Hj. apply in_seq in Hj.
  apply record_at_getitem_mask. lia.
Qed.

(** The frame the function hands to the serializer. *)
Lemma historical_kept
  (river_id : Z) (start_date end_date : option string)
  (df : DataFrame) (tz : option string) (v : list (option Z))
  (lo hi : option (option Z)) :
  data_retrospective river_id = Ok df ->
  pd_to_datetime (index_data (df_index df)) = Ok (S_datetime tz v) ->
  bound_of start_date = Ok lo ->
  bound_of end_date = Ok hi ->
  comparable tz lo ->
  comparable tz hi ->
  get_historical_streamflow river_id start_date end_date
  = dumps_records
      (match lo, hi with
       | None, None => with_index df (S_datetime tz v)
       | _, _ => getitem_mask (with_index df (S_datetime tz v))
                              (map (in_bounds lo hi) v)
       end) /\
  List.length v = nrows df.
Proof.
  intros Hfetch Hidx Hlo Hhi Clo Chi.
  set (fetched := with_index df (S_datetime tz v)).
  assert (Hlen : List.length v = nrows df).
  { apply pd_to_datetime_length in Hidx. unfold series_len in Hidx at 1.
    simpl in Hidx. now rewrite length_map in Hidx. }
  split; [|exact Hlen].
  unfold get_historical_streamflow. rewrite Hfetch. cbn [bind].
  rewrite Hidx. cbn [bind]. unfold set_index_data.
  replace (series_len (S_datetime tz v)) with (nrows df)
    by (unfold series_len; simpl; now rewrite length_map).
  rewrite Nat.eqb_refl. cbn [bind]. fold fetched.
  rewrite (keep_within_ok Z.geb start_date lo fetched tz v Hlo eq_refl Clo).
  cbn [bind].
  destruct lo as [a|].
  - rewrite (keep_within_ok Z.leb end_date hi
               (getitem_mask fetched (map (cmp_instant Z.geb a) v)) tz
               (select (map (cmp_instant Z.geb a) v) v) Hhi eq_refl Chi).
    cbn [bind]. f_equal. destruct hi as [b|].
    + rewrite (getitem_mask_twice fetched _ _ tz v eq_refl). reflexivity.
    + f_equal. apply map_ext. intro x.
      unfold in_bounds. simpl. now rewrite andb_true_r.
  - rewrite (keep_within_ok Z.leb end_date hi fetched tz v Hhi eq_refl Chi).
    cbn [bind]. f_equal. now destruct hi.
Qed.

(** The records the function returns. *)
Lemma historical_records
  (river_id : Z) (start_date end_date : option string)
  (df : DataFrame) (tz : option string) (v : list (option Z))
  (lo hi : option (option Z)) :
  data_retrospective river_id = Ok df ->
  pd_to_datetime (index_data (df_index df)) = Ok (S_datetime tz v) ->
  bound_of start_date = Ok lo ->
  bound_of end_date = Ok hi ->
  comparable tz lo ->
  comparable tz hi ->
  contains df (index_label df) = false ->
  get_historical_streamflow river_id start_date end_date
  = Json.dumps_indent2
      (PList (map PDict
         (map (record_at (serialized_frame (with_index df (S_datetime tz v))))
              (filter (fun i => in_bounds lo hi (nth i v None))
                      (seq 0 (List.length v)))))).
Proof.
  intros Hfetch Hidx Hlo Hhi Clo Chi Hc.
  destruct (historical_kept river_id start_date end_date df tz v lo hi
              Hfetch Hidx Hlo Hhi Clo Chi) as [-> Hlen].
  set (fetched := with_index df (S_datetime tz v)).
  assert (Hmask : dumps_records
                    (getitem_mask fetched (map (in_bounds lo hi) v))
                  = Json.dumps_indent2
                      (PList (map PDict
                         (map (record_at (serialized_frame fetched))
                              (filter (fun i => in_bounds lo hi (nth i v None))
                                      (seq 0 (List.length v))))))).
  { unfold dumps_records. rewrite ServerRecords.serializable_any.
    - cbn [bind]. now rewrite (records_of_selection fetched tz v).
    - now rewrite index_label_getitem_mask, contains_getitem_mask. }
  destruct lo as [a|]; [exact Hmask|]. destruct hi as [b|]; [exact Hmask|].
  unfold dumps_records. rewrite ServerRecords.serializable_any by exact Hc.
  cbn [bind]. unfold to_dict_records.
  rewrite ServerRecords.nrows_serialized.
  replace (nrows fetched) with (List.length v)
    by (unfold fetched, with_index, nrows, series_len; simpl;
        now rewrite length_map).
  now rewrite filter_all.
Qed.

Lemma index_label_once (df : DataFrame) :
  contains df (index_label df) = false ->
  occurs_once (index_label df) (reset_columns df) = true.
Proof.
  intro Hc. unfold occurs_once, labelled, reset_columns. cbn [filter fst].
  rewrite label_eqb_refl.
  assert (H : filter (fun c => label_eqb (fst c) (index_label df))
                     (df_columns df) = []).
  { apply contains_not_In in Hc.
    destruct (filter _ (df_columns df)) as [|c rest] eqn:F; [reflexivity|].
    assert (Hin : In c (filter (fun c => label_eqb (fst c) (index_label df))
                               (df_columns df))) by (rewrite F; now left).
    apply ServerRecords.filter_label_In in Hin as [Hin Hl].
    exfalso. apply Hc. rewrite <- Hl. unfold columns. now apply in_map. }
  now rewrite H.
Qed.

(** C6.  [get_historical_streamflow] returns the serialized records of
    exactly the fetched rows whose instant lies within the bounds given,
    both ends included, in the order fetched.  The record of a row holds
    the instant of the row under the label of the index, as the text
    [isoformat] gives for it, and under the label of each column (that
    no other column carries) the cell of that row; every instant
    returned is at or after the start bound and at or before the end
    bound; a row whose instant is before the start bound or after the
    end bound is not returned; and with no bound there is one record for
    every fetched row.  (The index label is not a column label: a result
    is returned.) *)
Theorem historical_within_bounds
  (river_id : Z) (start_date end_date : option string)
  (df : DataFrame) (tz : option string) (v : list (option Z))
  (lo hi : option (option Z)) :
  data_retrospective river_id = Ok df ->
  pd_to_datetime (index_data (df_index df)) = Ok (S_datetime tz v) ->
  bound_of start_date = Ok lo ->
  bound_of end_date = Ok hi ->
  comparable tz lo ->
  comparable tz hi ->
  contains df (index_label df) = false ->
  let fetched := with_index df (S_datetime tz v) in
  let record := record_at (serialized_frame fetched) in
  let rows := filter (fun i => in_bounds lo hi (nth i v None))
                     (seq 0 (List.length v)) in
  get_historical_streamflow river_id start_date end_date
  = Json.dumps_indent2 (PList (map PDict (map record rows))) /\
  (forall i, In i rows ->
     exists x,
       nth_error v i = Some x /\
       dict_get (record i) (index_label df) = Some (converted_cell tz x) /\
       (forall b, lo = Some b ->
          exists t b', x = Some t /\ b = Some b' /\ (b' <= t)%Z) /\
       (forall b, hi = Some b ->
          exists t b', x = Some t /\ b = Some b' /\ (t <= b')%Z)) /\
  (forall i l s,
     In (l, s) (df_columns df) ->
     occurs_once l (reset_columns fetched) = true ->
     dict_get (record i) l = Some (nth i (series_values (converted s)) PNone)) /\
  (forall i t b,
     nth_error v i = Some (Some t) ->
     (lo = Some (Some b) /\ (t < b)%Z) \/ (hi = Some (Some b) /\ (b < t)%Z) ->
     ~ In i rows) /\
  (lo = None -> hi = None -> rows = seq 0 (nrows df)).
Proof.
  intros Hfetch Hidx Hlo Hhi Clo Chi Hc fetched record rows.
  assert (Hlen : List.length v = nrows df).
  { apply pd_to_datetime_length in Hidx. unfold series_len in Hidx at 1.
    simpl in Hidx. now rewrite length_map in Hidx. }
  split; [|split; [|split; [|split]]].
  - now apply historical_records.
  - intros i Hi. apply filter_In in Hi as [Hi Hin]. apply in_seq in Hi.
    destruct (nth_error v i) as [x|] eqn:Hx;
      [|apply nth_error_None in Hx; lia].
    exists x. split; [reflexivity|].
    rewrite (nth_error_nth v i None Hx) in Hin. split.
    + unfold record.
      rewrite (ServerRecords.record_at_serialized fetched i
                 (index_label df) (S_datetime tz v)).
      * f_equal. now apply ServerRecords.converted_nth.
      * left. reflexivity.
      * now apply (index_label_once fetched).
    + now apply in_bounds_spec.
  - intros i l s Hin Honce. unfold record.
    apply ServerRecords.record_at_serialized; [|exact Honce].
    right. exact Hin.
  - intros i t b Hx Hout Hi. apply filter_In in Hi as [_ Hin].
    rewrite (nth_error_nth v i None Hx) in Hin.
    apply in_bounds_spec in Hin as [Hlo' Hhi'].
    destruct Hout as [[-> Hlt]|[-> Hlt]].
    + destruct (Hlo' _ eq_refl) as (t' & b' & Et & Eb & Hle).
      injection Et as <-. injection Eb as <-. lia.
    + destruct (Hhi' _ eq_refl) as (t' & b' & Et & Eb & Hle).
      injection Et as <-. injection Eb as <-. lia.
  - intros -> ->. unfold rows. rewrite Hlen. apply filter_all.
Qed.

End Bounds.

(** Five fetched rows around 1 and 2 January 1940, asked for from
    19400101 to 19400102: the records returned are those of the three
    rows from midnight to midnight, both midnights included, and the
    first of them holds the first midnight and the flow of its row. *)
Lemma historical_within_bounds_witness :
  @get_historical_streamflow Example.runtime Example.service
    Example.river (Some "19400101") (Some "19400102")
  = @Json.dumps_indent2 Example.runtime
      (PList (map PDict
         (map (record_at (@serialized_frame Example.runtime
                            Example.retrospective_frame))
              [1; 2; 3]%nat))) /\
  record_at (@serialized_frame Example.runtime Example.retrospective_frame) 1
  = [ (L_str "time", PStr "1940-01-01T00:00:00+00:00");
      (L_int Example.river, PFloat (F_finite 16830096 (-12))) ] /\
  ~ In 0%nat
      (filter (fun i => in_bounds (Some (Some Example.day1))
                                  (Some (Some Example.day2))
                                  (nth i Example.retrospective_instants None))
              (seq 0 5)).
Proof.
  destruct (@historical_within_bounds Example.runtime Example.service
              Example.river (Some "19400101") (Some "19400102")
              Example.retrospective_frame Example.utc
              Example.retrospective_instants
              (Some (Some Example.day1)) (Some (Some Example.day2)))
    as (H1 & H2 & H3 & H4 & H5);
    [reflexivity | reflexivity | vm_compute; reflexivity
    | vm_compute; reflexivity | exact I | exact I | reflexivity |].
  split; [|split].
  - etransitivity; [exact H1|]. vm_compute. reflexivity.
  - vm_compute. reflexivity.
  - apply (H4 0%nat (Example.day1 - Example.hour)%Z Example.day1);
      [reflexivity|]. left. split; [reflexivity|]. vm_compute. reflexivity.
Defined.

End ServerBounds.

(* ================================================================== *)
(** ** The data server: the shape of the four functions *)

Module ServerShape.
Import GeoglowsMcpServer.
Section Wrappers.
Context {RT : Runtime} {GD : GeoglowsData}.

Lemma with_index_same (df : DataFrame) :
  with_index df (index_data (df_index df)) = df.
Proof. now destruct df as [[name idx] cols]. Qed.

(** With no bound and datetimes in the index already, nothing is done to
    the fetched frame. *)
Lemma fetch_historical_plain (river_id : Z) (start_date end_date : option string)
  (df : DataFrame) tz v :
  data_retrospective river_id = Ok df ->
  index_data (df_index df) = S_datetime tz v ->
  truthy start_date = false ->
  truthy end_date = false ->
  fetch_historical river_id start_date end_date = Ok df.
Proof.
  intros Hfetch Hidx Hs He. unfold fetch_historical.
  rewrite Hfetch. cbn [bind]. rewrite Hidx. cbn [bind pd_to_datetime].
  unfold set_index_data. rewrite <- Hidx. fold (nrows df).
  rewrite Nat.eqb_refl, with_index_same. cbn [bind].
  unfold keep_within. rewrite Hs, He.
  destruct start_date, end_date; reflexivity.
Qed.

Lemma historical_is_wrapper
  (river_id : Z) (start_date end_date : option string) :
  get_historical_streamflow river_id start_date end_date
  = forwarding_wrapper (fetch_historical river_id start_date end_date).
Proof.
  unfold get_historical_streamflow, forwarding_wrapper, fetch_historical,
    dumps_records.
  destruct (data_retrospective river_id) as [df|e]; [|reflexivity].
  cbn [bind].
  destruct (pd_to_datetime (index_data (df_index df))) as [idx|e];
    [|reflexivity].
  cbn [bind]. destruct (set_index_data df idx) as [df1|e]; [|reflexivity].
  cbn [bind].
  destruct (keep_within Z.geb start_date df1) as [df2|e]; reflexivity.
Qed.

Lemma forecasted_is_wrapper (river_id : Z) (date : option string) :
  get_forecasted_streamflow river_id date
  = forwarding_wrapper (data_forecast river_id date).
Proof. reflexivity. Qed.

Lemma stats_is_wrapper (river_id : Z) (date : option string) :
  get_forecast_stats river_id date
  = forwarding_wrapper (data_forecast_stats river_id date).
Proof. reflexivity. Qed.

(** C2, as amended.  [get_forecasted_streamflow] and [get_forecast_stats]
    are forwarding wrappers around one call of the data library: fetch,
    convert the timestamps to text, serialize with [json.dumps].
    [get_historical_streamflow] is that wrapper around its one fetch
    followed by the conversion of the index to datetimes and the two
    optional date filters, and around the bare fetch when no bound is
    given and the index holds datetimes already.  [get_return_periods]
    returns what [to_json] makes of the fetched frame, with no conversion
    of timestamps. *)
Theorem wrappers_forward
  (river_id : Z) (date start_date end_date : option string) :
  get_forecasted_streamflow river_id date
  = forwarding_wrapper (data_forecast river_id date) /\
  get_forecast_stats river_id date
  = forwarding_wrapper (data_forecast_stats river_id date) /\
  get_historical_streamflow river_id start_date end_date
  = forwarding_wrapper (fetch_historical river_id start_date end_date) /\
  (forall df tz v,
     data_retrospective river_id = Ok df ->
     index_data (df_index df) = S_datetime tz v ->
     truthy start_date = false ->
     truthy end_date = false ->
     get_historical_streamflow river_id start_date end_date
     = forwarding_wrapper (data_retrospective river_id)) /\
  get_return_periods river_id
  = (df <- data_return_periods river_id ;; PandasJson.to_json df).
Proof.
  split; [apply forecasted_is_wrapper|].
  split; [apply stats_is_wrapper|].
  split; [apply historical_is_wrapper|].
  split; [|reflexivity].
  intros df tz v Hfetch Hidx Hs He. rewrite historical_is_wrapper.
  rewrite (fetch_historical_plain _ _ _ df tz v) by assumption.
  now rewrite Hfetch.
Qed.

End Wrappers.

(** The historical series with no bound is the bare wrapper. *)
Lemma wrappers_forward_witness :
  @get_historical_streamflow Example.runtime Example.service
    Example.river None (Some "")
  = @forwarding_wrapper Example.runtime
      (@data_retrospective Example.service Example.river).
Proof.
  destruct (@wrappers_forward Example.runtime Example.service
              Example.river None None (Some "")) as (_ & _ & _ & H & _).
  apply (H Example.retrospective_frame Example.utc
           Example.retrospective_instants); reflexivity.
Defined.

(** C2 as stated fails for two of the four.  [get_return_periods] does
    not return what the three-step wrapper returns, and neither does
    [get_historical_streamflow] once a bound drops a row; and where the
    fetched return-period frame holds a timestamp, [get_return_periods]
    writes it as a number of milliseconds, not as text. *)
Lemma wrappers_counterexample :
  @get_return_periods Example.runtime Example.service Example.river
  <> @forwarding_wrapper Example.runtime
       (@data_return_periods Example.service Example.river) /\
  @get_historical_streamflow Example.runtime Example.service
    Example.river (Some "19400101") None
  <> @forwarding_wrapper Example.runtime
       (@data_retrospective Example.service Example.river) /\
  @get_return_periods Example.runtime Example.dated_service Example.river
  = Ok Example.dated_text.
Proof.
  split; [|split]; try reflexivity; intro H; vm_compute in H; discriminate.
Qed.

Section Surface.
Context {RT : Runtime} {GD : GeoglowsData}.

Lemma wrapper_returns_json (fetch : result DataFrame) (text : string) :
  forwarding_wrapper fetch = Ok text ->
  exists records, Json.dumps_indent2 (PList (map PDict records)) = Ok text.
Proof.
  unfold forwarding_wrapper.
  destruct fetch as [df|e]; [|discriminate]. cbn [bind].
  destruct (dataframe_to_json_serializable df) as [records|e];
    [|discriminate].
  cbn [bind]. intro H. now exists records.
Qed.

(** C3, as amended.  Four tools are registered.  Each takes the river
    identifier as its first, required, integer argument; every other
    argument is an optional text defaulting to [None]: one date for the
    two forecast tools, a start and an end date for the historical tool,
    and none at all for [get_return_periods].  Each is declared to return
    a mapping, and what each returns is JSON text: the [json.dumps] of a
    list of records, or for [get_return_periods] the [to_json] of a
    frame. *)
Theorem tool_surface :
  map tool_name registered_tools
  = ["get_forecasted_streamflow"; "get_historical_streamflow";
     "get_forecast_stats"; "get_return_periods"] /\
  Forall (fun t => exists rest,
            tool_params t = river_id_param :: rest /\
            forallb is_optional_date rest = true /\
            tool_returns t = A_dict)
         registered_tools /\
  Forall takes_river_id registered_tools /\
  map (fun t => map param_name (tl (tool_params t))) registered_tools
  = [["date"]; ["start_date"; "end_date"]; ["date"]; []] /\
  (forall river_id date start_date end_date text,
     get_forecasted_streamflow river_id date = Ok text \/
     get_historical_streamflow river_id start_date end_date = Ok text \/
     get_forecast_stats river_id date = Ok text ->
     exists records,
       Json.dumps_indent2 (PList (map PDict records)) = Ok text) /\
  (forall river_id text,
     get_return_periods river_id = Ok text ->
     exists df, PandasJson.to_json df = Ok text).
Proof.
  split; [reflexivity|]. split; [|split; [|split; [reflexivity|split]]].
  - unfold registered_tools.
    repeat (apply Forall_cons; [eexists; repeat split; reflexivity|]).
    apply Forall_nil.
  - unfold registered_tools.
    repeat (apply Forall_cons;
            [exists river_id_param; split; [left; reflexivity|reflexivity]|]).
    apply Forall_nil.
  - intros river_id date start_date end_date text H.
    rewrite forecasted_is_wrapper, stats_is_wrapper,
      (historical_is_wrapper river_id start_date end_date) in H.
    destruct H as [H|[H|H]]; eapply wrapper_returns_json; exact H.
  - intros river_id text. unfold get_return_periods.
    destruct (data_return_periods river_id) as [df|e]; [|discriminate].
    cbn [bind]. intro H. now exists df.
Qed.

End Surface.

(** The return periods of the example river come back as JSON text. *)
Lemma tool_surface_witness :
  exists df,
    @PandasJson.to_json Example.runtime df
    = @get_return_periods Example.runtime Example.service Example.river.
Proof.
  destruct (@tool_surface Example.runtime Example.service)
    as (_ & _ & _ & _ & _ & H).
  destruct (@get_return_periods Example.runtime Example.service Example.river)
    as [text|e] eqn:E.
  - exact (H Example.river text E).
  - vm_compute in E. discriminate.
Defined.

(** C3 as stated fails: [get_return_periods] is registered and takes no
    date at all. *)
Lemma tool_surface_counterexample :
  In get_return_periods_tool registered_tools /\
  ~ takes_optional_date get_return_periods_tool.
Proof.
  split.
  - simpl. tauto.
  - intros [p [[<-|[]] H]]. discriminate.
Qed.

End ServerShape.

(* ================================================================== *)
(** ** The plotting callback *)

Module PlotStreamflow.
Import Agent.
Section Proofs.
Context {RT : Runtime} {W : World}.

(** *** Computations that keep the artifact name fixed *)

Lemma keeps_name_ret {A} (a : A) : keeps_name (ret a).
Proof. intros tr H. exact H. Qed.

Lemma keeps_name_lift {A} (r : result A) : keeps_name (lift r).
Proof. intros tr H. exact H. Qed.

Lemma keeps_name_get_trace : keeps_name get_trace.
Proof. intros tr H. exact H. Qed.

Lemma keeps_name_bind {A B} (m : M A) (k : A -> M B) :
  keeps_name m -> (forall a, keeps_name (k a)) -> keeps_name (bindM m k).
Proof.
  intros Hm Hk tr H. unfold bindM. specialize (Hm tr H).
  destruct (m tr) as [tr' [a|e]]; simpl in *.
  - now apply Hk.
  - exact Hm.
Qed.

Lemma keeps_name_call (e : Effect) :
  (forall filename mime_type data,
     e = SaveArtifact filename mime_type data -> filename = artifact_name) ->
  keeps_name (call e).
Proof.
  intros He tr H filename mime_type data Hin. unfold call in Hin. simpl in Hin.
  apply in_app_or in Hin as [Hin|[Heq|[]]].
  - exact (H _ _ _ Hin).
  - exact (He _ _ _ Heq).
Qed.

Ltac keeps_name :=
  repeat first
    [ apply keeps_name_ret
    | apply keeps_name_lift
    | apply keeps_name_get_trace
    | apply keeps_name_call; intros; (discriminate || congruence)
    | apply keeps_name_bind; [|intro] ].

Lemma keeps_name_dispatch mcp_response data_request df :
  keeps_name (plot_streamflow_dispatch mcp_response data_request df).
Proof.
  unfold plot_streamflow_dispatch.
  destruct (eq_str data_request "get_forecasted_streamflow"); [keeps_name|].
  destruct (eq_str data_request "get_historical_streamflow"); [keeps_name|].
  destruct (eq_str data_request "get_forecast_stats"); keeps_name.
Qed.

Lemma keeps_name_save col_to_plot df :
  keeps_name (plot_streamflow_save col_to_plot df).
Proof.
  unfold plot_streamflow_save. destruct col_to_plot as [col|]; [|keeps_name].
  destruct (negb (String.eqb col "") && contains df (L_str col)); keeps_name.
Qed.

Lemma keeps_name_plot_streamflow tool_context :
  keeps_name (plot_streamflow tool_context).
Proof.
  unfold plot_streamflow.
  apply keeps_name_bind; [keeps_name|intro mcp_response].
  apply keeps_name_bind; [keeps_name|intro data_request].
  destruct (eq_str data_request "get_return_periods"); [keeps_name|].
  apply keeps_name_bind; [keeps_name|intro df].
  apply keeps_name_bind; [apply keeps_name_dispatch|intro col].
  apply keeps_name_save.
Qed.

(** C7.  Every artifact [plot_streamflow] saves, on any state and whatever
    the outcome, is saved under the name [geoglows_plot.png]. *)
Theorem artifact_name_is_fixed
  (tool_context : ToolContext) (filename mime_type data : string) :
  In (SaveArtifact filename mime_type data)
     (fst (run (plot_streamflow tool_context))) ->
  filename = "geoglows_plot.png"%string.
Proof.
  intro Hin.
  apply (keeps_name_plot_streamflow tool_context [] (fun _ _ _ H => match H with end)
           filename mime_type data Hin).
Qed.

(** *** The branches *)

Ltac branch :=
  repeat match goal with
         | |- context [eq_str (PStr ?a) ?b] =>
             let v := eval vm_compute in (eq_str (PStr a) b) in
             change (eq_str (PStr a) b) with v
         end;
  cbv beta iota.

Lemma call_runs (e : Effect) (tr : list Effect) :
  raises e = None -> call e tr = (tr ++ [e], Ok tt).
Proof. intro H. unfold call. now rewrite H. Qed.

(** The callback once the response is read and the request is not for
    return periods. *)
Lemma read_then_dispatch tool_context mcp_response data_request df tr :
  plot_streamflow_response tool_context = Ok mcp_response ->
  subscript mcp_response "data_request" = Ok data_request ->
  eq_str data_request "get_return_periods" = false ->
  plot_streamflow_frame mcp_response = Ok df ->
  plot_streamflow tool_context tr
  = bindM (plot_streamflow_dispatch mcp_response data_request df)
      (fun col_to_plot => plot_streamflow_save col_to_plot df) tr.
Proof.
  intros Hresp Hreq Hrp Hframe. unfold plot_streamflow.
  unfold bindM at 1, lift at 1. rewrite Hresp. cbv beta iota.
  unfold bindM at 1, lift at 1. rewrite Hreq. cbv beta iota. rewrite Hrp.
  unfold bindM at 1, lift at 1. now rewrite Hframe.
Qed.

Lemma dispatch_forecast mcp_response df median lower upper tr :
  getitem df (L_str "flow_median") = Ok median ->
  getitem df (L_str "flow_uncertainty_lower") = Ok lower ->
  getitem df (L_str "flow_uncertainty_upper") = Ok upper ->
  raises (Plot "flow_median" median (Some "Median Flow"%string)) = None ->
  raises (FillBetween (df_index df) lower upper) = None ->
  raises Legend = None ->
  plot_streamflow_dispatch mcp_response
    (PStr "get_forecasted_streamflow") df tr
  = (tr ++ [Plot "flow_median" median (Some "Median Flow"%string);
            FillBetween (df_index df) lower upper; Legend],
     Ok (Some "flow_median"%string)).
Proof.
  intros Hm Hl Hu Rp Rf Rl.
  unfold plot_streamflow_dispatch. branch.
  unfold bindM, lift. cbv beta. rewrite Hm. cbv beta iota.
  rewrite (call_runs _ _ Rp). cbv beta iota. rewrite Hl. cbv beta iota.
  rewrite Hu. cbv beta iota. rewrite (call_runs _ _ Rf). cbv beta iota.
  rewrite (call_runs _ _ Rl). cbv beta iota.
  unfold ret. now rewrite <- !app_assoc.
Qed.

Lemma dispatch_historical mcp_response df reach_id series tr :
  subscript mcp_response "reach_id" = Ok reach_id ->
  getitem df (L_str (py_str reach_id)) = Ok series ->
  raises (Plot (py_str reach_id) series None) = None ->
  plot_streamflow_dispatch mcp_response
    (PStr "get_historical_streamflow") df tr
  = (tr ++ [Plot (py_str reach_id) series None],
     Ok (Some (py_str reach_id))).
Proof.
  intros Hr Hs Rp.
  unfold plot_streamflow_dispatch. branch.
  unfold bindM, lift. cbv beta. rewrite Hr. cbv beta iota.
  rewrite Hs. cbv beta iota. rewrite (call_runs _ _ Rp). reflexivity.
Qed.

(** The last step on a column of the frame. *)
Lemma save_runs (col : string) (df : DataFrame) (tr : list Effect) :
  col <> ""%string ->
  contains df (L_str col) = true ->
  raises (Savefig "png" "tight") = None ->
  raises Close = None ->
  raises (Print (png_bytes tr)) = None ->
  plot_streamflow_save (Some col) df tr
  = (tr ++ [Savefig "png" "tight"; Close; Print (png_bytes tr);
            SaveArtifact "geoglows_plot.png" "image/png" (png_bytes tr)],
     match raises (SaveArtifact "geoglows_plot.png" "image/png"
                     (png_bytes tr)) with
     | Some e => Raise e
     | None => Ok tt
     end).
Proof.
  intros Hcol Hc Rs Rc Rp. unfold plot_streamflow_save. rewrite Hc.
  destruct (String.eqb_spec col ""); [contradiction|]. cbn [negb andb].
  unfold bindM, get_trace. cbv beta iota.
  rewrite (call_runs _ _ Rs). cbv beta iota.
  rewrite (call_runs _ _ Rc). cbv beta iota.
  rewrite (call_runs _ _ Rp). cbv beta iota.
  unfold call, artifact_name. now rewrite <- !app_assoc.
Qed.

(** C5.  [plot_streamflow] chooses the column by the [data_request] of
    the stored response, as its calls show.  For a forecast it plots the
    column [flow_median], with the uncertainty band and the legend, and
    saves the figure; for a historical series it plots the column named
    by the text of the reach identifier and saves the figure; for
    forecast statistics it plots nothing and saves the figure exactly
    when [flow_avg] is a column of the frame; and for return periods it
    returns before it builds a frame, with no call and no column.  (The
    columns read are in the frame and the calls before [save_artifact]
    do not fail.) *)
Theorem dispatch_chooses_column
  (tool_context : ToolContext) (mcp_response : pyvalue) (tr : list Effect) :
  plot_streamflow_response tool_context = Ok mcp_response ->
  (forall df median lower upper,
     subscript mcp_response "data_request"
     = Ok (PStr "get_forecasted_streamflow") ->
     plot_streamflow_frame mcp_response = Ok df ->
     getitem df (L_str "flow_median") = Ok median ->
     getitem df (L_str "flow_uncertainty_lower") = Ok lower ->
     getitem df (L_str "flow_uncertainty_upper") = Ok upper ->
     let plotted :=
       [Plot "flow_median" median (Some "Median Flow"%string);
        FillBetween (df_index df) lower upper; Legend] in
     let image := png_bytes (tr ++ plotted) in
     (forall e,
        In e (plotted ++ [Savefig "png" "tight"; Close; Print image]) ->
        raises e = None) ->
     plot_streamflow tool_context tr
     = ((tr ++ plotted)
          ++ [Savefig "png" "tight"; Close; Print image;
              SaveArtifact "geoglows_plot.png" "image/png" image],
        match raises (SaveArtifact "geoglows_plot.png" "image/png" image) with
        | Some e => Raise e
        | None => Ok tt
        end)) /\
  (forall df reach_id series,
     subscript mcp_response "data_request"
     = Ok (PStr "get_historical_streamflow") ->
     plot_streamflow_frame mcp_response = Ok df ->
     subscript mcp_response "reach_id" = Ok reach_id ->
     py_str reach_id <> ""%string ->
     getitem df (L_str (py_str reach_id)) = Ok series ->
     let plotted := [Plot (py_str reach_id) series None] in
     let image := png_bytes (tr ++ plotted) in
     (forall e,
        In e (plotted ++ [Savefig "png" "tight"; Close; Print image]) ->
        raises e = None) ->
     plot_streamflow tool_context tr
     = ((tr ++ plotted)
          ++ [Savefig "png" "tight"; Close; Print image;
              SaveArtifact "geoglows_plot.png" "image/png" image],
        match raises (SaveArtifact "geoglows_plot.png" "image/png" image) with
        | Some e => Raise e
        | None => Ok tt
        end)) /\
  (forall df,
     subscript mcp_response "data_request" = Ok (PStr "get_forecast_stats") ->
     plot_streamflow_frame mcp_response = Ok df ->
     let image := png_bytes tr in
     (contains df (L_str "flow_avg") = true ->
      (forall e,
         In e [Savefig "png" "tight"; Close; Print image] ->
         raises e = None) ->
      plot_streamflow tool_context tr
      = (tr ++ [Savefig "png" "tight"; Close; Print image;
                SaveArtifact "geoglows_plot.png" "image/png" image],
         match raises (SaveArtifact "geoglows_plot.png" "image/png" image) with
         | Some e => Raise e
         | None => Ok tt
         end)) /\
     (contains df (L_str "flow_avg") = false ->
      plot_streamflow tool_context tr = (tr, Ok tt))) /\
  (subscript mcp_response "data_request" = Ok (PStr "get_return_periods") ->
   plot_streamflow tool_context tr = (tr, Ok tt)).
Proof.
  intro Hresp. split; [|split; [|split]].
  - intros df median lower upper Hreq Hframe Hm Hl Hu plotted image Hcalls.
    rewrite (read_then_dispatch tool_context mcp_response _ df tr
               Hresp Hreq eq_refl Hframe).
    unfold bindM.
    rewrite (dispatch_forecast mcp_response df median lower upper tr Hm Hl Hu)
      by (apply Hcalls; simpl; tauto).
    cbv beta iota. fold plotted.
    apply save_runs;
      [discriminate | eapply getitem_contains; exact Hm
      | apply Hcalls; simpl; tauto ..].
  - intros df reach_id series Hreq Hframe Hr Hne Hs plotted image Hcalls.
    rewrite (read_then_dispatch tool_context mcp_response _ df tr
               Hresp Hreq eq_refl Hframe).
    unfold bindM.
    rewrite (dispatch_historical mcp_response df reach_id series tr Hr Hs)
      by (apply Hcalls; simpl; tauto).
    cbv beta iota. fold plotted.
    apply save_runs;
      [exact Hne | eapply getitem_contains; exact Hs
      | apply Hcalls; simpl; tauto ..].
  - intros df Hreq Hframe image.
    rewrite (read_then_dispatch tool_context mcp_response _ df tr
               Hresp Hreq eq_refl Hframe).
    unfold bindM, plot_streamflow_dispatch. branch. unfold ret.
    split.
    + intros Hc Hcalls.
      apply save_runs;
        [discriminate | exact Hc | apply Hcalls; simpl; tauto ..].
    + intro Hc. unfold plot_streamflow_save. rewrite Hc.
      now rewrite andb_false_r.
  - intro Hreq. unfold plot_streamflow, bindM, lift.
    rewrite Hresp. cbv beta iota. rewrite Hreq. reflexivity.
Qed.

(** C9.  When the stored response is text that decodes to a mapping, the
    callback does on the text exactly what it does on that mapping: the
    same calls and the same outcome; and when the text does not decode,
    the decoder's exception is raised before any call. *)
Theorem text_or_mapping
  (with_text with_mapping : ToolContext) (text : string) (tr : list Effect) :
  dict_get (state with_text) (L_str "streamflow_out") = Some (PStr text) ->
  (forall m,
     json_loads text = Ok (PDict m) ->
     dict_get (state with_mapping) (L_str "streamflow_out") = Some (PDict m) ->
     plot_streamflow with_text tr = plot_streamflow with_mapping tr) /\
  (forall e,
     json_loads text = Raise e ->
     plot_streamflow with_text tr = (tr, Raise e)).
Proof.
  intro Ht. split.
  - intros m Hdec Hm.
    unfold plot_streamflow, bindM, lift, plot_streamflow_response, subscript.
    rewrite Ht, Hm. cbn [bind]. rewrite Hdec. reflexivity.
  - intros e Hdec.
    unfold plot_streamflow, bindM, lift, plot_streamflow_response, subscript.
    rewrite Ht. cbn [bind]. rewrite Hdec. reflexivity.
Qed.

(** C10.  On a request for forecast statistics the callback makes no plot
    call.  When the frame has a [flow_avg] column it goes straight to
    saving the figure and stores it as the artifact; when the frame has
    no such column it makes no call at all and returns normally. *)
Theorem forecast_stats_saves_unplotted
  (tool_context : ToolContext) (mcp_response : pyvalue) (df : DataFrame)
  (tr : list Effect) :
  plot_streamflow_response tool_context = Ok mcp_response ->
  subscript mcp_response "data_request" = Ok (PStr "get_forecast_stats") ->
  plot_streamflow_frame mcp_response = Ok df ->
  (contains df (L_str "flow_avg") = true ->
   raises (Savefig "png" "tight") = None ->
   raises Close = None ->
   raises (Print (png_bytes tr)) = None ->
   plot_streamflow tool_context tr
   = (tr ++ [Savefig "png" "tight"; Close; Print (png_bytes tr);
             SaveArtifact "geoglows_plot.png" "image/png" (png_bytes tr)],
      match raises (SaveArtifact "geoglows_plot.png" "image/png"
                      (png_bytes tr)) with
      | Some e => Raise e
      | None => Ok tt
      end)) /\
  (contains df (L_str "flow_avg") = false ->
   plot_streamflow tool_context tr = (tr, Ok tt)).
Proof.
  intros Hresp Hreq Hframe.
  assert (Hplot : plot_streamflow tool_context tr
                  = plot_streamflow_save (Some "flow_avg"%string) df tr).
  { unfold plot_streamflow, bindM, lift. rewrite Hresp. cbv beta iota.
    rewrite Hreq. cbv beta iota. branch. rewrite Hframe. reflexivity. }
  rewrite Hplot. unfold plot_streamflow_save.
  change (negb (String.eqb "flow_avg" "")) with true. cbn [andb].
  split; intro Hc; rewrite Hc; [|reflexivity].
  intros Rs Rc Rp. unfold bindM, get_trace. cbv beta iota.
  rewrite (call_runs _ _ Rs). cbv beta iota.
  rewrite (call_runs _ _ Rc). cbv beta iota.
  rewrite (call_runs _ _ Rp). cbv beta iota.
  unfold call, artifact_name. now rewrite <- !app_assoc.
Qed.

End Proofs.
End PlotStreamflow.

(* ================================================================== *)
(** ** The plotting callback on the example responses *)

Module PlotStreamflowExamples.
Import Agent PlotStreamflow Example.

(** A forecast is plotted and saved under the fixed name. *)
Lemma artifact_name_is_fixed_witness :
  In (SaveArtifact "geoglows_plot.png" "image/png" "PNG image of 3 calls")
     (fst (run (plot (context (PDict forecast_response))))) /\
  "geoglows_plot.png"%string = "geoglows_plot.png"%string.
Proof.
  assert (H : In (SaveArtifact "geoglows_plot.png" "image/png"
                    "PNG image of 3 calls")
                 (fst (run (plot (context (PDict forecast_response)))))).
  { vm_compute. do 6 right. left. reflexivity. }
  split; [exact H|].
  exact (@artifact_name_is_fixed runtime world
           (context (PDict forecast_response)) _ _ _ H).
Defined.

(** The four requests on the example responses: the median of the
    forecast is plotted and saved, the column of the river is plotted
    and saved, the statistics are saved unplotted, and nothing is done
    for return periods. *)
Lemma dispatch_chooses_column_witness :
  (exists median lower upper,
     plot (context (PDict forecast_response)) []
     = ([Plot "flow_median" median (Some "Median Flow"%string);
         FillBetween (df_index (frame_of forecast_response)) lower upper;
         Legend;
         Savefig "png" "tight"; Close; Print "PNG image of 3 calls";
         SaveArtifact "geoglows_plot.png" "image/png" "PNG image of 3 calls"],
        Ok tt)) /\
  (exists series,
     plot (context (PDict historical_response)) []
     = ([Plot "760701588" series None;
         Savefig "png" "tight"; Close; Print "PNG image of 1 calls";
         SaveArtifact "geoglows_plot.png" "image/png" "PNG image of 1 calls"],
        Ok tt)) /\
  plot (context (PDict stats_response)) []
  = ([Savefig "png" "tight"; Close; Print "PNG image of 0 calls";
      SaveArtifact "geoglows_plot.png" "image/png" "PNG image of 0 calls"],
     Ok tt) /\
  plot (context (PDict return_periods_response)) [] = ([], Ok tt).
Proof.
  split; [|split; [|split]].
  - destruct (@dispatch_chooses_column runtime world
                (context (PDict forecast_response))
                (PDict forecast_response) [] eq_refl)
      as (H & _).
    do 3 eexists.
    etransitivity;
      [apply (H (frame_of forecast_response));
         [vm_compute; reflexivity .. | intros e _; reflexivity]
      | vm_compute; reflexivity].
  - destruct (@dispatch_chooses_column runtime world
                (context (PDict historical_response))
                (PDict historical_response) [] eq_refl)
      as (_ & H & _).
    eexists.
    etransitivity;
      [apply (H (frame_of historical_response) (PInt river));
         [vm_compute; reflexivity | vm_compute; reflexivity
         | vm_compute; reflexivity | discriminate
         | vm_compute; reflexivity | intros e _; reflexivity]
      | vm_compute; reflexivity].
  - destruct (@dispatch_chooses_column runtime world
                (context (PDict stats_response))
                (PDict stats_response) [] eq_refl)
      as (_ & _ & H & _).
    destruct (H (frame_of stats_response)) as (Hsave & _);
      [vm_compute; reflexivity | vm_compute; reflexivity |].
    etransitivity;
      [apply Hsave; [vm_compute; reflexivity | intros e _; reflexivity]
      | vm_compute; reflexivity].
  - destruct (@dispatch_chooses_column runtime world
                (context (PDict return_periods_response))
                (PDict return_periods_response) [] eq_refl)
      as (_ & _ & _ & H).
    apply H. vm_compute. reflexivity.
Defined.

(** The historical response stored as text and stored as a mapping; and a
    text that is not JSON. *)
Lemma text_or_mapping_witness :
  plot (context (PStr (dumps (PDict historical_response)))) []
  = plot (context (PDict historical_response)) [] /\
  plot (context (PStr "not json")) []
  = ([], Raise (Exn "JSONDecodeError" "Expecting value")).
Proof.
  split.
  - destruct (@text_or_mapping runtime world
                (context (PStr (dumps (PDict historical_response))))
                (context (PDict historical_response))
                (dumps (PDict historical_response)) [] eq_refl) as (H & _).
    apply (H historical_response); reflexivity.
  - destruct (@text_or_mapping runtime world
                (context (PStr "not json"))
                (context PNone) "not json" [] eq_refl) as (_ & H).
    apply H. reflexivity.
Defined.

(** Forecast statistics with and without the [flow_avg] column. *)
Lemma forecast_stats_saves_unplotted_witness :
  plot (context (PDict stats_response)) []
  = ([Savefig "png" "tight"; Close; Print "PNG image of 0 calls";
      SaveArtifact "geoglows_plot.png" "image/png" "PNG image of 0 calls"],
     Ok tt) /\
  plot (context (PDict stats_response_no_avg)) [] = ([], Ok tt).
Proof.
  split.
  - destruct (@forecast_stats_saves_unplotted runtime world
                (context (PDict stats_response)) (PDict stats_response)
                (frame_of stats_response) [] eq_refl eq_refl eq_refl)
      as (H & _).
    apply H; reflexivity.
  - destruct (@forecast_stats_saves_unplotted runtime world
                (context (PDict stats_response_no_avg))
                (PDict stats_response_no_avg)
                (frame_of stats_response_no_avg) [] eq_refl eq_refl eq_refl)
      as (_ & H).
    apply H; reflexivity.
Defined.

End PlotStreamflowExamples.

(* ================================================================== *)
(** ** The functions run on the example data *)

Module Checks.
Import GeoglowsMcpServer Agent Example.

Example iso_of_forecast_start :
  iso (mkTimestamp t0 utc) = "2025-10-24T00:00:00+00:00"%string.
Proof. reflexivity. Qed.

Example bound_of_19400101 : parse_bound "19400101" = Ok (Some day1).
Proof. reflexivity. Qed.

(** The text the server returns for a forecast is the text of the records
    the agent's prompt shows for it. *)
Example forecast_text :
  @get_forecasted_streamflow runtime service river None
  = Ok (dumps forecast_records).
Proof. vm_compute. reflexivity. Qed.

(** From 19400101 to 19400102, both midnights included. *)
Example historical_text :
  @get_historical_streamflow runtime service river
    (Some "19400101") (Some "19400102")
  = Ok (dumps
          (PList
             [ PDict [ (L_str "time", PStr "1940-01-01T00:00:00+00:00");
                       (L_int river, PFloat (F_finite 16830096 (-12))) ];
               PDict [ (L_str "time", PStr "1940-01-01T07:00:00+00:00");
                       (L_int river, PFloat (F_finite 16868392 (-12))) ];
               PDict [ (L_str "time", PStr "1940-01-02T00:00:00+00:00");
                       (L_int river, PFloat (F_finite 16906526 (-12))) ] ])).
Proof. vm_compute. reflexivity. Qed.

(** A naive bound that is not a date is an error of the date parser. *)
Example historical_bad_date :
  @get_historical_streamflow runtime service river (Some "soon") None
  = Raise (unknown_format "soon").
Proof. vm_compute. reflexivity. Qed.

(** The frame whose index is labelled like a column cannot be reset. *)
Example clash_raises :
  reset_index clash_frame
  = Raise (ValueError "cannot insert time, already exists").
Proof. reflexivity. Qed.

(** Two datetime columns under one label: neither is converted, and the
    record keeps the entry of the second. *)
Example twin_records :
  @dataframe_to_json_serializable runtime twin_frame
  = Ok [ [ (L_str "index", PInt 0);
           (L_str "issued", PTimestamp (mkTimestamp (t0 + hour) utc)) ];
         [ (L_str "index", PInt 1); (L_str "issued", PNaT) ] ].
Proof. vm_compute. reflexivity. Qed.

(** The labels [1] and ['1'] are two labels for [to_json], which prints
    both columns under the key 1. *)
Example to_json_labels :
  exists text,
    @PandasJson.to_json runtime
      (mkDataFrame (mkIndex None (S_int [0%Z]))
         [ (L_int 1, S_int [7%Z]); (L_str "1", S_int [8%Z]) ])
    = Ok text.
Proof. eexists. vm_compute. reflexivity. Qed.

(** The index entries [1] and [True] are one key. *)
Example to_json_index :
  @PandasJson.to_json runtime
    (mkDataFrame (mkIndex None (S_object [PInt 1; PBool true]))
       [ (L_str "flow", S_int [7%Z; 8%Z]) ])
  = Raise (ValueError "DataFrame index must be unique for orient='columns'.").
Proof. vm_compute. reflexivity. Qed.

(** A forecast: the median, the band, the legend, then the image. *)
Example plot_forecast :
  map (fun e => match e with
                | Plot col _ _ => col
                | FillBetween _ _ _ => "fill_between"%string
                | Legend => "legend"%string
                | Savefig _ _ => "savefig"%string
                | Close => "close"%string
                | Print _ => "print"%string
                | SaveArtifact name _ _ => name
                end)
      (fst (run (plot (context (PDict forecast_response)))))
  = ["flow_median"; "fill_between"; "legend"; "savefig"; "close"; "print";
     "geoglows_plot.png"]%string.
Proof. vm_compute. reflexivity. Qed.

(** A forecast whose data lacks the median column: [df[col]] raises
    before anything is drawn. *)
Example plot_forecast_without_median :
  run (plot (context (PDict (response "get_forecasted_streamflow"
                                      stats_records))))
  = ([], Raise (KeyError "flow_median")).
Proof. vm_compute. reflexivity. Qed.

End Checks.

(* ================================================================== *)
(** ** The data server: more on the records *)

Module ServerMore.
Import GeoglowsMcpServer ServerRecords.
Section Records.
Context {RT : Runtime}.

Lemma record_at_pairs (df : DataFrame) (i : nat) :
  NoDup (map fst (reset_columns df)) ->
  record_at (converted_frame df) i
  = map (fun c => (fst c, nth i (series_values (converted (snd c))) PNone))
        (reset_columns df).
Proof.
  intro Hnd. unfold record_at, converted_frame. cbn [df_columns].
  rewrite map_map. cbn [convert_entry fst snd].
  apply dict_of_pairs_NoDup. now rewrite map_map.
Qed.

Lemma records_of (df : DataFrame) (records : list pydict) :
  wf_frame df ->
  contains df (index_label df) = false ->
  dataframe_to_json_serializable df = Ok records ->
  records = to_dict_records (converted_frame df).
Proof.
  intros Hwf Hc H. rewrite serializable_ok in H by (try apply Hwf; exact Hc).
  now injection H as <-.
Qed.

Lemma row_bound (df : DataFrame) l s i x :
  wf_frame df ->
  In (l, s) (reset_columns df) ->
  nth_error (series_values s) i = Some x ->
  i < nrows df.
Proof.
  intros [Hrect _] Hin Hnth.
  assert (Hi : i < series_len s) by (apply nth_error_Some; congruence).
  destruct Hin as [Heq|Hin].
  - injection Heq as _ Heq. unfold nrows. now rewrite Heq.
  - rewrite Forall_forall in Hrect. specialize (Hrect _ Hin).
    simpl in Hrect. lia.
Qed.

(** X1.  Every record the function returns has the same keys in the same
    order: the label of the index first, then the column labels. *)
Theorem record_keys (df : DataFrame) (records : list pydict) (r : pydict) :
  wf_frame df ->
  contains df (index_label df) = false ->
  dataframe_to_json_serializable df = Ok records ->
  In r records ->
  map fst r = index_label df :: columns df.
Proof.
  intros Hwf Hc H Hin.
  rewrite (records_of df records Hwf Hc H) in Hin.
  unfold to_dict_records in Hin. apply in_map_iff in Hin as [i [<- _]].
  rewrite record_at_pairs
    by (apply reset_columns_NoDup; [apply Hwf|exact Hc]).
  rewrite map_map. reflexivity.
Qed.


End Records.

Lemma record_keys_witness :
  map fst (record_at (@converted_frame Example.runtime Example.forecast_frame) 0)
  = [L_str "time"; L_str "flow_uncertainty_upper"; L_str "flow_median";
     L_str "flow_uncertainty_lower"].
Proof.
  apply (@record_keys Example.runtime Example.forecast_frame
           (to_dict_records (@converted_frame Example.runtime
                               Example.forecast_frame)));
    [prove_wf|reflexivity|vm_compute; reflexivity|].
  left. reflexivity.
Defined.


End ServerMore.

(* ================================================================== *)
(** ** The data server: what [json.dumps] accepts *)

Module ServerJson.
Import GeoglowsMcpServer ServerRecords ServerMore.
Section Encoder.
Context {RT : Runtime}.

Lemma mapM_ok {A B} (f : A -> result B) (xs : list A) :
  Forall (fun x => exists y, f x = Ok y) xs ->
  exists ys, mapM f xs = Ok ys.
Proof.
  induction 1 as [|x xs [y Hy] _ [ys Hys]]; simpl; [eauto|].
  rewrite Hy, Hys. simpl. eauto.
Qed.

Lemma mapM_all_ok {A B} (f : A -> result B) (xs : list A) (ys : list B) :
  mapM f xs = Ok ys -> Forall (fun x => exists y, f x = Ok y) xs.
Proof.
  revert ys. induction xs as [|x xs IH]; simpl; intros ys H; [constructor|].
  destruct (f x) as [y|e] eqn:Hx; simpl in H; [|discriminate].
  destruct (mapM f xs) as [ys'|e]; simpl in H; [|discriminate].
  constructor; eauto.
Qed.

Lemma mapM_raise {A B} (f : A -> result B) (xs : list A) (e : exn) :
  mapM f xs = Raise e -> exists x, In x xs /\ f x = Raise e.
Proof.
  induction xs as [|x xs IH]; simpl; intro H; [discriminate|].
  destruct (f x) as [y|e'] eqn:Hx; simpl in H.
  - destruct (mapM f xs) as [ys|e'']; simpl in H; [discriminate|].
    destruct (IH H) as [x' [Hin Hx']]. eauto.
  - injection H as ->. eauto.
Qed.

Lemma encode_list (level : nat) (x : pyvalue) (l : list pyvalue) :
  Json.encode level (PList (x :: l))
  = (items <- mapM (Json.encode (S level)) (x :: l) ;;
     Ok ("[" ++ Json.newline_indent (S level)
             ++ String.concat ("," ++ Json.newline_indent (S level)) items
             ++ Json.newline_indent level ++ "]")%string).
Proof.
  assert (H : forall l0,
    (fix items (l : list pyvalue) : result (list string) :=
       match l with
       | [] => Ok []
       | x :: l' =>
           s <- Json.encode (S level) x ;;
           r <- items l' ;; Ok (s :: r)
       end) l0 = mapM (Json.encode (S level)) l0).
  { induction l0 as [|y l0 IH]; [reflexivity|].
    cbn [mapM]. rewrite <- IH. reflexivity. }
  rewrite <- H. reflexivity.
Qed.

Lemma encode_dict (level : nat) (kv : label * pyvalue) (d : pydict) :
  Json.encode level (PDict (kv :: d))
  = (items <- mapM (encode_entry level) (kv :: d) ;;
     Ok ("{" ++ Json.newline_indent (S level)
             ++ String.concat ("," ++ Json.newline_indent (S level)) items
             ++ Json.newline_indent level ++ "}")%string).
Proof.
  assert (H : forall d0,
    (fix items (d : list (label * pyvalue)) : result (list string) :=
       match d with
       | [] => Ok []
       | (k, x) :: d' =>
           s <- Json.encode (S level) x ;;
           r <- items d' ;; Ok ((Json.encode_key k ++ ": " ++ s)%string :: r)
       end) d0 = mapM (encode_entry level) d0).
  { induction d0 as [|[k y] d0 IH]; [reflexivity|].
    cbn [mapM]. rewrite <- IH. unfold encode_entry. cbn [fst snd].
    destruct (Json.encode (S level) y); reflexivity. }
  rewrite <- H. destruct kv. reflexivity.
Qed.

Lemma serializable_dict (d : pydict) :
  json_serializable (PDict d)
  = forallb (fun kv => json_serializable (snd kv)) d.
Proof.
  induction d as [|[k x] d IH]; [reflexivity|].
  cbn [forallb snd]. rewrite <- IH. reflexivity.
Qed.

(** The encoder succeeds exactly on the values without a timestamp. *)
Lemma encode_ok (v : pyvalue) :
  json_serializable v = true ->
  forall level, exists t, Json.encode level v = Ok t.
Proof.
  induction v as [|b|z|f|s|t| |l IH|d IH] using pyvalue_nested_ind;
    intros Hs level; try discriminate; try (simpl; eauto; fail).
  - destruct b; simpl; eauto.
  - destruct l as [|x l]; [simpl; eauto|].
    rewrite encode_list.
    destruct (mapM_ok (Json.encode (S level)) (x :: l)) as [ts Hts].
    { cbn [json_serializable] in Hs. rewrite forallb_forall in Hs.
      rewrite Forall_forall in *. intros y Hy. apply IH; auto. }
    rewrite Hts. simpl. eauto.
  - destruct d as [|kv d]; [simpl; eauto|].
    rewrite encode_dict.
    destruct (mapM_ok (encode_entry level) (kv :: d)) as [ts Hts].
    { rewrite serializable_dict, forallb_forall in Hs.
      rewrite Forall_forall in *. intros y Hy.
      destruct (IH y Hy (Hs y Hy) (S level)) as [t Ht].
      unfold encode_entry. rewrite Ht. simpl. eauto. }
    rewrite Hts. simpl. eauto.
Qed.

Lemma encode_needs (v : pyvalue) :
  forall level t, Json.encode level v = Ok t -> json_serializable v = true.
Proof.
  induction v as [|b|z|f|s|t| |l IH|d IH] using pyvalue_nested_ind;
    intros level t' H; try reflexivity; try discriminate.
  - destruct l as [|x l]; [reflexivity|].
    rewrite encode_list in H.
    destruct (mapM (Json.encode (S level)) (x :: l)) as [ts|e] eqn:E;
      [|discriminate].
    apply mapM_all_ok in E. cbn [json_serializable].
    apply forallb_forall. rewrite Forall_forall in *.
    intros y Hy. destruct (E y Hy) as [ty Hty]. eapply IH; eauto.
  - destruct d as [|kv d]; [reflexivity|].
    rewrite encode_dict in H.
    destruct (mapM (encode_entry level) (kv :: d)) as [ts|e] eqn:E;
      [|discriminate].
    apply mapM_all_ok in E. rewrite serializable_dict.
    apply forallb_forall. rewrite Forall_forall in *.
    intros y Hy. destruct (E y Hy) as [ty Hty].
    unfold encode_entry in Hty.
    destruct (Json.encode (S level) (snd y)) as [sy|e] eqn:Ey;
      [|discriminate].
    eapply IH; eauto.
Qed.

(** Whatever the encoder raises is a [TypeError]. *)
Lemma encode_raises_TypeError (v : pyvalue) :
  forall level e, Json.encode level v = Raise e -> exn_class e = "TypeError".
Proof.
  induction v as [|b|z|f|s|t| |l IH|d IH] using pyvalue_nested_ind;
    intros level e H; try discriminate;
    try (injection H as <-; reflexivity).
  - destruct b; discriminate.
  - destruct l as [|x l]; [discriminate|].
    rewrite encode_list in H.
    destruct (mapM (Json.encode (S level)) (x :: l)) as [ts|e'] eqn:E;
      [discriminate|].
    injection H as ->. apply mapM_raise in E as [y [Hy Hr]].
    rewrite Forall_forall in IH. eapply IH; eauto.
  - destruct d as [|kv d]; [discriminate|].
    rewrite encode_dict in H.
    destruct (mapM (encode_entry level) (kv :: d)) as [ts|e'] eqn:E;
      [discriminate|].
    injection H as ->. apply mapM_raise in E as [y [Hy Hr]].
    unfold encode_entry in Hr.
    destruct (Json.encode (S level) (snd y)) as [sy|e'] eqn:Ey;
      [discriminate|].
    injection Hr as ->. rewrite Forall_forall in IH. eapply IH; eauto.
Qed.

End Encoder.
End ServerJson.

(* ================================================================== *)
(** ** The data server: when the text can be written *)

Module ServerText.
Import GeoglowsMcpServer ServerRecords ServerMore ServerJson.
Section Text.
Context {RT : Runtime} {GD : GeoglowsData}.

Lemma nth_Forall {A} (P : A -> Prop) (l : list A) (d : A) (i : nat) :
  Forall P l -> P d -> P (nth i l d).
Proof.
  intros Hl Hd. destruct (nth_in_or_default i l d) as [Hin| ->]; [|exact Hd].
  rewrite Forall_forall in Hl. now apply Hl.
Qed.

Lemma converted_cell_serializable (s : Series) (i : nat) :
  (forall v, s = S_object v -> forallb json_serializable v = true) ->
  json_serializable (nth i (series_values (converted s)) PNone) = true.
Proof.
  intro Hobj. apply nth_Forall; [|reflexivity].
  destruct s as [tz v|v|v|v|v]; simpl.
  - apply Forall_forall. intros x Hx. apply in_map_iff in Hx as [[ns|] [<- _]];
      reflexivity.
  - apply Forall_forall. intros x Hx. now apply in_map_iff in Hx as [f [<- _]].
  - apply Forall_forall. intros x Hx. now apply in_map_iff in Hx as [f [<- _]].
  - apply Forall_forall. intros x Hx. now apply in_map_iff in Hx as [f [<- _]].
  - apply Forall_forall. rewrite <- forallb_forall. now apply Hobj.
Qed.

Lemma plain_cell_serializable (v : pyvalue) :
  plain_cell v = true -> json_serializable v = true.
Proof. destruct v; simpl; intro H; (reflexivity || discriminate). Qed.

(** X3.  On a frame with pairwise distinct column labels, none of them
    the label of the index, whose object columns hold plain cells only
    ([None], booleans, floats, text and integers of at most 4300 digits),
    the records can be written: [json.dumps] raises nothing. *)
Theorem records_can_be_written (df : DataFrame) :
  wf_frame df ->
  contains df (index_label df) = false ->
  plain_frame df ->
  exists text, dumps_records df = Ok text.
Proof.
  intros Hwf Hc [Hobj _]. unfold dumps_records.
  rewrite serializable_ok by (try apply Hwf; exact Hc). cbn [bind].
  apply encode_ok. cbn [json_serializable].
  apply forallb_forall. intros x Hx.
  apply in_map_iff in Hx as [r [<- Hr]].
  unfold to_dict_records in Hr. apply in_map_iff in Hr as [i [<- _]].
  rewrite serializable_dict.
  rewrite record_at_pairs
    by (apply reset_columns_NoDup; [apply Hwf|exact Hc]).
  apply forallb_forall. intros kv Hkv.
  apply in_map_iff in Hkv as [[l s] [<- Hin]]. cbn [fst snd].
  apply converted_cell_serializable. intros v ->.
  apply forallb_forall. intros x Hx. apply plain_cell_serializable.
  specialize (Hobj _ _ Hin). rewrite forallb_forall in Hobj. now apply Hobj.
Qed.

(** X4.  The conversion goes by the dtype of a column, not by its cells:
    a timestamp in a column of object dtype is left as it is, and the
    tool raises the [TypeError] of [json.dumps]. *)
Theorem object_timestamp_raises
  (river_id : Z) (date : option string) (df : DataFrame)
  (l : label) (v : list pyvalue) (i : nat) (t : Timestamp) :
  data_forecast river_id date = Ok df ->
  wf_frame df ->
  contains df (index_label df) = false ->
  In (l, S_object v) (df_columns df) ->
  nth_error v i = Some (PTimestamp t) ->
  exists e, get_forecasted_streamflow river_id date = Raise e /\
            exn_class e = "TypeError".
Proof.
  intros Hfetch Hwf Hc Hin Hnth.
  unfold get_forecasted_streamflow, dumps_records. rewrite Hfetch. cbn [bind].
  rewrite serializable_ok by (try apply Hwf; exact Hc). cbn [bind].
  unfold Json.dumps_indent2.
  destruct (Json.encode 0 _) as [text|e] eqn:E.
  - exfalso. apply encode_needs in E. cbn [json_serializable] in E.
    rewrite forallb_forall in E.
    assert (Hi : i < nrows df).
    { eapply (row_bound df l (S_object v)); [exact Hwf|right; exact Hin|exact Hnth]. }
    specialize (E (PDict (record_at (converted_frame df) i))).
    rewrite serializable_dict in E.
    rewrite record_at_pairs in E
      by (apply reset_columns_NoDup; [apply Hwf|exact Hc]).
    assert (Hr : In (PDict
                       (map (fun c => (fst c,
                                       nth i (series_values (converted (snd c)))
                                           PNone))
                            (reset_columns df)))
                    (map PDict (to_dict_records (converted_frame df)))).
    { apply in_map_iff. eexists. split.
      - rewrite <- record_at_pairs
          by (apply reset_columns_NoDup; [apply Hwf|exact Hc]).
        reflexivity.
      - unfold to_dict_records. apply in_map_iff. exists i. split; [reflexivity|].
        apply in_seq. unfold converted_frame. rewrite nrows_RangeIndex. lia. }
    specialize (E Hr). rewrite forallb_forall in E.
    specialize (E (l, PTimestamp t)). cbn [snd json_serializable] in E.
    assert (false = true); [|discriminate]. apply E.
    apply in_map_iff. exists (l, S_object v). split; [|right; exact Hin].
    cbn [fst snd converted series_values]. f_equal.
    now apply nth_error_nth.
  - exists e. split; [reflexivity|]. eapply encode_raises_TypeError. exact E.
Qed.

Lemma dumps_records_empty (df : DataFrame) :
  NoDup (columns df) ->
  contains df (index_label df) = false ->
  nrows df = 0 ->
  dumps_records df = Ok "[]".
Proof.
  intros Hnd Hc Hn. unfold dumps_records.
  rewrite serializable_ok by assumption. cbn [bind].
  unfold to_dict_records, converted_frame. rewrite nrows_RangeIndex, Hn.
  reflexivity.
Qed.

(** X5.  A fetched frame without rows is no error: the two forecast tools
    return the empty JSON list. *)
Theorem no_rows_empty_list
  (river_id : Z) (date : option string) (df : DataFrame) :
  wf_frame df ->
  contains df (index_label df) = false ->
  nrows df = 0 ->
  (data_forecast river_id date = Ok df ->
   get_forecasted_streamflow river_id date = Ok "[]") /\
  (data_forecast_stats river_id date = Ok df ->
   get_forecast_stats river_id date = Ok "[]").
Proof.
  intros Hwf Hc Hn.
  assert (H : dumps_records df = Ok "[]")
    by (apply dumps_records_empty; [apply Hwf|exact Hc|exact Hn]).
  split; intro Hfetch;
    unfold get_forecasted_streamflow, get_forecast_stats; rewrite Hfetch;
    exact H.
Qed.

End Text.

(** The historical series with its index as text: an object column of
    text and a column labelled by an integer. *)
Lemma records_can_be_written_witness :
  exists text,
    @dumps_records Example.runtime MoreExamples.text_index_frame = Ok text.
Proof.
  apply (@records_can_be_written Example.runtime
           MoreExamples.text_index_frame);
    [prove_wf|reflexivity|].
  split.
  - intros l v [H|[H|[]]]; [injection H as _ <-; reflexivity|discriminate].
  - intros l s [H|[H|[]]]; injection H as <- _; vm_compute; reflexivity.
Defined.

Lemma object_timestamp_raises_witness :
  exists e,
    @get_forecasted_streamflow Example.runtime
      (MoreExamples.serving MoreExamples.object_frame) Example.river None
    = Raise e /\
    exn_class e = "TypeError".
Proof.
  apply (@object_timestamp_raises Example.runtime
           (MoreExamples.serving MoreExamples.object_frame)
           Example.river None MoreExamples.object_frame
           (L_str "issued")
           [PTimestamp (mkTimestamp Example.t0 Example.utc)] 0%nat
           (mkTimestamp Example.t0 Example.utc));
    [reflexivity|prove_wf|reflexivity|left; reflexivity|reflexivity].
Defined.

Lemma no_rows_empty_list_witness :
  @get_forecasted_streamflow Example.runtime
    (MoreExamples.serving MoreExamples.empty_forecast_frame) Example.river None
  = Ok "[]" /\
  @get_forecast_stats Example.runtime
    (MoreExamples.serving MoreExamples.empty_forecast_frame) Example.river None
  = Ok "[]".
Proof.
  destruct (@no_rows_empty_list Example.runtime
              (MoreExamples.serving MoreExamples.empty_forecast_frame)
              Example.river None MoreExamples.empty_forecast_frame)
    as (H1 & H2); [prove_wf|reflexivity|reflexivity|].
  split; [apply H1|apply H2]; reflexivity.
Defined.

End ServerText.

(* ================================================================== *)
(** ** The data server: more on [get_historical_streamflow] *)

Module ServerHistory.
Import GeoglowsMcpServer ServerRecords ServerMore ServerBounds ServerText.
Section History.
Context {RT : Runtime} {GD : GeoglowsData}.

Lemma select_length {A} (mask : list bool) (xs : list A) :
  List.length xs = List.length mask ->
  List.length (select mask xs) = List.length (filter (fun b => b) mask).
Proof.
  revert xs. induction mask as [|b mask IH]; intros [|x xs] H; simpl in *;
    try reflexivity; try discriminate.
  destruct b; simpl; rewrite IH by lia; reflexivity.
Qed.

(** Selecting rows keeps a frame a frame, with its columns. *)
Lemma getitem_mask_wf (df : DataFrame) (mask : list bool) :
  wf_frame df ->
  List.length mask = nrows df ->
  wf_frame (getitem_mask df mask) /\
  columns (getitem_mask df mask) = columns df /\
  index_label (getitem_mask df mask) = index_label df.
Proof.
  intros [Hrect Hnd] Hlen.
  assert (Hcols : columns (getitem_mask df mask) = columns df).
  { unfold columns, getitem_mask. cbn [df_columns]. now rewrite map_map. }
  split; [split|split].
  - unfold getitem_mask, nrows at 1. cbn [df_columns df_index index_data].
    apply Forall_forall. intros c Hc. apply in_map_iff in Hc as [[l s] [<- Hin]].
    cbn [snd]. rewrite Forall_forall in Hrect. specialize (Hrect _ Hin).
    cbn [snd] in Hrect. unfold series_len in *.
    rewrite !series_values_select.
    rewrite !select_length; try reflexivity; unfold nrows, series_len in *; lia.
  - now rewrite Hcols.
  - exact Hcols.
  - unfold index_label, contains. rewrite Hcols. reflexivity.
Qed.

(** What the function serializes (the helper behind the statements). *)
Lemma historical_serializes
  (river_id : Z) (start_date end_date : option string)
  (df : DataFrame) (tz : option string) (v : list (option Z))
  (lo hi : option (option Z)) :
  data_retrospective river_id = Ok df ->
  wf_frame df ->
  pd_to_datetime (index_data (df_index df)) = Ok (S_datetime tz v) ->
  bound_of start_date = Ok lo ->
  bound_of end_date = Ok hi ->
  comparable tz lo ->
  comparable tz hi ->
  get_historical_streamflow river_id start_date end_date
  = dumps_records (getitem_mask (with_index df (S_datetime tz v))
                                (map (in_bounds lo hi) v)) /\
  List.length v = nrows df.
Proof.
  intros Hfetch [Hrect _] Hidx Hlo Hhi Clo Chi.
  set (fetched := with_index df (S_datetime tz v)).
  assert (Hlen : List.length v = nrows df).
  { apply pd_to_datetime_length in Hidx. unfold series_len in Hidx at 1.
    simpl in Hidx. now rewrite length_map in Hidx. }
  split; [|exact Hlen].
  unfold get_historical_streamflow. rewrite Hfetch. cbn [bind].
  rewrite Hidx. cbn [bind]. unfold set_index_data.
  replace (series_len (S_datetime tz v)) with (nrows df)
    by (unfold series_len; simpl; now rewrite length_map).
  rewrite Nat.eqb_refl. cbn [bind]. fold fetched.
  rewrite (keep_within_ok Z.geb start_date lo fetched tz v Hlo eq_refl Clo).
  cbn [bind].
  destruct lo as [a|].
  - rewrite (keep_within_ok Z.leb end_date hi
               (getitem_mask fetched (map (cmp_instant Z.geb a) v)) tz
               (select (map (cmp_instant Z.geb a) v) v) Hhi eq_refl Chi).
    cbn [bind]. f_equal. destruct hi as [b|].
    + rewrite (getitem_mask_twice fetched _ _ tz v eq_refl). reflexivity.
    + f_equal. apply map_ext. intro x.
      unfold in_bounds. simpl. now rewrite andb_true_r.
  - rewrite (keep_within_ok Z.leb end_date hi fetched tz v Hhi eq_refl Chi).
    cbn [bind]. f_equal. destruct hi as [b|]; [reflexivity|].
    symmetry. apply getitem_mask_all.
    + unfold fetched, with_index, nrows, series_len. simpl.
      rewrite length_map, Hlen. exact Hrect.
    + apply Forall_forall. intros b Hb. apply in_map_iff in Hb.
      now destruct Hb as [? [<- _]].
    + unfold fetched, with_index, nrows, series_len. simpl.
      now rewrite !length_map.
Qed.

Lemma with_index_wf (df : DataFrame) (s : Series) :
  wf_frame df -> series_len s = nrows df ->
  wf_frame (with_index df s) /\
  columns (with_index df s) = columns df /\
  index_label (with_index df s) = index_label df /\
  nrows (with_index df s) = nrows df.
Proof.
  intros [Hrect Hnd] Hlen. unfold with_index, wf_frame, nrows, columns,
    index_label, contains. cbn. repeat split; try assumption.
  unfold nrows in Hrect. now rewrite Hlen.
Qed.

(** X6.  No fetched row within the bounds is lost, and the frame that is
    serialized is a frame with the fetched columns: every column as long
    as the index of kept instants. *)
Theorem rows_within_bounds_are_kept
  (river_id : Z) (start_date end_date : option string)
  (df : DataFrame) (tz : option string) (v : list (option Z))
  (lo hi : option (option Z)) :
  data_retrospective river_id = Ok df ->
  wf_frame df ->
  pd_to_datetime (index_data (df_index df)) = Ok (S_datetime tz v) ->
  bound_of start_date = Ok lo ->
  bound_of end_date = Ok hi ->
  comparable tz lo ->
  comparable tz hi ->
  exists kept kept_instants,
    get_historical_streamflow river_id start_date end_date
    = dumps_records kept /\
    index_data (df_index kept) = S_datetime tz kept_instants /\
    wf_frame kept /\
    columns kept = columns df /\
    forall t,
      In (Some t) v ->
      (forall b, lo = Some b -> exists b', b = Some b' /\ (b' <= t)%Z) ->
      (forall b, hi = Some b -> exists b', b = Some b' /\ (t <= b')%Z) ->
      In (Some t) kept_instants.
Proof.
  intros Hfetch Hwf Hidx Hlo Hhi Clo Chi.
  destruct (historical_serializes river_id start_date end_date df tz v lo hi
              Hfetch Hwf Hidx Hlo Hhi Clo Chi) as [Heq Hlen].
  destruct (with_index_wf df (S_datetime tz v) Hwf) as (Hwf1 & Hc1 & _ & Hn1).
  { unfold series_len. simpl. now rewrite length_map. }
  destruct (getitem_mask_wf (with_index df (S_datetime tz v))
              (map (in_bounds lo hi) v) Hwf1) as (Hwf2 & Hc2 & _).
  { rewrite length_map, Hn1. exact Hlen. }
  eexists. exists (filter (in_bounds lo hi) v).
  split; [exact Heq|]. split.
  { unfold getitem_mask. simpl. now rewrite select_filter. }
  split; [exact Hwf2|]. split; [now rewrite Hc2|].
  intros t Hin Hl Hh. apply filter_In. split; [exact Hin|].
  unfold in_bounds, satisfies, cmp_instant. apply andb_true_intro. split.
  - destruct lo as [b|]; [|reflexivity].
    destruct (Hl b eq_refl) as [b' [-> Hle]]. apply Z.geb_le. lia.
  - destruct hi as [b|]; [|reflexivity].
    destruct (Hh b eq_refl) as [b' [-> Hle]]. now apply Z.leb_le.
Qed.

(** X7.  One record is returned for each fetched instant within the
    bounds. *)
Theorem one_record_per_kept_row
  (river_id : Z) (start_date end_date : option string)
  (df : DataFrame) (tz : option string) (v : list (option Z))
  (lo hi : option (option Z)) :
  data_retrospective river_id = Ok df ->
  wf_frame df ->
  contains df (index_label df) = false ->
  pd_to_datetime (index_data (df_index df)) = Ok (S_datetime tz v) ->
  bound_of start_date = Ok lo ->
  bound_of end_date = Ok hi ->
  comparable tz lo ->
  comparable tz hi ->
  exists records,
    get_historical_streamflow river_id start_date end_date
    = Json.dumps_indent2 (PList (map PDict records)) /\
    List.length records = List.length (filter (in_bounds lo hi) v).
Proof.
  intros Hfetch Hwf Hc Hidx Hlo Hhi Clo Chi.
  destruct (historical_serializes river_id start_date end_date df tz v lo hi
              Hfetch Hwf Hidx Hlo Hhi Clo Chi) as [Heq Hlen].
  destruct (with_index_wf df (S_datetime tz v) Hwf) as (Hwf1 & Hc1 & Hl1 & Hn1).
  { unfold series_len. simpl. now rewrite length_map. }
  destruct (getitem_mask_wf (with_index df (S_datetime tz v))
              (map (in_bounds lo hi) v) Hwf1) as (Hwf2 & Hc2 & Hl2).
  { rewrite length_map, Hn1. exact Hlen. }
  set (kept := getitem_mask (with_index df (S_datetime tz v))
                            (map (in_bounds lo hi) v)) in *.
  assert (Hck : contains kept (index_label kept) = false).
  { unfold contains. rewrite Hc2, Hl2, Hc1, Hl1. exact Hc. }
  exists (to_dict_records (converted_frame kept)). split.
  - rewrite Heq. unfold dumps_records.
    rewrite serializable_ok by (try apply Hwf2; exact Hck). reflexivity.
  - rewrite to_dict_records_length. unfold converted_frame.
    rewrite nrows_RangeIndex. unfold kept, getitem_mask, nrows, series_len.
    simpl. now rewrite length_map, select_filter.
Qed.

(** X8.  Bounds that leave no instant between them, the end before the
    start, are no error: the tool returns the empty JSON list. *)
Theorem inverted_bounds_empty_list
  (river_id : Z) (start_date end_date : option string)
  (df : DataFrame) (zone : string) (v : list (option Z)) (a b : Z) :
  data_retrospective river_id = Ok df ->
  wf_frame df ->
  contains df (index_label df) = false ->
  pd_to_datetime (index_data (df_index df)) = Ok (S_datetime (Some zone) v) ->
  bound_of start_date = Ok (Some (Some a)) ->
  bound_of end_date = Ok (Some (Some b)) ->
  (b < a)%Z ->
  get_historical_streamflow river_id start_date end_date = Ok "[]".
Proof.
  intros Hfetch Hwf Hc Hidx Hlo Hhi Hba.
  destruct (historical_serializes river_id start_date end_date df
              (Some zone) v _ _ Hfetch Hwf Hidx Hlo Hhi I I) as [Heq Hlen].
  destruct (with_index_wf df (S_datetime (Some zone) v) Hwf)
    as (Hwf1 & Hc1 & Hl1 & Hn1).
  { unfold series_len. simpl. now rewrite length_map. }
  destruct (getitem_mask_wf (with_index df (S_datetime (Some zone) v))
              (map (in_bounds (Some (Some a)) (Some (Some b))) v) Hwf1)
    as (Hwf2 & Hc2 & Hl2).
  { rewrite length_map, Hn1. exact Hlen. }
  rewrite Heq. apply dumps_records_empty.
  - apply Hwf2.
  - unfold contains. rewrite Hc2, Hl2, Hc1, Hl1. exact Hc.
  - unfold getitem_mask, nrows, series_len. simpl.
    rewrite length_map, select_filter.
    assert (Hnone : filter (in_bounds (Some (Some a)) (Some (Some b))) v = []).
    { clear - Hba. induction v as [|[t|] v IH]; simpl; [reflexivity| |exact IH].
      unfold in_bounds at 1. simpl.
      destruct (Z.geb_spec t a), (Z.leb_spec t b); simpl; try exact IH. lia. }
    now rewrite Hnone.
Qed.

(** X9.  An index without a time zone cannot be compared with a bound:
    with a start or an end date that pandas reads, the tool raises the
    [TypeError] of the comparison. *)
Theorem naive_index_raises
  (river_id : Z) (date : string) (other : option string)
  (df : DataFrame) (v : list (option Z)) (b : Z) :
  data_retrospective river_id = Ok df ->
  index_data (df_index df) = S_datetime None v ->
  truthy (Some date) = true ->
  to_datetime_utc date = Ok (Some b) ->
  let error := TypeError
    "Invalid comparison between dtype=datetime64[ns] and Timestamp" in
  get_historical_streamflow river_id (Some date) other = Raise error /\
  (truthy other = false ->
   get_historical_streamflow river_id other (Some date) = Raise error).
Proof.
  intros Hfetch Hidx Ht Hb error.
  assert (Hprefix : forall s e',
    get_historical_streamflow river_id s e'
    = (df1 <- keep_within Z.geb s df ;;
       df2 <- keep_within Z.leb e' df1 ;; dumps_records df2)).
  { intros s e'. unfold get_historical_streamflow. rewrite Hfetch. cbn [bind].
    rewrite Hidx. cbn [bind pd_to_datetime]. unfold set_index_data.
    rewrite <- Hidx. fold (nrows df). rewrite Nat.eqb_refl.
    rewrite ServerShape.with_index_same. reflexivity. }
  assert (Hraise : forall op, keep_within op (Some date) df = Raise error).
  { intro op. unfold keep_within. rewrite Ht, Hb. cbn [bind].
    unfold index_compare. rewrite Hidx. reflexivity. }
  split.
  - rewrite Hprefix, Hraise. reflexivity.
  - intro Ho. rewrite Hprefix.
    assert (Hskip : keep_within Z.geb other df = Ok df).
    { unfold keep_within. rewrite Ho. now destruct other. }
    rewrite Hskip. cbn [bind]. rewrite Hraise. reflexivity.
Qed.

(** X10.  What pandas raises on the dates is what the tool raises: the
    exception of the conversion of the index, of the start date, and,
    with no start date, of the end date. *)
Theorem date_errors_propagate
  (river_id : Z) (start_date end_date : option string)
  (df : DataFrame) (e : exn) :
  data_retrospective river_id = Ok df ->
  (pd_to_datetime (index_data (df_index df)) = Raise e ->
   get_historical_streamflow river_id start_date end_date = Raise e) /\
  (forall tz v s,
     index_data (df_index df) = S_datetime tz v ->
     start_date = Some s -> truthy start_date = true ->
     to_datetime_utc s = Raise e ->
     get_historical_streamflow river_id start_date end_date = Raise e) /\
  (forall tz v s,
     index_data (df_index df) = S_datetime tz v ->
     truthy start_date = false ->
     end_date = Some s -> truthy end_date = true ->
     to_datetime_utc s = Raise e ->
     get_historical_streamflow river_id start_date end_date = Raise e).
Proof.
  intro Hfetch.
  assert (Hprefix : forall tz v,
    index_data (df_index df) = S_datetime tz v ->
    get_historical_streamflow river_id start_date end_date
    = (df1 <- keep_within Z.geb start_date df ;;
       df2 <- keep_within Z.leb end_date df1 ;; dumps_records df2)).
  { intros tz v Hidx. unfold get_historical_streamflow.
    rewrite Hfetch. cbn [bind].
    rewrite Hidx. cbn [bind pd_to_datetime]. unfold set_index_data.
    rewrite <- Hidx. fold (nrows df). rewrite Nat.eqb_refl.
    rewrite ServerShape.with_index_same. reflexivity. }
  split; [|split].
  - intro H. unfold get_historical_streamflow. rewrite Hfetch. cbn [bind].
    rewrite H. reflexivity.
  - intros tz v s Hidx -> Ht He. rewrite (Hprefix tz v Hidx).
    unfold keep_within at 1. rewrite Ht, He. reflexivity.
  - intros tz v s Hidx Hs -> Ht He. rewrite (Hprefix tz v Hidx).
    assert (Hskip : keep_within Z.geb start_date df = Ok df).
    { unfold keep_within. rewrite Hs. now destruct start_date. }
    rewrite Hskip. cbn [bind]. unfold keep_within. rewrite Ht, He.
    reflexivity.
Qed.

End History.
End ServerHistory.

Module ServerHistoryExamples.
Import GeoglowsMcpServer ServerHistory Example MoreExamples.

Ltac bound_holds :=
  let b := fresh "b" in let H := fresh "H" in
  intros b H; injection H as <-; eexists; split;
  [reflexivity|vm_compute; discriminate].

(** From 19400101 to 19400102 the two midnights are among the kept
    instants. *)
Lemma rows_within_bounds_are_kept_witness :
  exists kept kept_instants,
    @get_historical_streamflow runtime service river
      (Some "19400101") (Some "19400102")
    = @dumps_records runtime kept /\
    index_data (df_index kept) = S_datetime utc kept_instants /\
    wf_frame kept /\
    In (Some day1) kept_instants /\ In (Some day2) kept_instants.
Proof.
  destruct (@rows_within_bounds_are_kept runtime service river
              (Some "19400101") (Some "19400102")
              retrospective_frame utc retrospective_instants
              (Some (Some day1)) (Some (Some day2)))
    as (kept & kept_instants & H1 & H2 & H3 & _ & H5);
    try reflexivity; try exact I; [prove_wf|].
  exists kept, kept_instants.
  split; [exact H1|]. split; [exact H2|]. split; [exact H3|].
  split; apply H5; try bound_holds.
  - right. left. reflexivity.
  - do 3 right. left. reflexivity.
Defined.

Lemma one_record_per_kept_row_witness :
  exists records,
    @get_historical_streamflow runtime service river
      (Some "19400101") (Some "19400102")
    = @Json.dumps_indent2 runtime (PList (map PDict records)) /\
    List.length records = 3.
Proof.
  destruct (@one_record_per_kept_row runtime service river
              (Some "19400101") (Some "19400102")
              retrospective_frame utc retrospective_instants
              (Some (Some day1)) (Some (Some day2)))
    as (records & H1 & H2);
    try reflexivity; try exact I; [prove_wf|].
  exists records. split; [exact H1|]. rewrite H2. vm_compute. reflexivity.
Defined.

Lemma inverted_bounds_empty_list_witness :
  @get_historical_streamflow runtime service river
    (Some "19400102") (Some "19400101")
  = Ok "[]".
Proof.
  apply (@inverted_bounds_empty_list runtime service river
           (Some "19400102") (Some "19400101")
           retrospective_frame "UTC" retrospective_instants day2 day1);
    try reflexivity; [prove_wf].
Defined.

Lemma naive_index_raises_witness :
  @get_historical_streamflow runtime (serving naive_frame) river
    (Some "19400101") None
  = Raise (TypeError
             "Invalid comparison between dtype=datetime64[ns] and Timestamp") /\
  @get_historical_streamflow runtime (serving naive_frame) river
    (Some "") (Some "19400101")
  = Raise (TypeError
             "Invalid comparison between dtype=datetime64[ns] and Timestamp").
Proof.
  split.
  - apply (@naive_index_raises runtime (serving naive_frame) river
             "19400101" None naive_frame retrospective_instants day1);
      reflexivity.
  - apply (@naive_index_raises runtime (serving naive_frame) river
             "19400101" (Some "") naive_frame retrospective_instants day1);
      reflexivity.
Defined.

Lemma date_errors_propagate_witness :
  @get_historical_streamflow runtime (serving text_index_frame) river None None
  = Raise (unknown_format "yesterday") /\
  @get_historical_streamflow runtime service river (Some "soon") None
  = Raise (unknown_format "soon") /\
  @get_historical_streamflow runtime service river None (Some "soon")
  = Raise (unknown_format "soon").
Proof.
  split; [|split].
  - destruct (@date_errors_propagate runtime (serving text_index_frame) river
                None None text_index_frame (unknown_format "yesterday")
                eq_refl) as (H & _).
    apply H. reflexivity.
  - destruct (@date_errors_propagate runtime service river
                (Some "soon") None retrospective_frame (unknown_format "soon")
                eq_refl) as (_ & H & _).
    apply (H utc retrospective_instants "soon"); reflexivity.
  - destruct (@date_errors_propagate runtime service river
                None (Some "soon") retrospective_frame (unknown_format "soon")
                eq_refl) as (_ & _ & H).
    apply (H utc retrospective_instants "soon"); reflexivity.
Defined.

End ServerHistoryExamples.

(* ================================================================== *)
(** ** The plotting callback: errors, order of the calls, whole runs *)

Module PlotStreamflowMore.
Import Agent PlotStreamflow.
Section Callback.
Context {RT : Runtime} {W : World}.

Ltac step H := rewrite H; cbv beta iota.

Ltac decide_request :=
  repeat match goal with
         | |- context [eq_str (PStr ?a) ?b] =>
             let v := eval vm_compute in (eq_str (PStr a) b) in
             change (eq_str (PStr a) b) with v
         end;
  cbv beta iota.

(** The callback once the response is read and is not for return
    periods. *)
Lemma plot_streamflow_after_read tool_context mcp_response data_request tr :
  plot_streamflow_response tool_context = Ok mcp_response ->
  subscript mcp_response "data_request" = Ok data_request ->
  eq_str data_request "get_return_periods" = false ->
  plot_streamflow tool_context tr
  = bindM (lift (plot_streamflow_frame mcp_response))
      (fun df =>
         bindM (plot_streamflow_dispatch mcp_response data_request df)
           (fun col_to_plot => plot_streamflow_save col_to_plot df)) tr.
Proof.
  intros Hresp Hreq Hrp. unfold plot_streamflow.
  unfold bindM at 1, lift at 1. step Hresp.
  unfold bindM at 1, lift at 1. step Hreq. now rewrite Hrp.
Qed.

(** X11.  What goes wrong while the response is read is raised before
    any call is made: no response in the state, a response without its
    [data_request], a response that is a list and not a mapping (with
    the message Python gives for a list indexed by a string). *)
Theorem reading_errors_make_no_call
  (tool_context : ToolContext) (tr : list Effect) :
  (dict_get (state tool_context) (L_str "streamflow_out") = None ->
   plot_streamflow tool_context tr = (tr, Raise (KeyError "streamflow_out"))) /\
  (forall d,
     plot_streamflow_response tool_context = Ok (PDict d) ->
     dict_get d (L_str "data_request") = None ->
     plot_streamflow tool_context tr = (tr, Raise (KeyError "data_request"))) /\
  (forall l,
     plot_streamflow_response tool_context = Ok (PList l) ->
     plot_streamflow tool_context tr
     = (tr, Raise (TypeError "list indices must be integers or slices, not str"))).
Proof.
  split; [|split].
  - intro H. unfold plot_streamflow, bindM, lift, plot_streamflow_response,
      subscript. now rewrite H.
  - intros d Hresp H. unfold plot_streamflow, bindM, lift.
    step Hresp. unfold subscript. now rewrite H.
  - intros l Hresp. unfold plot_streamflow, bindM, lift. now step Hresp.
Qed.

(** X12.  A kind of request that is none of the four is passed over in
    silence: once the frame is built, no call is made and the callback
    returns normally. *)
Theorem unknown_request_is_ignored
  (tool_context : ToolContext) (mcp_response data_request : pyvalue)
  (df : DataFrame) (tr : list Effect) :
  plot_streamflow_response tool_context = Ok mcp_response ->
  subscript mcp_response "data_request" = Ok data_request ->
  plot_streamflow_frame mcp_response = Ok df ->
  eq_str data_request "get_return_periods" = false ->
  eq_str data_request "get_forecasted_streamflow" = false ->
  eq_str data_request "get_historical_streamflow" = false ->
  eq_str data_request "get_forecast_stats" = false ->
  plot_streamflow tool_context tr = (tr, Ok tt).
Proof.
  intros Hresp Hreq Hframe H1 H2 H3 H4.
  rewrite (plot_streamflow_after_read _ _ _ _ Hresp Hreq H1).
  unfold bindM at 1, lift. step Hframe.
  unfold plot_streamflow_dispatch. rewrite H2, H3, H4. reflexivity.
Qed.

(** X13.  A forecast whose frame lacks a column raises the [KeyError] of
    that column and saves nothing: before any call when the median is
    missing, and with the median already plotted when a bound of the
    band is missing. *)
Theorem forecast_missing_column
  (tool_context : ToolContext) (mcp_response : pyvalue)
  (df : DataFrame) (tr : list Effect) :
  plot_streamflow_response tool_context = Ok mcp_response ->
  subscript mcp_response "data_request"
  = Ok (PStr "get_forecasted_streamflow") ->
  plot_streamflow_frame mcp_response = Ok df ->
  (contains df (L_str "flow_median") = false ->
   plot_streamflow tool_context tr = (tr, Raise (KeyError "flow_median"))) /\
  (forall median missing,
     getitem df (L_str "flow_median") = Ok median ->
     raises (Plot "flow_median" median (Some "Median Flow")) = None ->
     (contains df (L_str "flow_uncertainty_lower") = false /\
      missing = "flow_uncertainty_lower"
      \/
      contains df (L_str "flow_uncertainty_lower") = true /\
      contains df (L_str "flow_uncertainty_upper") = false /\
      missing = "flow_uncertainty_upper") ->
     plot_streamflow tool_context tr
     = (tr ++ [Plot "flow_median" median (Some "Median Flow")],
        Raise (KeyError missing))).
Proof.
  intros Hresp Hreq Hframe.
  assert (Hmiss : forall l, contains df l = false ->
                            getitem df l = Raise (KeyError (label_str l))).
  { intros l H. unfold getitem.
    destruct (find_column (df_columns df) l) eqn:E; [|reflexivity].
    exfalso. apply contains_not_In in H. apply H. unfold columns.
    clear - E. induction (df_columns df) as [|[l' s'] cols IH];
      simpl in *; [discriminate|].
    destruct (label_eqb l' l) eqn:El; [left; now apply label_eqb_eq|].
    right. now apply IH. }
  assert (Hhave : forall l, contains df l = true ->
                            exists s, getitem df l = Ok s).
  { intros l H. unfold getitem.
    destruct (find_column (df_columns df) l) eqn:E; [eauto|].
    exfalso. apply contains_In in H. unfold columns in H.
    clear - E H. induction (df_columns df) as [|[l' s'] cols IH];
      simpl in *; [contradiction|].
    destruct (label_eqb l' l) eqn:El; [discriminate|].
    destruct H as [H|H]; [subst; now rewrite label_eqb_refl in El|].
    now apply IH. }
  rewrite (plot_streamflow_after_read _ _ _ _ Hresp Hreq eq_refl).
  unfold bindM at 1, lift at 1. step Hframe.
  unfold plot_streamflow_dispatch. decide_request.
  split.
  - intro Hc. unfold bindM, lift. now rewrite (Hmiss _ Hc).
  - intros median missing Hm Rp Hcase.
    unfold bindM, lift. step Hm. step (call_runs _ tr Rp).
    destruct Hcase as [[Hl ->]|(Hl & Hu & ->)].
    + now rewrite (Hmiss _ Hl).
    + destruct (Hhave _ Hl) as [lower Hlower]. step Hlower.
      now rewrite (Hmiss _ Hu).
Qed.

(** X14.  A historical series without its reach identifier, or whose
    frame has no column named by it, raises the [KeyError] of the missing
    key before any call. *)
Theorem historical_missing_key
  (tool_context : ToolContext) (d : pydict)
  (df : DataFrame) (tr : list Effect) :
  plot_streamflow_response tool_context = Ok (PDict d) ->
  dict_get d (L_str "data_request") = Some (PStr "get_historical_streamflow") ->
  plot_streamflow_frame (PDict d) = Ok df ->
  (dict_get d (L_str "reach_id") = None ->
   plot_streamflow tool_context tr = (tr, Raise (KeyError "reach_id"))) /\
  (forall reach_id,
     dict_get d (L_str "reach_id") = Some reach_id ->
     find_column (df_columns df) (L_str (py_str reach_id)) = None ->
     plot_streamflow tool_context tr
     = (tr, Raise (KeyError (py_str reach_id)))).
Proof.
  intros Hresp Hreq Hframe.
  assert (Hreq' : subscript (PDict d) "data_request"
                  = Ok (PStr "get_historical_streamflow"))
    by (unfold subscript; now rewrite Hreq).
  rewrite (plot_streamflow_after_read _ _ _ _ Hresp Hreq' eq_refl).
  unfold bindM at 1, lift at 1. step Hframe.
  unfold plot_streamflow_dispatch. decide_request.
  split.
  - intro H. unfold bindM, lift, subscript. now rewrite H.
  - intros reach_id H Hcol. unfold bindM, lift, subscript. step H.
    unfold getitem. now rewrite Hcol.
Qed.

End Callback.
End PlotStreamflowMore.

(* ================================================================== *)
(** ** The plotting callback: the order of the calls, whole runs, the
       time column *)

Module PlotStreamflowRuns.
Import Agent PlotStreamflow PlotStreamflowMore.
Section Callback.
Context {RT : Runtime} {W : World}.

Ltac step H := rewrite H; cbv beta iota.

Ltac decide_request :=
  repeat match goal with
         | |- context [eq_str (PStr ?a) ?b] =>
             let v := eval vm_compute in (eq_str (PStr a) b) in
             change (eq_str (PStr a) b) with v
         end;
  cbv beta iota.

Lemma only_draws_ret {A} (a : A) : only_draws (ret a).
Proof. intro tr. exists []. split; [simpl; now rewrite app_nil_r|reflexivity]. Qed.

Lemma only_draws_lift {A} (r : result A) : only_draws (lift r).
Proof. intro tr. exists []. split; [simpl; now rewrite app_nil_r|reflexivity]. Qed.

Lemma only_draws_call (e : Effect) :
  is_drawing e = true -> only_draws (call e).
Proof.
  intros He tr. exists [e]. split; [reflexivity|]. simpl. now rewrite He.
Qed.

Lemma only_draws_bind {A B} (m : M A) (k : A -> M B) :
  only_draws m -> (forall a, only_draws (k a)) -> only_draws (bindM m k).
Proof.
  intros Hm Hk tr. unfold bindM. destruct (Hm tr) as [d1 [H1 D1]].
  destruct (m tr) as [tr' [a|e]]; simpl in H1; subst tr'.
  - destruct (Hk a (tr ++ d1)) as [d2 [H2 D2]]. exists (d1 ++ d2).
    rewrite H2, app_assoc. split; [reflexivity|].
    rewrite forallb_app, D1, D2. reflexivity.
  - exists d1. split; [reflexivity|exact D1].
Qed.

Ltac only_draws :=
  repeat first
    [ apply only_draws_ret
    | apply only_draws_lift
    | apply only_draws_call; reflexivity
    | apply only_draws_bind; [|intro] ].

Lemma dispatch_only_draws mcp_response data_request df :
  only_draws (plot_streamflow_dispatch mcp_response data_request df).
Proof.
  unfold plot_streamflow_dispatch.
  destruct (eq_str data_request "get_forecasted_streamflow"); [only_draws|].
  destruct (eq_str data_request "get_historical_streamflow"); [only_draws|].
  destruct (eq_str data_request "get_forecast_stats"); only_draws.
Qed.

(** The last step makes a prefix of the four saving calls. *)
Lemma save_makes_saving_calls col_to_plot df tr :
  exists n,
    fst (plot_streamflow_save col_to_plot df tr)
    = tr ++ firstn n (saving_calls tr).
Proof.
  unfold plot_streamflow_save.
  destruct col_to_plot as [col|];
    [|exists 0; simpl; now rewrite app_nil_r].
  destruct (negb (String.eqb col "") && contains df (L_str col));
    [|exists 0; simpl; now rewrite app_nil_r].
  unfold bindM, get_trace, call, saving_calls. cbv beta iota.
  destruct (raises (Savefig "png" "tight")); [exists 1; reflexivity|].
  destruct (raises Close);
    [exists 2; simpl; now rewrite <- app_assoc|].
  destruct (raises (Print (png_bytes tr)));
    [exists 3; simpl; now rewrite <- !app_assoc|].
  exists 4. simpl. now rewrite <- !app_assoc.
Qed.

(** X15.  Whatever the state and however the run ends, the callback
    first makes drawing calls only and then a prefix of the sequence
    savefig, close, print, save_artifact: at most one artifact is saved,
    after the figure was written, and its bytes are the bytes printed,
    those of the figure as drawn up to then. *)
Theorem calls_draw_then_save (tool_context : ToolContext) (tr : list Effect) :
  exists drawn n,
    fst (plot_streamflow tool_context tr)
    = tr ++ drawn ++ firstn n (saving_calls (tr ++ drawn)) /\
    forallb is_drawing drawn = true.
Proof.
  assert (Hnone : exists drawn n,
            tr = tr ++ drawn ++ firstn n (saving_calls (tr ++ drawn)) /\
            forallb is_drawing drawn = true).
  { exists [], 0. simpl. now rewrite app_nil_r. }
  unfold plot_streamflow, bindM at 1, lift at 1.
  destruct (plot_streamflow_response tool_context) as [mcp_response|e];
    [|exact Hnone].
  unfold bindM at 1, lift at 1.
  destruct (subscript mcp_response "data_request") as [data_request|e];
    [|exact Hnone].
  destruct (eq_str data_request "get_return_periods"); [exact Hnone|].
  unfold bindM at 1, lift at 1.
  destruct (plot_streamflow_frame mcp_response) as [df|e]; [|exact Hnone].
  unfold bindM.
  destruct (dispatch_only_draws mcp_response data_request df tr)
    as [drawn [Hd Dd]].
  destruct (plot_streamflow_dispatch mcp_response data_request df tr)
    as [tr' [col|e]]; simpl in Hd; subst tr'.
  - destruct (save_makes_saving_calls col df (tr ++ drawn)) as [n Hn].
    exists drawn, n. rewrite Hn, app_assoc. split; [reflexivity|exact Dd].
  - exists drawn, 0. simpl. rewrite app_nil_r. split; [reflexivity|exact Dd].
Qed.

Lemma call_calm (Hcalm : calm W) (e : Effect) (tr : list Effect) :
  call e tr = (tr ++ [e], Ok tt).
Proof. unfold call. now rewrite Hcalm. Qed.

Lemma save_in_calm_world (col : string) (df : DataFrame) (tr : list Effect) :
  calm W ->
  col <> ""%string ->
  contains df (L_str col) = true ->
  plot_streamflow_save (Some col) df tr = (tr ++ saving_calls tr, Ok tt).
Proof.
  intros Hcalm Hcol Hc. unfold plot_streamflow_save. rewrite Hc.
  destruct (String.eqb_spec col ""); [contradiction|]. cbn [negb andb].
  unfold bindM, get_trace, call, saving_calls. cbv beta iota.
  rewrite !Hcalm. now rewrite <- !app_assoc.
Qed.

(** X16.  A forecast in a world where no call fails: the median is
    plotted, the band filled, the legend drawn, and the figure with these
    three is printed and saved as the artifact. *)
Theorem forecast_run
  (tool_context : ToolContext) (mcp_response : pyvalue) (df : DataFrame)
  (median lower upper : Series) (tr : list Effect) :
  plot_streamflow_response tool_context = Ok mcp_response ->
  subscript mcp_response "data_request"
  = Ok (PStr "get_forecasted_streamflow") ->
  plot_streamflow_frame mcp_response = Ok df ->
  getitem df (L_str "flow_median") = Ok median ->
  getitem df (L_str "flow_uncertainty_lower") = Ok lower ->
  getitem df (L_str "flow_uncertainty_upper") = Ok upper ->
  calm W ->
  let drawn := [Plot "flow_median" median (Some "Median Flow"%string);
                FillBetween (df_index df) lower upper; Legend] in
  plot_streamflow tool_context tr
  = (tr ++ drawn ++ saving_calls (tr ++ drawn), Ok tt).
Proof.
  intros Hresp Hreq Hframe Hm Hl Hu Hcalm drawn.
  rewrite (plot_streamflow_after_read _ _ _ _ Hresp Hreq eq_refl).
  unfold bindM at 1, lift at 1. step Hframe.
  unfold bindM at 1. unfold plot_streamflow_dispatch. decide_request.
  unfold bindM, lift. cbv beta. step Hm.
  step (call_calm Hcalm). step Hl. step Hu.
  step (call_calm Hcalm). step (call_calm Hcalm).
  unfold ret.
  rewrite (save_in_calm_world "flow_median" df _ Hcalm)
    by (try discriminate; eapply getitem_contains; exact Hm).
  unfold drawn. rewrite <- !app_assoc. reflexivity.
Qed.

Lemma Z_str_not_empty (z : Z) : Z_str z <> ""%string.
Proof.
  unfold Z_str. destruct (Z.to_int z) as [d|d]; simpl.
  - destruct d; discriminate.
  - discriminate.
Qed.

(** X17.  For a stored output that conforms to [GeoglowsAgentOutput], a
    historical series is plotted from the column named by the decimal
    text of the integer [reach_id]; in a world where no call fails that
    one plot is printed and saved as the artifact. *)
Theorem historical_run
  (tool_context : ToolContext) (d : pydict) (df : DataFrame)
  (tr : list Effect) :
  plot_streamflow_response tool_context = Ok (PDict d) ->
  conforms GeoglowsAgentOutput d = true ->
  dict_get d (L_str "data_request") = Some (PStr "get_historical_streamflow") ->
  plot_streamflow_frame (PDict d) = Ok df ->
  calm W ->
  exists reach_id,
    dict_get d (L_str "reach_id") = Some (PInt reach_id) /\
    forall series,
      getitem df (L_str (Z_str reach_id)) = Ok series ->
      let drawn := [Plot (Z_str reach_id) series None] in
      plot_streamflow tool_context tr
      = (tr ++ drawn ++ saving_calls (tr ++ drawn), Ok tt).
Proof.
  intros Hresp Hconf Hreq Hframe Hcalm.
  assert (Hid : exists z, dict_get d (L_str "reach_id") = Some (PInt z)).
  { unfold conforms, GeoglowsAgentOutput in Hconf. cbn [forallb fst snd] in Hconf.
    apply andb_prop in Hconf as [_ Hconf].
    apply andb_prop in Hconf as [Hconf _].
    destruct (dict_get d (L_str "reach_id")) as [[]|]; try discriminate.
    eauto. }
  destruct Hid as [z Hz]. exists z. split; [exact Hz|].
  intros series Hs drawn.
  assert (Hreq' : subscript (PDict d) "data_request"
                  = Ok (PStr "get_historical_streamflow"))
    by (unfold subscript; now rewrite Hreq).
  rewrite (plot_streamflow_after_read _ _ _ _ Hresp Hreq' eq_refl).
  unfold bindM at 1, lift at 1. step Hframe.
  unfold bindM at 1. unfold plot_streamflow_dispatch. decide_request.
  unfold bindM, lift, subscript. cbv beta. step Hz. cbn [py_str].
  step Hs. step (call_calm Hcalm).
  unfold ret.
  rewrite (save_in_calm_world (Z_str z) df _ Hcalm)
    by (try apply Z_str_not_empty; eapply getitem_contains; exact Hs).
  unfold drawn. rewrite <- !app_assoc. reflexivity.
Qed.

End Callback.
End PlotStreamflowRuns.

(* ================================================================== *)
(** ** The plotting callback: the frame and its time column *)

Module PlotStreamflowFrame.
Import Agent.
Section Frame.
Context {RT : Runtime} {W : World}.

Lemma find_replace_same cols l s :
  In l (map fst cols) -> find_column (replace_column cols l s) l = Some s.
Proof.
  induction cols as [|[l' s'] cols IH]; simpl; intro H; [contradiction|].
  destruct (label_eqb l' l) eqn:E; simpl; rewrite E; [reflexivity|].
  apply IH. destruct H as [H|H]; [|exact H].
  subst. now rewrite label_eqb_refl in E.
Qed.

Lemma find_replace_other cols l s l' :
  l' <> l -> In l (map fst cols) ->
  find_column (replace_column cols l s) l' = find_column cols l'.
Proof.
  intros Hne. induction cols as [|[k x] cols IH]; simpl; intro H;
    [contradiction|].
  destruct (label_eqb k l) eqn:E; simpl.
  - apply label_eqb_eq in E. subst k.
    destruct (label_eqb l l') eqn:E'; [|reflexivity].
    apply label_eqb_eq in E'. congruence.
  - destruct (label_eqb k l'); [reflexivity|].
    apply IH. destruct H as [H|H]; [|exact H].
    subst. now rewrite label_eqb_refl in E.
Qed.

Lemma replace_labels cols l s :
  In l (map fst cols) -> map fst (replace_column cols l s) = map fst cols.
Proof.
  induction cols as [|[k x] cols IH]; simpl; intro H; [contradiction|].
  destruct (label_eqb k l) eqn:E; simpl; [reflexivity|].
  f_equal. apply IH. destruct H as [H|H]; [|exact H].
  subst. now rewrite label_eqb_refl in E.
Qed.

Lemma find_drop_other cols l l' :
  l' <> l -> find_column (drop_column cols l) l' = find_column cols l'.
Proof.
  intro Hne. induction cols as [|[k x] cols IH]; simpl; [reflexivity|].
  destruct (label_eqb k l) eqn:E; simpl.
  - apply label_eqb_eq in E. subst k.
    destruct (label_eqb l l') eqn:E'; [|reflexivity].
    apply label_eqb_eq in E'. congruence.
  - now rewrite IH.
Qed.

Lemma drop_labels cols l :
  NoDup (map fst cols) -> ~ In l (map fst (drop_column cols l)).
Proof.
  induction cols as [|[k x] cols IH]; simpl; intros Hnd Hin; [exact Hin|].
  inversion Hnd as [|? ? Hk Hnd']; subst.
  destruct (label_eqb k l) eqn:E.
  - apply label_eqb_eq in E. subst k. contradiction.
  - simpl in Hin. destruct Hin as [Hin|Hin].
    + subst. now rewrite label_eqb_refl in E.
    + now apply IH.
Qed.

(** X18.  When the frame built from the data has a [time] column, that
    column, read as datetimes, becomes the index and is no column any
    more; every other column is left as it was.  Without a [time] column
    the frame is used as it was built. *)
Theorem time_becomes_the_index
  (mcp_response data parsed : pyvalue) (df0 : DataFrame) :
  subscript mcp_response "data" = Ok data ->
  loads data = Ok parsed ->
  pd_DataFrame parsed = Ok df0 ->
  NoDup (columns df0) ->
  (contains df0 (L_str "time") = false ->
   plot_streamflow_frame mcp_response = Ok df0) /\
  (forall t t',
     getitem df0 (L_str "time") = Ok t ->
     pd_to_datetime t = Ok t' ->
     exists df,
       plot_streamflow_frame mcp_response = Ok df /\
       df_index df = mkIndex (Some (L_str "time")) t' /\
       contains df (L_str "time") = false /\
       forall l, l <> L_str "time" -> getitem df l = getitem df0 l).
Proof.
  intros Hdata Hloads Hframe Hnd.
  assert (Hprefix : plot_streamflow_frame mcp_response
    = if contains df0 (L_str "time") then
        t <- getitem df0 (L_str "time") ;;
        t <- pd_to_datetime t ;;
        set_index (setitem df0 (L_str "time") t) (L_str "time")
      else Ok df0).
  { unfold plot_streamflow_frame. rewrite Hdata. cbn [bind].
    rewrite Hloads. cbn [bind]. rewrite Hframe. reflexivity. }
  split.
  - intro Hc. now rewrite Hprefix, Hc.
  - intros t t' Ht Ht'.
    assert (Hin : In (L_str "time") (map fst (df_columns df0))).
    { apply contains_In. unfold getitem in Ht.
      destruct (find_column (df_columns df0) (L_str "time")) eqn:E;
        [|discriminate].
      apply contains_In. unfold columns. clear - E.
      induction (df_columns df0) as [|[k x] cols IH]; simpl in *;
        [discriminate|].
      destruct (label_eqb k (L_str "time")) eqn:Ek;
        [left; now apply label_eqb_eq|].
      right. now apply IH. }
    assert (Hc : contains df0 (L_str "time") = true) by now apply contains_In.
    rewrite Hprefix, Hc, Ht. cbn [bind]. rewrite Ht'. cbn [bind].
    unfold set_index, setitem, getitem. cbn [df_columns df_index].
    rewrite find_replace_same by exact Hin. cbn [bind].
    eexists. split; [reflexivity|]. cbn [df_index df_columns].
    split; [reflexivity|]. split.
    + apply contains_not_In. unfold columns. cbn [df_columns].
      apply drop_labels. now rewrite replace_labels.
    + intros l Hl. cbn [df_columns].
      rewrite find_drop_other by exact Hl.
      now rewrite find_replace_other.
Qed.

End Frame.
End PlotStreamflowFrame.

Module PlotStreamflowMoreExamples.
Import Agent PlotStreamflowMore PlotStreamflowRuns PlotStreamflowFrame.
Import Example MoreExamples.

Lemma reading_errors_make_no_call_witness :
  plot (mkToolContext []) [] = ([], Raise (KeyError "streamflow_out")) /\
  plot (context (PDict [])) [] = ([], Raise (KeyError "data_request")) /\
  plot (context (PList [])) []
  = ([], Raise (TypeError "list indices must be integers or slices, not str")).
Proof.
  split; [|split].
  - destruct (@reading_errors_make_no_call runtime world (mkToolContext []) [])
      as (H & _).
    apply H. reflexivity.
  - destruct (@reading_errors_make_no_call runtime world
                (context (PDict [])) []) as (_ & H & _).
    apply (H []); reflexivity.
  - destruct (@reading_errors_make_no_call runtime world
                (context (PList [])) []) as (_ & _ & H).
    apply (H []); reflexivity.
Defined.

(** A request for a tool the server does not have. *)
Lemma unknown_request_is_ignored_witness :
  plot (context (PDict (response "get_reach_id" stats_records))) []
  = ([], Ok tt).
Proof.
  apply (@unknown_request_is_ignored runtime world
           (context (PDict (response "get_reach_id" stats_records)))
           (PDict (response "get_reach_id" stats_records))
           (PStr "get_reach_id")
           (frame_of (response "get_reach_id" stats_records)) []);
    vm_compute; reflexivity.
Defined.

Lemma forecast_missing_column_witness :
  plot (context (PDict (response "get_forecasted_streamflow" stats_records))) []
  = ([], Raise (KeyError "flow_median")) /\
  (exists median,
     plot_more (context (PDict (response "get_forecasted_streamflow"
                                         median_only_records))) []
     = ([Plot "flow_median" median (Some "Median Flow"%string)],
        Raise (KeyError "flow_uncertainty_lower"))) /\
  (exists median,
     plot_more (context (PDict (response "get_forecasted_streamflow"
                                         no_upper_records))) []
     = ([Plot "flow_median" median (Some "Median Flow"%string)],
        Raise (KeyError "flow_uncertainty_upper"))).
Proof.
  split; [|split].
  - destruct (@forecast_missing_column runtime world
                (context (PDict (response "get_forecasted_streamflow"
                                          stats_records)))
                (PDict (response "get_forecasted_streamflow" stats_records))
                (frame_of (response "get_forecasted_streamflow" stats_records))
                []) as (H & _); [vm_compute; reflexivity ..|].
    apply H. vm_compute. reflexivity.
  - destruct (@forecast_missing_column runtime_more world
                (context (PDict (response "get_forecasted_streamflow"
                                          median_only_records)))
                (PDict (response "get_forecasted_streamflow"
                                 median_only_records))
                (match @plot_streamflow_frame runtime_more world
                         (PDict (response "get_forecasted_streamflow"
                                          median_only_records)) with
                 | Ok df => df
                 | Raise _ => mkDataFrame (RangeIndex 0) []
                 end)
                []) as (_ & H); [vm_compute; reflexivity ..|].
    eexists. apply H; [vm_compute; reflexivity|reflexivity|].
    left. split; [vm_compute|]; reflexivity.
  - destruct (@forecast_missing_column runtime_more world
                (context (PDict (response "get_forecasted_streamflow"
                                          no_upper_records)))
                (PDict (response "get_forecasted_streamflow" no_upper_records))
                (match @plot_streamflow_frame runtime_more world
                         (PDict (response "get_forecasted_streamflow"
                                          no_upper_records)) with
                 | Ok df => df
                 | Raise _ => mkDataFrame (RangeIndex 0) []
                 end)
                []) as (_ & H); [vm_compute; reflexivity ..|].
    eexists. apply H; [vm_compute; reflexivity|reflexivity|].
    right. split; [vm_compute; reflexivity|].
    split; [vm_compute|]; reflexivity.
Defined.

Lemma historical_missing_key_witness :
  plot (context (PDict no_reach_response)) []
  = ([], Raise (KeyError "reach_id")) /\
  plot (context (PDict other_reach_response)) [] = ([], Raise (KeyError "1")).
Proof.
  split.
  - destruct (@historical_missing_key runtime world
                (context (PDict no_reach_response)) no_reach_response
                (frame_of no_reach_response) [])
      as (H & _); [vm_compute; reflexivity ..|].
    apply H. reflexivity.
  - destruct (@historical_missing_key runtime world
                (context (PDict other_reach_response)) other_reach_response
                (frame_of other_reach_response) [])
      as (_ & H); [vm_compute; reflexivity ..|].
    apply (H (PInt 1%Z)); vm_compute; reflexivity.
Defined.

Lemma forecast_run_witness :
  exists median lower upper,
    plot (context (PDict forecast_response)) []
    = ([Plot "flow_median" median (Some "Median Flow"%string);
        FillBetween (df_index (frame_of forecast_response)) lower upper;
        Legend]
       ++ @saving_calls world
            [Plot "flow_median" median (Some "Median Flow"%string);
             FillBetween (df_index (frame_of forecast_response)) lower upper;
             Legend],
       Ok tt).
Proof.
  do 3 eexists.
  apply (@forecast_run runtime world (context (PDict forecast_response))
           (PDict forecast_response) (frame_of forecast_response)
           _ _ _ []);
    [vm_compute; reflexivity ..|intro e; reflexivity].
Defined.

Lemma historical_run_witness :
  exists series,
    plot (context (PDict historical_response)) []
    = ([Plot "760701588" series None]
       ++ @saving_calls world [Plot "760701588" series None],
       Ok tt).
Proof.
  destruct (@historical_run runtime world (context (PDict historical_response))
              historical_response (frame_of historical_response) [])
    as (z & Hz & H);
    [vm_compute; reflexivity ..|intro e; reflexivity|].
  assert (Hriver : z = river).
  { vm_compute in Hz. now injection Hz as <-. }
  subst z. eexists. apply H. vm_compute. reflexivity.
Defined.

Lemma time_becomes_the_index_witness :
  exists df,
    @plot_streamflow_frame runtime world (PDict stats_response) = Ok df /\
    index_name (df_index df) = Some (L_str "time") /\
    columns df = [L_str "flow_avg"; L_str "high_res"].
Proof.
  destruct (@time_becomes_the_index runtime world (PDict stats_response)
              (PStr (dumps stats_records)) stats_records
              (match frame_of_records stats_records with
               | Ok df => df
               | Raise _ => mkDataFrame (RangeIndex 0) []
               end))
    as (_ & H);
    [vm_compute; reflexivity ..
    |vm_compute; repeat (constructor; [simpl; intuition discriminate|]);
     constructor
    |].
  destruct (H (S_object [PStr "2025-10-24T00:00:00+00:00";
                         PStr "2025-10-24T01:00:00+00:00"])
              (S_datetime utc [Some t0; Some (t0 + hour)%Z]))
    as (df & Hdf & Hidx & _ & _); [vm_compute; reflexivity ..|].
  exists df. split; [exact Hdf|]. split; [now rewrite Hidx|].
  vm_compute in Hdf. injection Hdf as <-. reflexivity.
Defined.

End PlotStreamflowMoreExamples.
